(** * Claude Action Center: triage views and project registry

    A shallow embedding of the filters of the four tabs of the task page,
    of the snooze resolver, of the REST handlers for tasks and projects
    and of the tools of the MCP server, over a small model of the
    JavaScript strings, dates and time stamps they compute with and of
    the Prisma client they call.  Handlers are written in a state and
    exception monad over the stored rows; each round trip to the storage
    may fail, as told by the world the handler runs in. *)

From Stdlib Require Import ZArith List Bool Ascii String Lia Permutation.
Import ListNotations.

Open Scope string_scope.
Open Scope Z_scope.

(** ** JavaScript strings and calendar dates *)

Module Js.

(** A string is held as the bytes of its UTF-8 encoding, which is also
    how a string literal of this file is read: a character up to U+007F
    is one byte, and every other character is two to four bytes from
    128 up.

    JavaScript compares strings with [<], [<=], [>] by code units,
    lexicographically.  On the bytes that is [String.compare] whenever
    one of the two strings is plain ASCII, as the date strings are that
    the views and the resolver compare with. *)
Definition str_lt (a b : string) : bool := String.ltb a b.
Definition str_le (a b : string) : bool := String.leb a b.
Definition str_gt (a b : string) : bool := String.ltb b a.

(** Truthiness of a string: every string but the empty one. *)
Definition truthy (s : string) : bool :=
  match s with EmptyString => false | String _ _ => true end.

Definition utf8 (bytes : list N) : string :=
  string_of_list_ascii (map ascii_of_N bytes).

(** The white space and the line terminators of ECMAScript, which
    [String.prototype.trim] strips: U+0009 to U+000D, U+0020, U+00A0,
    U+1680, U+2000 to U+200A, U+2028, U+2029, U+202F, U+205F, U+3000 and
    U+FEFF. *)
Definition white_space : list string :=
  map utf8
    [ [9]; [10]; [11]; [12]; [13]; [32];
      [194; 160];
      [225; 154; 128];
      [226; 128; 128]; [226; 128; 129]; [226; 128; 130]; [226; 128; 131];
      [226; 128; 132]; [226; 128; 133]; [226; 128; 134]; [226; 128; 135];
      [226; 128; 136]; [226; 128; 137]; [226; 128; 138];
      [226; 128; 168]; [226; 128; 169]; [226; 128; 175];
      [226; 129; 159];
      [227; 128; 128];
      [239; 187; 191] ]%N.

(** [s] without the prefix [p], if it starts with it. *)
Fixpoint strip_prefix (p s : string) : option string :=
  match p with
  | EmptyString => Some s
  | String a p' =>
      match s with
      | EmptyString => None
      | String b s' => if Ascii.eqb a b then strip_prefix p' s' else None
      end
  end.

Fixpoint strip_first (ps : list string) (s : string) : option string :=
  match ps with
  | [] => None
  | p :: ps' =>
      match strip_prefix p s with
      | Some r => Some r
      | None => strip_first ps' s
      end
  end.

(** Strips the strings of [ps] from the front of [s] as long as one of
    them is there; each step shortens [s], so its length is fuel
    enough. *)
Fixpoint strip_all (ps : list string) (fuel : nat) (s : string) : string :=
  match fuel with
  | O => s
  | S fuel' =>
      match strip_first ps s with
      | Some r => strip_all ps fuel' r
      | None => s
      end
  end.

Definition reverse (s : string) : string :=
  string_of_list_ascii (rev (list_ascii_of_string s)).

Definition trimStart (s : string) : string :=
  strip_all white_space (String.length s) s.

(** The encoding of a character ends where the string ends, so the
    white space at the end is what the reversed string starts with,
    byte for byte backwards. *)
Definition trimEnd (s : string) : string :=
  reverse (strip_all (map reverse white_space) (String.length s) (reverse s)).

Definition trim (s : string) : string := trimEnd (trimStart s).

(** [s.split(sep)] for a one-character separator. *)
Fixpoint split (sep : ascii) (s : string) : list string :=
  match s with
  | EmptyString => [EmptyString]
  | String c s' =>
      if Ascii.eqb c sep then EmptyString :: split sep s'
      else match split sep s' with
           | [] => [String c EmptyString]
           | w :: ws => String c w :: ws
           end
  end.

(** Decimal digits. *)
Definition digit_char (k : Z) : ascii := ascii_of_N (48 + Z.to_N k).

Definition digit_val (c : ascii) : option Z :=
  let n := N_of_ascii c in
  if ((48 <=? n)%N && (n <=? 57)%N)%bool then Some (Z.of_N n - 48) else None.

(** [String(n)] for an integer [n]: decimal, no leading zero.  Twenty
    digits are more than any integer a [Date] field can hold. *)
Fixpoint digits_of (fuel : nat) (n : Z) (acc : string) : string :=
  match fuel with
  | O => acc
  | S fuel' =>
      let acc' := String (digit_char (n mod 10)) acc in
      if n / 10 =? 0 then acc' else digits_of fuel' (n / 10) acc'
  end.

Definition String_of_int (n : Z) : string :=
  if n <? 0 then String "-" (digits_of 20 (- n) EmptyString)
  else digits_of 20 n EmptyString.

(** [Number(s)] on a string of decimal digits.  [None] stands for [NaN]
    and for the numeral forms (signs, blanks, exponents, hexadecimal)
    that no date string of the app contains. *)
Fixpoint Number_digits (s : string) (acc : Z) : option Z :=
  match s with
  | EmptyString => Some acc
  | String c s' =>
      match digit_val c with
      | Some k => Number_digits s' (10 * acc + k)
      | None => None
      end
  end.

Definition Number (s : string) : option Z := Number_digits s 0.

(** [s.padStart(n, fill)] with a one-character filler. *)
Fixpoint repeat_char (c : ascii) (n : nat) : string :=
  match n with O => EmptyString | S n' => String c (repeat_char c n') end.

Definition padStart (s : string) (n : nat) (fill : ascii) : string :=
  repeat_char fill (n - String.length s) ++ s.

(** A [Date] at day granularity, in local time: the three fields the app
    reads with [getFullYear], [getMonth] (0-based) and [getDate]. *)
Record Date : Type := mkDate {
  getFullYear : Z;
  getMonth : Z;
  getDate : Z
}.

Definition is_leap (y : Z) : bool :=
  ((y mod 4 =? 0) && negb (y mod 100 =? 0)) || (y mod 400 =? 0).

Definition days_in_month (y m : Z) : Z :=
  if m =? 1 then (if is_leap y then 29 else 28)
  else if (m =? 3) || (m =? 5) || (m =? 8) || (m =? 10) then 30
  else 31.

Definition next_day (d : Date) : Date :=
  if getDate d <? days_in_month (getFullYear d) (getMonth d)
  then mkDate (getFullYear d) (getMonth d) (getDate d + 1)
  else if getMonth d <? 11
       then mkDate (getFullYear d) (getMonth d + 1) 1
       else mkDate (getFullYear d + 1) 0 1.

Definition prev_day (d : Date) : Date :=
  if 1 <? getDate d
  then mkDate (getFullYear d) (getMonth d) (getDate d - 1)
  else if 0 <? getMonth d
       then mkDate (getFullYear d) (getMonth d - 1)
                   (days_in_month (getFullYear d) (getMonth d - 1))
       else mkDate (getFullYear d - 1) 11 31.

Definition add_days (k : Z) (d : Date) : Date :=
  if 0 <=? k then Nat.iter (Z.to_nat k) next_day d
  else Nat.iter (Z.to_nat (- k)) prev_day d.

(** The calendar date that the year [y], the month index [m] and the
    day of the month [d] name: a two-digit year counts from 1900, a
    month index outside 0..11 carries into the year, and a day of the
    month outside the month carries into the neighbouring months. *)
Definition calendar (y m d : Z) : Date :=
  let y' := if (0 <=? y) && (y <=? 99) then 1900 + y else y in
  let months := 12 * y' + m in
  add_days (d - 1) (mkDate (months / 12) (months mod 12) 1).

(** The time zone of the host, as far as whole days go: the local
    calendar days the zone has skipped, as Pacific/Apia skipped 30
    December 2011.  No zone on record skips two days in a row. *)
Record Zone : Type := mkZone {
  skipped : Date -> bool
}.

(** A zone that has skipped no day. *)
Definition regular : Zone := {| skipped := fun _ => false |}.

(** [new Date(y, m, d)] on a host in the zone [z]: midnight of the
    calendar date named, in local time; a local time the zone has
    skipped is read with the offset from before the skip, which is the
    first moment after it, on the next day. *)
Definition new_Date_in (z : Zone) (y m d : Z) : Date :=
  let c := calendar y m d in
  if skipped z c then next_day c else c.

(** [new Date(y, m, d)] on a host whose zone has skipped no day. *)
Definition new_Date (y m d : Z) : Date := new_Date_in regular y m d.

(** An instant as the host sees it: the local calendar date, the time of
    the day, and the offset of the host's zone at the instant, in
    minutes east of UTC. *)
Record Instant : Type := mkInstant {
  local_day : Date;
  local_minutes : Z;
  seconds : Z;
  millis : Z;
  zone_offset : Z
}.

(** The calendar date and the minute of the day of an instant in UTC. *)
Definition utc_day (i : Instant) : Date :=
  add_days ((local_minutes i - zone_offset i) / 1440) (local_day i).

Definition utc_minutes (i : Instant) : Z :=
  (local_minutes i - zone_offset i) mod 1440.

Definition pad (n : Z) (width : nat) : string :=
  padStart (String_of_int n) width "0".

(** [d.toISOString()], for a year from 0 to 9999: the date and the time
    in UTC, as [YYYY-MM-DDTHH:mm:ss.sssZ]. *)
Definition toISOString (i : Instant) : string :=
  pad (getFullYear (utc_day i)) 4 ++ "-"
  ++ pad (getMonth (utc_day i) + 1) 2 ++ "-"
  ++ pad (getDate (utc_day i)) 2 ++ "T"
  ++ pad (utc_minutes i / 60) 2 ++ ":"
  ++ pad (utc_minutes i mod 60) 2 ++ ":"
  ++ pad (seconds i) 2 ++ "."
  ++ pad (millis i) 3 ++ "Z".

End Js.

(** ** The task list page ([page.tsx]: part_001, lines 137 to 1365) *)

Module Page.
Import Js.

(** [type Task] of the page, which is also the row the task table
    stores.  Nullable fields are options. *)
Record Task : Type := mkTask {
  id : string;
  title : string;
  notes : option string;
  project : string;
  status : string;
  due_date : option string;
  snoozed_until : option string;
  source : string;
  created_at : string;
  updated_at : string
}.

(** [localDate(d)]: year, month and day joined with dashes, month and
    day padded to two digits. *)
Definition localDate (d : Date) : string :=
  String.concat "-"
    [ String_of_int (getFullYear d);
      padStart (String_of_int (getMonth d + 1)) 2 "0";
      padStart (String_of_int (getDate d)) 2 "0" ].

(** [shiftDays(base, n)] on a host in the zone [z]: the first three
    dash-separated fields of [base] read as numbers, then
    [new Date(y, m - 1, d + n)].  The result is [None] when a field is
    missing or is not a number, where the page would build a date of
    [NaN] fields. *)
Definition shiftDays_in (z : Zone) (base : string) (n : Z) : option string :=
  match map Number (split "-" base) with
  | Some y :: Some m :: Some d :: _ =>
      Some (localDate (new_Date_in z y (m - 1) (d + n)))
  | _ => None
  end.

(** [shiftDays(base, n)] on a host whose zone has skipped no day. *)
Definition shiftDays (base : string) (n : Z) : option string :=
  shiftDays_in regular base n.

Definition not_done (t : Task) : bool := negb (String.eqb (status t) "done").

(** The three filters of [UpcomingTab]. *)
Definition is_overdue (today : string) (t : Task) : bool :=
  not_done t &&
  match due_date t with
  | Some d => str_lt d today
  | None => false
  end.

Definition is_dueToday (today : string) (t : Task) : bool :=
  not_done t &&
  match due_date t with
  | Some d => String.eqb d today
  | None => false
  end.

Definition is_upcoming (today todayPlus6 : string) (t : Task) : bool :=
  not_done t &&
  match due_date t with
  | Some d => str_gt d today && str_le d todayPlus6
  | None => false
  end.

(** The filter of [ScheduledTab]. *)
Definition is_scheduled (todayPlus7 : string) (t : Task) : bool :=
  not_done t &&
  match due_date t with
  | Some d => str_gt d todayPlus7
  | None => false
  end.

(** The filter of [CompletedTab]. *)
Definition is_completed (t : Task) : bool := String.eqb (status t) "done".

(** The filter of [UnscheduledTab]: [!t.due_date] holds for [null] and
    for the empty string. *)
Definition is_unscheduled (t : Task) : bool :=
  not_done t &&
  negb match due_date t with
       | Some d => truthy d
       | None => false
       end.

Record UpcomingSections : Type := {
  overdue : list Task;
  dueToday : list Task;
  upcoming : list Task
}.

Definition UpcomingTab (tasks : list Task) (today todayPlus6 : string)
  : UpcomingSections :=
  {| overdue := filter (is_overdue today) tasks;
     dueToday := filter (is_dueToday today) tasks;
     upcoming := filter (is_upcoming today todayPlus6) tasks |}.

(** [ScheduledTab] before its sort, which only reorders the rows. *)
Definition ScheduledTab (tasks : list Task) (todayPlus7 : string) : list Task :=
  filter (is_scheduled todayPlus7) tasks.

Definition CompletedTab (tasks : list Task) : list Task :=
  filter is_completed tasks.

Definition UnscheduledTab (tasks : list Task) : list Task :=
  filter is_unscheduled tasks.

(** The three dates [Home] computes once and hands to the tabs, on a host
    whose zone has skipped no day; [now] is the value of [new Date()]. *)
Record Horizon : Type := {
  today : string;
  todayPlus6 : string;
  todayPlus7 : string
}.

Definition Home_dates (now : Date) : option Horizon :=
  let today := localDate now in
  match shiftDays today 6, shiftDays today 7 with
  | Some p6, Some p7 =>
      Some {| today := today; todayPlus6 := p6; todayPlus7 := p7 |}
  | _, _ => None
  end.

(** The six row contexts ([type RowCtx]), one for each list of rows the
    four tabs build. *)
Inductive RowCtx : Type :=
  | ctx_overdue | ctx_due_today | ctx_upcoming
  | ctx_scheduled | ctx_completed | ctx_unscheduled.

End Page.


(** ** The Prisma client ([src/lib/db.ts]) *)

Module Prisma.
Import Js Page.

(** A row of the project table. *)
Record Project : Type := mkProject {
  pid : string;
  name : string
}.

(** Modelled from the spec: the schema file of the database is not among
    the sources.  After the spec's data model, a project's [name] is
    unique across all projects (the handlers rely on it: they upsert a
    project by its name and test for the unique-constraint error), ids
    are assigned by the store at creation, and [updated_at] is refreshed
    on every mutating write.  Rows are kept in insertion order; [next_id]
    numbers the rows created so far and [clock] is the current time as
    [toISOString] writes it. *)
Record Db : Type := mkDb {
  project_rows : list Project;
  task_rows : list Task;
  next_id : Z;
  clock : string
}.

(** Modelled from the spec: a task starts [pending], the first of the
    four statuses the spec lists; the column default is in the absent
    schema. *)
Definition default_status : string := "pending".

Definition fresh_id (db : Db) : string := String_of_int (next_id db).

(** The errors a query raises: the two known request errors the handlers
    test for, and any other failure of the storage. *)
Inductive PrismaError : Type :=
  | P2002   (* unique constraint failed *)
  | P2025   (* record to update or delete not found *)
  | StorageFailure.

(** A query not yet sent ([PrismaPromise]): on a given state of the
    rows it either fails, changing nothing, or gives a result and the
    next state.  It is run by awaiting it or inside a [$transaction]. *)
Inductive Outcome (A : Type) : Type :=
  | Failed (e : PrismaError)
  | Done (a : A) (db' : Db).
Arguments Failed {A} e.
Arguments Done {A} a db'.

Definition Query (A : Type) : Type := Db -> Outcome A.

Definition set_projects (db : Db) (ps : list Project) : Db :=
  mkDb ps (task_rows db) (next_id db) (clock db).
Definition set_tasks (db : Db) (ts : list Task) : Db :=
  mkDb (project_rows db) ts (next_id db) (clock db).

Definition has_pid (i : string) (p : Project) : bool := String.eqb (pid p) i.
Definition has_name (n : string) (p : Project) : bool := String.eqb (name p) n.
Definition has_id (i : string) (t : Task) : bool := String.eqb (Page.id t) i.
Definition in_project (n : string) (t : Task) : bool := String.eqb (project t) n.

(** [db.project.findUnique({ where: { id } })] *)
Definition project_findUnique (i : string) : Query (option Project) :=
  fun db => Done (find (has_pid i) (project_rows db)) db.

(** [db.project.create({ data: { name } })] *)
Definition project_create (n : string) : Query Project :=
  fun db =>
    if existsb (has_name n) (project_rows db) then Failed P2002
    else
      let p := mkProject (fresh_id db) n in
      Done p (mkDb (project_rows db ++ [p]) (task_rows db)
                   (next_id db + 1) (clock db)).

(** [db.project.upsert({ where: { name }, update: {}, create: { name } })] *)
Definition project_upsert (n : string) : Query Project :=
  fun db =>
    match find (has_name n) (project_rows db) with
    | Some p => Done p db
    | None => project_create n db
    end.

(** [db.project.update({ where: { id }, data: { name } })] *)
Definition project_update (i : string) (n : string) : Query Project :=
  fun db =>
    match find (has_pid i) (project_rows db) with
    | None => Failed P2025
    | Some p =>
        if existsb (fun q => has_name n q && negb (has_pid i q)) (project_rows db)
        then Failed P2002
        else
          let p' := mkProject (pid p) n in
          Done p' (set_projects db
                     (map (fun q => if has_pid i q then mkProject (pid q) n else q)
                          (project_rows db)))
    end.

(** [db.project.delete({ where: { id } })] *)
Definition project_delete (i : string) : Query Project :=
  fun db =>
    match find (has_pid i) (project_rows db) with
    | None => Failed P2025
    | Some p =>
        Done p (set_projects db
                  (filter (fun q => negb (has_pid i q)) (project_rows db)))
    end.

(** Insertion sort, stable, by a comparison of keys; the [orderBy] of
    [findMany]. *)
Fixpoint insert_by {A : Type} (le : A -> A -> bool) (x : A) (l : list A) : list A :=
  match l with
  | [] => [x]
  | y :: l' => if le x y then x :: l else y :: insert_by le x l'
  end.

Definition sort_by {A : Type} (le : A -> A -> bool) (l : list A) : list A :=
  fold_right (insert_by le) [] l.

(** [db.project.findMany({ orderBy: { name: "asc" } })] *)
Definition project_findMany : Query (list Project) :=
  fun db =>
    Done (sort_by (fun p q => str_le (name p) (name q)) (project_rows db)) db.

Definition with_project (n : string) (now : string) (t : Task) : Task :=
  mkTask (Page.id t) (title t) (notes t) n (status t) (due_date t)
         (snoozed_until t) (source t) (created_at t) now.

(** [db.task.updateMany({ where: { project: old }, data: { project: n } })];
    the result is the number of rows updated. *)
Definition task_updateMany (old n : string) : Query Z :=
  fun db =>
    Done (Z.of_nat (List.length (filter (in_project old) (task_rows db))))
         (set_tasks db
            (map (fun t => if in_project old t then with_project n (clock db) t else t)
                 (task_rows db))).

(** The [data] of [db.task.create]. *)
Record TaskCreateData : Type := {
  c_title : string;
  c_project : string;
  c_notes : option string;
  c_due_date : option string;
  c_source : string
}.

(** [db.task.create({ data })] *)
Definition task_create (d : TaskCreateData) : Query Task :=
  fun db =>
    let t := mkTask (fresh_id db) (c_title d) (c_notes d) (c_project d)
                    default_status (c_due_date d) None (c_source d)
                    (clock db) (clock db) in
    Done t (mkDb (project_rows db) (task_rows db ++ [t])
                 (next_id db + 1) (clock db)).

(** The [data] of [db.task.update]: [None] is a field left out. *)
Record TaskUpdateData : Type := {
  u_title : option string;
  u_notes : option string;
  u_project : option string;
  u_status : option string;
  u_due_date : option string;
  u_snoozed_until : option string
}.

Definition or_else {A : Type} (o : option A) (a : A) : A :=
  match o with Some x => x | None => a end.

Definition or_keep {A : Type} (o : option A) (a : option A) : option A :=
  match o with Some x => Some x | None => a end.

(** A [data] that sets no field. *)
Definition no_data (d : TaskUpdateData) : bool :=
  match u_title d, u_notes d, u_project d, u_status d, u_due_date d,
        u_snoozed_until d with
  | None, None, None, None, None, None => true
  | _, _, _, _, _, _ => false
  end.

(** The row an update leaves: the fields of [data] are set and
    [updated_at] becomes the time of the write; with a [data] that sets
    no field nothing is written and the row is as it was. *)
Definition apply_update (d : TaskUpdateData) (now : string) (t : Task) : Task :=
  if no_data d then t
  else mkTask (Page.id t)
              (or_else (u_title d) (title t))
              (or_keep (u_notes d) (notes t))
              (or_else (u_project d) (project t))
              (or_else (u_status d) (status t))
              (or_keep (u_due_date d) (due_date t))
              (or_keep (u_snoozed_until d) (snoozed_until t))
              (source t) (created_at t) now.

(** [db.task.update({ where: { id }, data })] *)
Definition task_update (i : string) (d : TaskUpdateData) : Query Task :=
  fun db =>
    match find (has_id i) (task_rows db) with
    | None => Failed P2025
    | Some t =>
        Done (apply_update d (clock db) t)
             (set_tasks db
                (map (fun u => if has_id i u then apply_update d (clock db) u else u)
                     (task_rows db)))
    end.

(** [db.task.findUnique({ where: { id } })] *)
Definition task_findUnique (i : string) : Query (option Task) :=
  fun db => Done (find (has_id i) (task_rows db)) db.

(** [db.task.delete({ where: { id } })] *)
Definition task_delete (i : string) : Query Task :=
  fun db =>
    match find (has_id i) (task_rows db) with
    | None => Failed P2025
    | Some t =>
        Done t (set_tasks db (filter (fun u => negb (has_id i u)) (task_rows db)))
    end.

(** [db.task.findMany({ where, orderBy: { created_at: "desc" } })], the
    [where] holding the project and the status asked for, if any. *)
Definition task_findMany (by_project by_status : option string) : Query (list Task) :=
  fun db =>
    let keep t :=
      match by_project with Some n => in_project n t | None => true end &&
      match by_status with Some s => String.eqb (status t) s | None => true end in
    Done (sort_by (fun a b => str_le (created_at b) (created_at a))
            (filter keep (task_rows db))) db.

(** [db.task.groupBy({ by: ["project"], _count: { id: true } })]: one row
    per project name in use, with the number of its tasks. *)
Definition task_groupBy_project : Query (list (string * Z)) :=
  fun db =>
    let names := nodup string_dec (map project (task_rows db)) in
    Done (map (fun n =>
                 (n, Z.of_nat (List.length (filter (in_project n) (task_rows db)))))
              names) db.

(** The world a handler runs in: the database, and for each round trip
    to it still to come whether the storage fails on it. *)
Record World : Type := mkWorld {
  db : Db;
  faults : list bool
}.

(** Handler code reads and writes the world, and returns or throws. *)
Inductive Result (A : Type) : Type :=
  | Threw (e : PrismaError)
  | Returned (a : A).
Arguments Threw {A} e.
Arguments Returned {A} a.

Definition M (A : Type) : Type := World -> Result A * World.

Definition ret {A : Type} (a : A) : M A := fun w => (Returned a, w).

Definition bind {A B : Type} (m : M A) (k : A -> M B) : M B :=
  fun w =>
    match m w with
    | (Threw e, w') => (Threw e, w')
    | (Returned a, w') => k a w'
    end.

(** [try { m } catch (err) { h err }] *)
Definition try_catch {A : Type} (m : M A) (h : PrismaError -> M A) : M A :=
  fun w =>
    match m w with
    | (Threw e, w') => h e w'
    | (Returned a, w') => (Returned a, w')
    end.

Definition next_fault (w : World) : bool :=
  match faults w with b :: _ => b | [] => false end.

(** [await q]: one round trip.  A failed query changes no row. *)
Definition await {A : Type} (q : Query A) : M A :=
  fun w =>
    if next_fault w then (Threw StorageFailure, mkWorld (db w) (tl (faults w)))
    else match q (db w) with
         | Failed e => (Threw e, mkWorld (db w) (tl (faults w)))
         | Done a db' => (Returned a, mkWorld db' (tl (faults w)))
         end.

(** The two queries of a batch, in order; the second runs on the rows
    the first leaves, and a failure of either fails the batch. *)
Definition seq2 {A B : Type} (q1 : Query A) (q2 : Query B) : Query (A * B) :=
  fun db =>
    match q1 db with
    | Failed e => Failed e
    | Done a db1 =>
        match q2 db1 with
        | Failed e => Failed e
        | Done b db2 => Done (a, b) db2
        end
    end.

(** [await db.$transaction([q1, q2])]: one round trip for the batch; the
    rows change only when both queries succeed. *)
Definition transaction {A B : Type} (q1 : Query A) (q2 : Query B) : M (A * B) :=
  await (seq2 q1 q2).

End Prisma.

(** ** Shared helpers of the routes ([lib/api-helpers.ts]: part_002) *)

Module Api.
Import Js Page Prisma.

Declare Scope handler_scope.
Delimit Scope handler_scope with handler.
Notation "x <- m ;; k" := (bind m (fun x => k))
  (at level 100, m at next level, right associativity) : handler_scope.
Notation "'try' m 'catch' h" := (try_catch m h)
  (at level 100, m at next level, h at next level) : handler_scope.

(** A project of the list, with its derived [task_count]. *)
Record ProjectWithCount : Type := {
  pc_id : string;
  pc_name : string;
  task_count : Z
}.

(** What a response carries. *)
Inductive Json : Type :=
  | JError (error : string)
  | JTask (t : Task)
  | JTaskList (ts : list Task)
  | JProject (p : Project)
  | JProjectList (ps : list ProjectWithCount)
  | JNone.

Record Response : Type := mkResponse {
  res_status : Z;
  res_body : Json
}.

Definition errorResponse (message : string) (status : Z) : Response :=
  mkResponse status (JError message).

Definition VALID_STATUSES : list string :=
  ["pending"; "in_progress"; "done"; "snoozed"].

Definition with_status (s : string) (t : Task) : Task :=
  mkTask (Page.id t) (title t) (notes t) (project t) s (due_date t)
         (snoozed_until t) (source t) (created_at t) (updated_at t).

(** The day of an ISO time stamp: [iso.split("T")[0]]. *)
Definition day_of_iso (iso : string) : string :=
  hd EmptyString (split "T" iso).

(** [resolveSnooze(task)]; [now] is [new Date().toISOString()]. *)
Definition resolveSnooze (now : string) (task : Task) : Task :=
  if String.eqb (status task) "snoozed" &&
     match snoozed_until task with
     | Some u => str_lt u (day_of_iso now)
     | None => false
     end
  then with_status "pending" task
  else task.

(** [new Date().toISOString()] in a handler. *)
Definition Date_now : M string := fun w => (Returned (clock (db w)), w).

(** [!s || s.trim() === ""] for a field of a request body. *)
Definition blank (s : option string) : bool :=
  match s with
  | None => true
  | Some v => negb (truthy v) || String.eqb (trim v) EmptyString
  end.

Definition dquote : string := String (ascii_of_N 34) EmptyString.

End Api.

(** ** The route of one project (part_000, lines 1 to 75) *)

Module ProjectRoute.
Import Js Page Prisma Api.
Local Open Scope handler_scope.

Definition UNCATEGORISED : string := "Uncategorised".

(** The body of a request is [None] when it is not JSON; a field of it is
    [None] when it is left out. *)
Record Body : Type := { b_name : option string }.

Definition PATCH (id : string) (request : option Body) : M Response :=
  match request with
  | None => ret (errorResponse "Invalid JSON body" 400)
  | Some body =>
      if blank (b_name body) then ret (errorResponse "name is required" 400)
      else
        let name := or_else (b_name body) EmptyString in
        existing <- await (project_findUnique id) ;;
        match existing with
        | None => ret (errorResponse "Project not found" 404)
        | Some existing =>
            try (r <- transaction
                        (project_update id (trim name))
                        (task_updateMany (Prisma.name existing) (trim name)) ;;
                 ret (mkResponse 200 (JProject (fst r))))
            catch (fun err =>
                 match err with
                 | P2002 =>
                     ret (errorResponse
                            ("Project name " ++ dquote ++ name ++ dquote
                             ++ " already exists") 409)
                 | _ => ret (errorResponse "Failed to rename project" 500)
                 end)
        end
  end.

Definition DELETE (id : string) : M Response :=
  project <- await (project_findUnique id) ;;
  match project with
  | None => ret (errorResponse "Project not found" 404)
  | Some project =>
      try (_ <- await (project_upsert UNCATEGORISED) ;;
           _ <- transaction
                  (task_updateMany (Prisma.name project) UNCATEGORISED)
                  (project_delete id) ;;
           ret (mkResponse 204 JNone))
      catch (fun _ => ret (errorResponse "Failed to delete project" 500))
  end.

End ProjectRoute.

(** ** The route of the projects (part_000, lines 77 to 133) *)

Module ProjectsRoute.
Import Js Page Prisma Api.
Local Open Scope handler_scope.

Record Body : Type := { b_name : option string }.

(** [countMap.get(name) ?? 0] on the rows of the [groupBy]. *)
Definition count_of (rows : list (string * Z)) (n : string) : Z :=
  match find (fun r => String.eqb (fst r) n) rows with
  | Some r => snd r
  | None => 0
  end.

Definition GET : M Response :=
  try (projects <- await project_findMany ;;
       taskCounts <- await task_groupBy_project ;;
       ret (mkResponse 200
              (JProjectList
                 (map (fun p => {| pc_id := pid p;
                                   pc_name := Prisma.name p;
                                   task_count := count_of taskCounts (Prisma.name p) |})
                      projects))))
  catch (fun _ => ret (errorResponse "Failed to retrieve projects" 500)).

Definition POST (request : option Body) : M Response :=
  match request with
  | None => ret (errorResponse "Invalid JSON body" 400)
  | Some body =>
      if blank (b_name body) then ret (errorResponse "name is required" 400)
      else
        let name := or_else (b_name body) EmptyString in
        try (project <- await (project_create (trim name)) ;;
             ret (mkResponse 201 (JProject project)))
        catch (fun err =>
             match err with
             | P2002 =>
                 ret (errorResponse
                        ("Project " ++ dquote ++ name ++ dquote
                         ++ " already exists") 409)
             | _ => ret (errorResponse "Failed to create project" 500)
             end)
  end.

End ProjectsRoute.

(** ** The route of the tasks ([mcp-server/src/index.ts], lines 256 to 321) *)

Module TasksRoute.
Import Js Page Prisma Api.
Local Open Scope handler_scope.

Record Body : Type := {
  b_title : option string;
  b_project : option string;
  b_notes : option string;
  b_due_date : option string;
  b_source : option string
}.

(** [v ? { field: v } : {}] for a search parameter. *)
Definition if_truthy (v : option string) : option string :=
  match v with
  | Some s => if truthy s then Some s else None
  | None => None
  end.

Definition GET (project status : option string) : M Response :=
  try (tasks <- await (task_findMany (if_truthy project) (if_truthy status)) ;;
       now <- Date_now ;;
       ret (mkResponse 200 (JTaskList (map (resolveSnooze now) tasks))))
  catch (fun _ => ret (errorResponse "Failed to retrieve tasks" 500)).

Definition POST (request : option Body) : M Response :=
  match request with
  | None => ret (errorResponse "Invalid JSON body" 400)
  | Some body =>
      if blank (b_title body) then ret (errorResponse "title is required" 400)
      else if blank (b_project body) then ret (errorResponse "project is required" 400)
      else
        let title := or_else (b_title body) EmptyString in
        let project := or_else (b_project body) EmptyString in
        try (_ <- await (project_upsert (trim project)) ;;
             task <- await (task_create
                              {| c_title := trim title;
                                 c_project := trim project;
                                 c_notes := b_notes body;
                                 c_due_date := b_due_date body;
                                 c_source :=
                                   match b_source body with
                                   | Some s => if String.eqb s "claude"
                                               then "claude" else "manual"
                                   | None => "manual"
                                   end |}) ;;
             ret (mkResponse 201 (JTask task)))
        catch (fun _ => ret (errorResponse "Failed to create task" 500))
  end.

End TasksRoute.

(** ** The route of one task (part_001, lines 1367 to 1450) *)

Module TaskRoute.
Import Js Page Prisma Api.
Local Open Scope handler_scope.

Record Body : Type := {
  b_title : option string;
  b_notes : option string;
  b_project : option string;
  b_status : option string;
  b_due_date : option string;
  b_snoozed_until : option string
}.

Definition isPrismaNotFound (err : PrismaError) : bool :=
  match err with P2025 => true | _ => false end.

Definition GET (id : string) : M Response :=
  try (task <- await (task_findUnique id) ;;
       match task with
       | None => ret (errorResponse "Task not found" 404)
       | Some task =>
           now <- Date_now ;;
           ret (mkResponse 200 (JTask (resolveSnooze now task)))
       end)
  catch (fun _ => ret (errorResponse "Failed to retrieve task" 500)).

Definition includes (l : list string) (s : string) : bool :=
  existsb (String.eqb s) l.

Definition PATCH (id : string) (request : option Body) : M Response :=
  match request with
  | None => ret (errorResponse "Invalid JSON body" 400)
  | Some body =>
      if match b_status body with
         | Some s => negb (includes VALID_STATUSES s)
         | None => false
         end
      then ret (errorResponse
                  ("Invalid status. Must be one of: "
                   ++ String.concat ", " VALID_STATUSES) 400)
      else
        _ <- match b_project body with
             | Some project =>
                 if truthy project
                 then (_ <- await (project_upsert project) ;; ret tt)
                 else ret tt
             | None => ret tt
             end ;;
        try (task <- await (task_update id
                              {| u_title := b_title body;
                                 u_notes := b_notes body;
                                 u_project := b_project body;
                                 u_status := b_status body;
                                 u_due_date := b_due_date body;
                                 u_snoozed_until := b_snoozed_until body |}) ;;
             now <- Date_now ;;
             ret (mkResponse 200 (JTask (resolveSnooze now task))))
        catch (fun err =>
             if isPrismaNotFound err
             then ret (errorResponse "Task not found" 404)
             else ret (errorResponse "Failed to update task" 500))
  end.

Definition DELETE (id : string) : M Response :=
  try (_ <- await (task_delete id) ;;
       ret (mkResponse 204 JNone))
  catch (fun err =>
       if isPrismaNotFound err
       then ret (errorResponse "Task not found" 404)
       else ret (errorResponse "Failed to delete task" 500)).

End TaskRoute.

(** ** Sample states *)

Module Scenario.
Import Js Page Prisma Api.

Definition stamp : string := "2026-11-01T09:00:00.000Z".

Definition task_in (i p : string) : Task :=
  mkTask i "Ship" None p "pending" (Some "2026-11-01") None "manual" stamp stamp.

(** Monday 2 November 2026, the dates of the page on that day, and a
    pending task due on a given day. *)
Definition monday : Date := mkDate 2026 10 2.

Definition page_dates : Horizon :=
  {| today := "2026-11-02"; todayPlus6 := "2026-11-08"; todayPlus7 := "2026-11-09" |}.

Definition task_due (d : string) : Task :=
  mkTask "1" "Ship" None "Alpha" "pending" (Some d) None "manual" stamp stamp.

(** One project, Alpha, with one task. *)
Definition db_alpha : Db :=
  mkDb [mkProject "1" "Alpha"] [task_in "2" "Alpha"] 3 "2026-11-02T10:00:00.000Z".

(** Two projects, Alpha with one task and Gamma with none. *)
Definition db_two : Db :=
  mkDb [mkProject "1" "Alpha"; mkProject "3" "Gamma"] [task_in "2" "Alpha"] 4
       "2026-11-02T10:00:00.000Z".

(** The sentinel project alone, with one task. *)
Definition db_sentinel : Db :=
  mkDb [mkProject "1" "Uncategorised"] [task_in "2" "Uncategorised"] 3
       "2026-11-02T10:00:00.000Z".

(** A request to create a task whose source is not the string the
    handler looks for, and the task it stores in [db_alpha]. *)
Definition body_other_source : TasksRoute.Body :=
  {| TasksRoute.b_title := Some "Ship";
     TasksRoute.b_project := Some "Alpha";
     TasksRoute.b_notes := None;
     TasksRoute.b_due_date := None;
     TasksRoute.b_source := Some "Claude" |}.

Definition task_other_source : Task :=
  mkTask "3" "Ship" None "Alpha" "pending" None None "manual"
         "2026-11-02T10:00:00.000Z" "2026-11-02T10:00:00.000Z".

(** A storage that does not fail, and one that fails on the third round
    trip. *)
Definition steady (d : Db) : World := mkWorld d [].
Definition failing_third (d : Db) : World := mkWorld d [false; false; true].

End Scenario.

(** ** Notions the properties are stated with *)

Module Spec.
Import Js Page Prisma Api.

(** Whether the view of a context keeps a task: the filter of that
    context, on the dates of the page. *)
Definition in_bucket (h : Horizon) (c : RowCtx) (t : Task) : bool :=
  match c with
  | ctx_overdue => is_overdue (today h) t
  | ctx_due_today => is_dueToday (today h) t
  | ctx_upcoming => is_upcoming (today h) (todayPlus6 h) t
  | ctx_scheduled => is_scheduled (todayPlus7 h) t
  | ctx_completed => is_completed t
  | ctx_unscheduled => is_unscheduled t
  end.

Definition all_ctx : list RowCtx :=
  [ctx_overdue; ctx_due_today; ctx_upcoming;
   ctx_scheduled; ctx_completed; ctx_unscheduled].

(** The contexts a task is shown under. *)
Definition buckets_of (h : Horizon) (t : Task) : list RowCtx :=
  filter (fun c => in_bucket h c t) all_ctx.


Definition is_digit (k : Z) : Prop := 0 <= k <= 9.

Definition digits_str (l : list Z) : string :=
  fold_right (fun k s => String (digit_char k) s) EmptyString l.

Definition digits_val (l : list Z) (acc : Z) : Z :=
  fold_left (fun a k => 10 * a + k) l acc.

(** Order of two digit lists of one length, first difference first. *)
Fixpoint lex_cmp (l1 l2 : list Z) : comparison :=
  match l1, l2 with
  | a :: l1', b :: l2' =>
      match a ?= b with
      | Eq => lex_cmp l1' l2'
      | c => c
      end
  | [], [] => Eq
  | [], _ :: _ => Lt
  | _ :: _, [] => Gt
  end.

(** The dates the views meet: a four-digit year, a month index and a day
    of that month. *)
Definition valid_date (d : Date) : Prop :=
  1000 <= getFullYear d <= 9999 /\
  0 <= getMonth d <= 11 /\
  1 <= getDate d <= days_in_month (getFullYear d) (getMonth d).

(** The eight digits of a date, and the number they write. *)
Definition date_digits (d : Date) : list Z :=
  let y := getFullYear d in
  let m := getMonth d + 1 in
  let k := getDate d in
  [y / 1000; y / 100 mod 10; y / 10 mod 10; y mod 10;
   m / 10; m mod 10; k / 10; k mod 10].

Definition date_key (d : Date) : Z :=
  10000 * getFullYear d + 100 * (getMonth d + 1) + getDate d.

(** The date [n] days after [d]. *)
Definition days_later (n : nat) (d : Date) : Date := Nat.iter n next_day d.

(** A date that is in a year before 9999, or in the first [j] days of
    the year 9999. *)
Definition within (j : Z) (d : Date) : Prop :=
  valid_date d /\
  (getFullYear d <= 9998 \/ (getMonth d = 0 /\ getDate d <= j)).

(** A snooze has lapsed when the task is snoozed until a day strictly
    before today. *)
Definition lapsed (today : string) (t : Task) : Prop :=
  status t = "snoozed" /\
  exists u, snoozed_until t = Some u /\ str_lt u today = true.

(** A field of a request body that is left out, or empty once trimmed. *)
Definition empty_after_trim (o : option string) : Prop :=
  match o with
  | None => True
  | Some v => trim v = EmptyString
  end.

(** The [source] the task handler stores for the one a request gives. *)
Definition stored_source (o : option string) : string :=
  match o with
  | Some s => if String.eqb s "claude" then "claude" else "manual"
  | None => "manual"
  end.

(** The invariant of the data model: the project of every stored task
    is not empty and is the name of a stored project. *)
Definition projects_consistent (d : Db) : Prop :=
  forall t, In t (task_rows d) ->
    project t <> EmptyString /\ In (project t) (map name (project_rows d)).

(** A status that the update handler lets through. *)
Definition status_accepted (o : option string) : Prop :=
  match o with
  | Some s => In s VALID_STATUSES
  | None => True
  end.

End Spec.

(** ** The state of the page and its handlers (part_001, lines 1169 to 1249) *)

Module PageState.
Import Js Page Prisma.

(** What the page learns from a request to update a task: the task the
    server answers with when the answer is ok, nothing when the answer is
    an error or the request fails. *)
Definition Fetched : Type := option Task.

Definition toggled_status (task : Task) : string :=
  if String.eqb (status task) "done" then "pending" else "done".

(** [{ ...t, status, updated_at }] *)
Definition with_status_at (s now : string) (t : Task) : Task :=
  mkTask (Page.id t) (title t) (notes t) (project t) s (due_date t)
         (snoozed_until t) (source t) (created_at t) now.

(** [{ ...t, due_date: newDate }] *)
Definition with_due_date (d : string) (t : Task) : Task :=
  mkTask (Page.id t) (title t) (notes t) (project t) (status t) (Some d)
         (snoozed_until t) (source t) (created_at t) (updated_at t).

(** [prev.map((t) => (t.id === id ? f(t) : t))] *)
Definition map_task (i : string) (f : Task -> Task) (prev : list Task) : list Task :=
  map (fun t => if has_id i t then f t else t) prev.

(** [handleToggle(id)]: the list of tasks at the end, from the list at
    the start, the time of the click and the outcome of the request. *)
Definition handleToggle (i : string) (now : string) (res : Fetched)
    (tasks : list Task) : list Task :=
  match find (has_id i) tasks with
  | None => tasks
  | Some task =>
      let newStatus := toggled_status task in
      let optimistic := map_task i (with_status_at newStatus now) tasks in
      match res with
      | Some updated => map_task i (fun _ => updated) optimistic
      | None => map_task i (fun _ => task) optimistic
      end
  end.

(** The body [handleToggle] sends, if it sends one. *)
Definition handleToggle_request (i : string) (tasks : list Task)
  : option TaskUpdateData :=
  match find (has_id i) tasks with
  | None => None
  | Some task =>
      Some {| u_title := None; u_notes := None; u_project := None;
              u_status := Some (toggled_status task);
              u_due_date := None; u_snoozed_until := None |}
  end.

(** [handleReopen(id, newDate)] *)
Definition handleReopen (i newDate : string) (now : string) (res : Fetched)
    (tasks : list Task) : list Task :=
  let optimistic :=
    map_task i (fun t => with_due_date newDate (with_status_at "pending" now t)) tasks in
  match res with
  | Some updated => map_task i (fun _ => updated) optimistic
  | None => optimistic
  end.

(** [handleReschedule(id, newDate)] *)
Definition handleReschedule (i newDate : string) (res : Fetched)
    (tasks : list Task) : list Task :=
  let optimistic := map_task i (with_due_date newDate) tasks in
  match res with
  | Some updated => map_task i (fun _ => updated) optimistic
  | None => optimistic
  end.

End PageState.

(** ** The activity heatmap (part_001, lines 876 to 998) *)

Module Heatmap.
Import Js Page Prisma Api.

Definition HEATMAP_MIN_YEAR : Z := 2026.
Definition HEATMAP_MIN_MONTH : Z := 2.

Definition getActivityColor (count : Z) : string :=
  if count =? 0 then "#30302E"
  else if count <? 5 then "rgba(205, 114, 83, 0.2)"
  else if count <? 10 then "rgba(205, 114, 83, 0.6)"
  else "#CD7253".

(** A [Record<string, number>]: the keys in the order they were first
    set. *)
Definition Counts : Type := list (string * Z).


Fixpoint set (m : Counts) (k : string) (v : Z) : Counts :=
  match m with
  | [] => [(k, v)]
  | (k', v') :: m' =>
      if String.eqb k' k then (k', v) :: m' else (k', v') :: set m' k v
  end.






(** The month shown: [year] and [month], the latter counting from 1. *)
Record Shown : Type := mkShown { year : Z; month : Z }.

(** The month shown at first, [now] being [new Date()]. *)
Definition initial (now : Date) : Shown :=
  mkShown (getFullYear now) (getMonth now + 1).

Definition atMin (s : Shown) : bool :=
  (year s =? HEATMAP_MIN_YEAR) && (month s =? HEATMAP_MIN_MONTH).

Definition atMax (now : Date) (s : Shown) : bool :=
  (year s =? getFullYear now) && (month s =? getMonth now + 1).

Definition goPrev (s : Shown) : Shown :=
  if atMin s then s
  else if month s =? 1 then mkShown (year s - 1) 12
  else mkShown (year s) (month s - 1).

Definition goNext (now : Date) (s : Shown) : Shown :=
  if atMax now s then s
  else if month s =? 12 then mkShown (year s + 1) 1
  else mkShown (year s) (month s + 1).

End Heatmap.

(** ** The earlier task page (part_000, lines 135 to 596) *)

Module LegacyPage.
Import Js Page Prisma Api.

(** The three lists of [bucketTasks]; [t] is [today()], the day of the
    current ISO time stamp. *)
Definition is_todayTask (t : string) (task : Task) : bool :=
  not_done task &&
  match due_date task with
  | Some d => str_le d t
  | None => false
  end.

Definition is_scheduledTask (t : string) (task : Task) : bool :=
  not_done task &&
  match due_date task with
  | Some d => str_gt d t
  | None => true
  end.

Definition is_completedTask (task : Task) : bool :=
  String.eqb (status task) "done".

Record Buckets : Type := {
  todayTasks : list Task;
  scheduledTasks : list Task;
  completedTasks : list Task
}.

Definition today (now : string) : string := day_of_iso now.

Definition bucketTasks (now : string) (tasks : list Task) : Buckets :=
  let t := today now in
  {| todayTasks := filter (is_todayTask t) tasks;
     scheduledTasks := filter (is_scheduledTask t) tasks;
     completedTasks := filter is_completedTask tasks |}.

(** How the request of [handleCheck] ends: [fetch] resolves with an
    answer that is ok or is not, or it rejects, as it does when the app
    cannot be reached. *)
Inductive FetchEnd : Type :=
  | answered (ok : bool)
  | rejected.

(** [handleCheck(id)]: the list of tasks at the end.  There is no
    [try] around the [await]: when [fetch] rejects the function stops
    there and the revert does not run. *)
Definition handleCheck (i : string) (res : FetchEnd) (tasks : list Task)
  : list Task :=
  let optimistic := PageState.map_task i (with_status "done") tasks in
  match res with
  | answered true => optimistic
  | answered false => PageState.map_task i (with_status "pending") optimistic
  | rejected => optimistic
  end.

End LegacyPage.

(** ** The MCP server ([mcp-server/src/index.ts], lines 1 to 254) *)

Module McpServer.
Import Js Page Prisma Api.

(** [BASE_URL], from the environment variable if it is set. *)
Definition BASE_URL (env : option string) : string :=
  or_else env "http://localhost:3000".

(** [type ApiResult]; [data] is [None] for [null], the body of an answer
    that is not JSON. *)
Record ApiResult : Type := mkApiResult {
  ok : bool;
  api_status : Z;
  data : option Json
}.

(** [formatError(result)]: of the bodies the routes answer with, only an
    error body is an object with a string under [error]. *)
Definition formatError (result : ApiResult) : string :=
  match data result with
  | Some (JError e) => e
  | _ => "Request failed with status " ++ String_of_int (api_status result)
  end.

(** What a tool answers: its text, and whether it is an error. *)
Record ToolResult : Type := mkToolResult {
  text : string;
  isError : bool
}.

(** An answer of the app that is an error: its status, which is not one
    from 200 to 299, and its body if it is JSON. *)
Record ErrorAnswer : Type := mkErrorAnswer {
  err_status : Z;
  err_body : option Json
}.

(** The network a tool runs in: the base address, whether the app
    answers there, and where the app takes a request whose URL holds a
    text the tool was given.

    Modelled from the URL standard and the router of the framework,
    which are not in the sources: [resolve_other s] is the id the route
    of one task receives when the URL [BASE_URL/api/tasks/s] leads to
    that route, for a text [s] whose part before a query or a fragment
    is not plain (a slash, a dot, a percent sign or a blank in it make
    the URL another one); when it leads elsewhere, [elsewhere s] is the
    answer, an error: no route, a route without the method, or the
    handler of a project, which wants a name. *)
Record Net : Type := mkNet {
  base : string;
  up : bool;
  resolve_other : string -> option string;
  elsewhere : string -> ErrorAnswer
}.

(** The text before the first [?] or [#]: in a URL the query and the
    fragment start there. *)
Fixpoint path_part (s : string) : string :=
  match s with
  | EmptyString => EmptyString
  | String c s' =>
      if Ascii.eqb c "?" || Ascii.eqb c "#" then EmptyString
      else String c (path_part s')
  end.

(** Letters, digits, [-] and [_]: a URL keeps them as they are. *)
Definition plain_char (c : ascii) : bool :=
  let n := N_of_ascii c in
  ((48 <=? n) && (n <=? 57) || (65 <=? n) && (n <=? 90)
   || (97 <=? n) && (n <=? 122) || (n =? 45) || (n =? 95))%N.

Fixpoint all_plain (s : string) : bool :=
  match s with
  | EmptyString => true
  | String c s' => plain_char c && all_plain s'
  end.

Definition plain (s : string) : bool := truthy s && all_plain s.

(** The id the route of one task receives for the URL
    [`${BASE_URL}/api/tasks/${task_id}`], into which the tools put
    [task_id] as it is. *)
Definition route_id (net : Net) (task_id : string) : option string :=
  if plain (path_part task_id) then Some (path_part task_id)
  else resolve_other net task_id.

(** What [apiFetch] makes of the answer of a route: [response.ok] is a
    status from 200 to 299, and the body of a 204 is not JSON.  A route
    that throws is answered for by the framework with a 500 whose body
    is not JSON. *)
Definition result_of (out : Result Response) : ApiResult :=
  match out with
  | Returned resp =>
      mkApiResult ((200 <=? res_status resp) && (res_status resp <=? 299))
                  (res_status resp)
                  (match res_body resp with JNone => None | b => Some b end)
  | Threw _ => mkApiResult false 500 None
  end.

Definition result_of_error (e : ErrorAnswer) : ApiResult :=
  mkApiResult false (err_status e) (err_body e).

(** The two requests the tools send: [POST /tasks] with a body, and
    [PATCH /tasks/${task_id}] with a body. *)
Inductive Request : Type :=
  | post_tasks (body : TasksRoute.Body)
  | patch_task (task_id : string) (body : TaskRoute.Body).

(** The app serving a request: the handler the URL leads to runs. *)
Definition serve (net : Net) (rq : Request) : World -> ApiResult * World :=
  fun w =>
    match rq with
    | post_tasks body =>
        let (out, w') := TasksRoute.POST (Some body) w in (result_of out, w')
    | patch_task task_id body =>
        match route_id net task_id with
        | Some i =>
            let (out, w') := TaskRoute.PATCH i (Some body) w in (result_of out, w')
        | None => (result_of_error (elsewhere net task_id), w)
        end
    end.

Definition unreachable_text (base : string) : string :=
  "Action Center is not running or not reachable at " ++ base
  ++ ". Start it with: bun dev (inside action-center-app/)".

(** [apiFetch(path, options)]: the result, or the message of the error
    thrown when the app does not answer. *)
Definition apiFetch (net : Net) (rq : Request)
  : World -> (string + ApiResult) * World :=
  fun w =>
    if up net
    then let (result, w') := serve net rq w in (inr result, w')
    else (inl (unreachable_text (base net)), w).

(** How a call of a tool ends: the callback answers; or it throws
    reading a field of a body that is [null]; or the arguments fail the
    schema the tool is registered with, and the callback does not
    run. *)
Inductive ToolOutcome : Type :=
  | Answered (r : ToolResult)
  | Crashed
  | Refused.

(** [z.string().min(1)] *)
Definition min_1 (s : string) : bool := truthy s.

(** [z.enum(["pending", "in_progress", "done", "snoozed"]).optional()] *)
Definition status_enum (o : option string) : bool :=
  match o with
  | Some s => existsb (String.eqb s) ["pending"; "in_progress"; "done"; "snoozed"]
  | None => true
  end.

(** [task.title], [task.project] and [task.id] in a template literal,
    for the body of an answer: a field the body does not have reads as
    [undefined]. *)
Definition read_title (body : Json) : string :=
  match body with JTask t => title t | _ => "undefined" end.

Definition read_project (body : Json) : string :=
  match body with JTask t => project t | _ => "undefined" end.

Definition read_id (body : Json) : string :=
  match body with
  | JTask t => Page.id t
  | JProject p => pid p
  | _ => "undefined"
  end.

(** The arguments of [add_task]: [notes] may be left out. *)
Record AddTaskArgs : Type := {
  a_title : string;
  a_project : string;
  a_notes : option string;
  a_due_date : string
}.

Definition add_task (net : Net) (args : AddTaskArgs) : World -> ToolOutcome * World :=
  fun w =>
    if negb (min_1 (a_title args) && min_1 (a_project args)
             && min_1 (a_due_date args))
    then (Refused, w)
    else
    match apiFetch net
            (post_tasks
               {| TasksRoute.b_title := Some (a_title args);
                  TasksRoute.b_project := Some (a_project args);
                  TasksRoute.b_notes := a_notes args;
                  TasksRoute.b_due_date := Some (a_due_date args);
                  TasksRoute.b_source := Some "claude" |}) w with
    | (inl message, w') => (Answered (mkToolResult message true), w')
    | (inr result, w') =>
        if negb (ok result)
        then (Answered (mkToolResult (formatError result) true), w')
        else
          match data result with
          | Some task =>
              (Answered
                 (mkToolResult
                    ("Saved " ++ dquote ++ read_title task ++ dquote
                     ++ " to your Action Center under *" ++ read_project task
                     ++ "*. (ID: " ++ read_id task ++ ")") false), w')
          | None => (Crashed, w')
          end
    end.

Definition not_found_text : string :=
  "I couldn't find that task. Let me list your open tasks first.".

(** [{ status: "done" }] *)
Definition done_body : TaskRoute.Body :=
  {| TaskRoute.b_title := None;
     TaskRoute.b_notes := None;
     TaskRoute.b_project := None;
     TaskRoute.b_status := Some "done";
     TaskRoute.b_due_date := None;
     TaskRoute.b_snoozed_until := None |}.

Definition complete_task (net : Net) (task_id : string)
  : World -> ToolOutcome * World :=
  fun w =>
    if negb (min_1 task_id) then (Refused, w)
    else
    match apiFetch net (patch_task task_id done_body) w with
    | (inl message, w') => (Answered (mkToolResult message true), w')
    | (inr result, w') =>
        if api_status result =? 404
        then (Answered (mkToolResult not_found_text true), w')
        else if negb (ok result)
        then (Answered (mkToolResult (formatError result) true), w')
        else
          match data result with
          | Some task =>
              (Answered
                 (mkToolResult
                    (dquote ++ read_title task ++ dquote ++ " is marked as done.")
                    false), w')
          | None => (Crashed, w')
          end
    end.

(** The arguments of [update_task] but the id; a field left out is
    [None]. *)
Record UpdateTaskArgs : Type := {
  up_title : option string;
  up_notes : option string;
  up_due_date : option string;
  up_project : option string;
  up_status : option string
}.

(** The keys of [updates], in the order they are set. *)
Definition update_keys (args : UpdateTaskArgs) : list string :=
  ((match up_title args with Some _ => ["title"] | None => [] end) ++
   (match up_notes args with Some _ => ["notes"] | None => [] end) ++
   (match up_due_date args with Some _ => ["due_date"] | None => [] end) ++
   (match up_project args with Some _ => ["project"] | None => [] end) ++
   (match up_status args with Some _ => ["status"] | None => [] end))%list.

Definition update_task (net : Net) (task_id : string) (args : UpdateTaskArgs)
  : World -> ToolOutcome * World :=
  fun w =>
    if negb (min_1 task_id && status_enum (up_status args)) then (Refused, w)
    else
    match update_keys args with
    | [] => (Answered (mkToolResult "No fields provided to update." true), w)
    | keys =>
        match apiFetch net
                (patch_task task_id
                   {| TaskRoute.b_title := up_title args;
                      TaskRoute.b_notes := up_notes args;
                      TaskRoute.b_project := up_project args;
                      TaskRoute.b_status := up_status args;
                      TaskRoute.b_due_date := up_due_date args;
                      TaskRoute.b_snoozed_until := None |}) w with
        | (inl message, w') => (Answered (mkToolResult message true), w')
        | (inr result, w') =>
            if api_status result =? 404
            then (Answered (mkToolResult not_found_text true), w')
            else if negb (ok result)
            then (Answered (mkToolResult (formatError result) true), w')
            else
              match data result with
              | Some task =>
                  (Answered
                     (mkToolResult
                        ("Updated " ++ dquote ++ read_title task ++ dquote
                         ++ ". Changed: " ++ String.concat ", " keys ++ ".")
                        false), w')
              | None => (Crashed, w')
              end
        end
    end.

End McpServer.

(** ** Further notions the properties are stated with *)

Module Spec2.
Import Js Page Prisma Api.

(** One calendar date before another. *)
Definition date_before (d1 d2 : Date) : Prop :=
  getFullYear d1 < getFullYear d2 \/
  (getFullYear d1 = getFullYear d2 /\
   (getMonth d1 < getMonth d2 \/
    (getMonth d1 = getMonth d2 /\ getDate d1 < getDate d2))).

(** The months the heatmap can show: from its first month to the month
    of [now], counted in months since the year 0. *)
Definition month_index (y m : Z) : Z := 12 * y + m.

Definition shown_in_range (now : Date) (s : Heatmap.Shown) : Prop :=
  1 <= Heatmap.month s <= 12 /\
  month_index Heatmap.HEATMAP_MIN_YEAR Heatmap.HEATMAP_MIN_MONTH
    <= month_index (Heatmap.year s) (Heatmap.month s)
    <= month_index (getFullYear now) (getMonth now + 1).


(** A list in the order of a comparison, each row before the next. *)
Fixpoint ordered {A : Type} (le : A -> A -> bool) (l : list A) : Prop :=
  match l with
  | [] => True
  | x :: l' =>
      match l' with
      | [] => True
      | y :: _ => le x y = true /\ ordered le l'
      end
  end.

(** The number of tasks of a project. *)
Definition tasks_of (n : string) (d : Db) : Z :=
  Z.of_nat (List.length (filter (in_project n) (task_rows d))).

(** The names of the stored projects are pairwise distinct. *)
Definition names_unique (d : Db) : Prop := NoDup (map name (project_rows d)).

(** The rows after the update handler has ensured the project of a
    request: an upsert by that name when it is a truthy string. *)
Definition after_ensure (o : option string) (d : Db) : Db :=
  match o with
  | Some p =>
      if truthy p
      then match project_upsert p d with
           | Done _ d' => d'
           | Failed _ => d
           end
      else d
  | None => d
  end.

(** The [data] the update handler builds from a request. *)
Definition update_data (body : TaskRoute.Body) : TaskUpdateData :=
  {| u_title := TaskRoute.b_title body;
     u_notes := TaskRoute.b_notes body;
     u_project := TaskRoute.b_project body;
     u_status := TaskRoute.b_status body;
     u_due_date := TaskRoute.b_due_date body;
     u_snoozed_until := TaskRoute.b_snoozed_until body |}.

End Spec2.

(** ** Further sample states *)

Module Samples.
Import Js Page Prisma Api.

(** Monday 9 November 2026, a week after [Scenario.monday], and the day
    after it. *)
Definition next_monday : Date := mkDate 2026 10 9.

(** 2 November 2026 at 23:30 on a host five hours behind UTC, and at
    02:00 on a host nine hours ahead; the same day at 10:00 in UTC. *)
Definition late_evening : Instant := mkInstant Scenario.monday 1410 0 0 (-300).
Definition early_morning : Instant := mkInstant Scenario.monday 120 0 0 540.
Definition at_ten : Instant := mkInstant Scenario.monday 600 0 0 0.

(** A no-break space, U+00A0. *)
Definition nbsp : string := utf8 [194; 160]%N.

(** A task snoozed until a day, and a task completed at an instant. *)
Definition snoozed_to (d : string) : Task :=
  mkTask "2" "Ship" None "Alpha" "snoozed" None (Some d) "manual"
         Scenario.stamp Scenario.stamp.


(** A storage whose one task is snoozed until 1 November 2026. *)
Definition world_snoozed : World :=
  mkWorld (mkDb [mkProject "1" "Alpha"] [snoozed_to "2026-11-01"] 3
                "2026-11-02T10:00:00.000Z") [].

(** Pacific/Apia, which skipped 30 December 2011. *)
Definition apia : Zone :=
  {| skipped := fun d =>
       (getFullYear d =? 2011) && (getMonth d =? 11) && (getDate d =? 30) |}.

(** The one task of [Scenario.db_alpha], and that storage not failing. *)
Definition alpha_task : Task := Scenario.task_in "2" "Alpha".
Definition world_alpha : World := Scenario.steady Scenario.db_alpha.
Definition world_two : World := Scenario.steady Scenario.db_two.

(** Requests to update a task: nothing given, a status that is no
    status, a project that is not stored, the status done. *)
Definition no_fields : TaskRoute.Body :=
  {| TaskRoute.b_title := None; TaskRoute.b_notes := None;
     TaskRoute.b_project := None; TaskRoute.b_status := None;
     TaskRoute.b_due_date := None; TaskRoute.b_snoozed_until := None |}.

Definition body_bad_status : TaskRoute.Body :=
  {| TaskRoute.b_title := None; TaskRoute.b_notes := None;
     TaskRoute.b_project := None; TaskRoute.b_status := Some "finished";
     TaskRoute.b_due_date := None; TaskRoute.b_snoozed_until := None |}.

Definition body_to_beta : TaskRoute.Body :=
  {| TaskRoute.b_title := None; TaskRoute.b_notes := None;
     TaskRoute.b_project := Some "Beta"; TaskRoute.b_status := None;
     TaskRoute.b_due_date := None; TaskRoute.b_snoozed_until := None |}.

Definition body_done : TaskRoute.Body :=
  {| TaskRoute.b_title := None; TaskRoute.b_notes := None;
     TaskRoute.b_project := None; TaskRoute.b_status := Some "done";
     TaskRoute.b_due_date := None; TaskRoute.b_snoozed_until := None |}.

(** A request to create a task whose due date is the empty string, and
    the task and the state it leaves in [Scenario.db_alpha]. *)
Definition body_empty_due : TasksRoute.Body :=
  {| TasksRoute.b_title := Some "Ship";
     TasksRoute.b_project := Some "Alpha";
     TasksRoute.b_notes := None;
     TasksRoute.b_due_date := Some EmptyString;
     TasksRoute.b_source := None |}.

Definition task_empty_due : Task :=
  mkTask "3" "Ship" None "Alpha" "pending" (Some EmptyString) None "manual"
         "2026-11-02T10:00:00.000Z" "2026-11-02T10:00:00.000Z".

Definition world_empty_due : World :=
  mkWorld (mkDb [mkProject "1" "Alpha"] [alpha_task; task_empty_due] 4
                "2026-11-02T10:00:00.000Z") [].

(** The projects of [Scenario.db_two] with their counts, and the state
    after a project Beta is added to [Scenario.db_alpha]. *)
Definition two_counted : list ProjectWithCount :=
  [ {| pc_id := "1"; pc_name := "Alpha"; task_count := 1 |};
    {| pc_id := "3"; pc_name := "Gamma"; task_count := 0 |} ].

Definition world_beta : World :=
  mkWorld (mkDb [mkProject "1" "Alpha"; mkProject "3" "Beta"] [alpha_task] 4
                "2026-11-02T10:00:00.000Z") [].

(** The app reachable at the default address, and the arguments of the
    tools. *)
Definition net_up : McpServer.Net :=
  {| McpServer.base := McpServer.BASE_URL None;
     McpServer.up := true;
     McpServer.resolve_other := fun _ => None;
     McpServer.elsewhere := fun _ => McpServer.mkErrorAnswer 404 None |}.

Definition add_args : McpServer.AddTaskArgs :=
  {| McpServer.a_title := " Write report ";
     McpServer.a_project := "Alpha";
     McpServer.a_notes := None;
     McpServer.a_due_date := "2026-11-10" |}.

Definition update_args : McpServer.UpdateTaskArgs :=
  {| McpServer.up_title := Some "Ship it";
     McpServer.up_notes := None;
     McpServer.up_due_date := Some "2026-11-10";
     McpServer.up_project := None;
     McpServer.up_status := None |}.

Definition update_bad_status : McpServer.UpdateTaskArgs :=
  {| McpServer.up_title := None;
     McpServer.up_notes := None;
     McpServer.up_due_date := None;
     McpServer.up_project := None;
     McpServer.up_status := Some "finished" |}.

End Samples.

(** * Properties *)

Import Spec.

(** ** White space *)

Section WhiteSpace.
Import Js.

Lemma strip_prefix_length (p s r : string) :
  strip_prefix p s = Some r ->
  String.length s = (String.length p + String.length r)%nat.
Proof.
  revert s. induction p as [| a p IH]; intros s; cbn [strip_prefix String.length].
  - intros H. now injection H as ->.
  - destruct s as [| b s]; [discriminate |].
    destruct (Ascii.eqb a b); [| discriminate].
    intros H. cbn [String.length]. now rewrite (IH s H).
Qed.

Lemma strip_first_shorter (ps : list string) (s r : string) :
  Forall (fun p => p <> EmptyString) ps ->
  strip_first ps s = Some r -> (String.length r < String.length s)%nat.
Proof.
  induction 1 as [| p ps Hp _ IH]; cbn [strip_first]; [discriminate |].
  destruct (strip_prefix p s) as [r' |] eqn:E; [| exact IH].
  intros H. injection H as ->. apply strip_prefix_length in E.
  destruct p; [contradiction |]. cbn [String.length] in E. lia.
Qed.

(** The length of the string is fuel enough: nothing is left to strip
    from the front. *)
Lemma strip_all_done (ps : list string) (fuel : nat) (s : string) :
  Forall (fun p => p <> EmptyString) ps ->
  (String.length s <= fuel)%nat ->
  strip_first ps (strip_all ps fuel s) = None.
Proof.
  intros Hps. revert s. induction fuel as [| fuel IH]; intros s Hs; cbn [strip_all].
  - destruct (strip_first ps s) as [r |] eqn:E; [| reflexivity].
    apply (strip_first_shorter ps s r Hps) in E. lia.
  - destruct (strip_first ps s) as [r |] eqn:E; [| exact E].
    apply IH. apply (strip_first_shorter ps s r Hps) in E. lia.
Qed.

(** What [trimStart] returns starts with no white space. *)
Lemma trimStart_done (s : string) :
  strip_first white_space (trimStart s) = None.
Proof.
  unfold trimStart. apply strip_all_done; [| lia].
  unfold white_space. repeat constructor; discriminate.
Qed.

(** A string of one white space character trims to the empty string,
    whichever of the twenty-five it is, and white space around a letter
    is stripped on both sides. *)
Lemma trim_white_space :
  Forall (fun ws => trim ws = EmptyString /\ trim (ws ++ "a" ++ ws) = "a")
         white_space.
Proof. unfold white_space. repeat constructor. Qed.

End WhiteSpace.

(** ** Strings of digits and their order *)

Section Digits.
Import Js.

Lemma digit_cases (k : Z) :
  is_digit k ->
  k = 0 \/ k = 1 \/ k = 2 \/ k = 3 \/ k = 4 \/
  k = 5 \/ k = 6 \/ k = 7 \/ k = 8 \/ k = 9.
Proof. unfold is_digit. lia. Qed.

Ltac each_digit H :=
  apply digit_cases in H;
  repeat (destruct H as [H | H]); subst.

Lemma digit_char_code (k : Z) :
  is_digit k -> N_of_ascii (digit_char k) = (48 + Z.to_N k)%N.
Proof. intros H. each_digit H; reflexivity. Qed.

Lemma digit_char_cmp (a b : Z) :
  is_digit a -> is_digit b ->
  Ascii.compare (digit_char a) (digit_char b) = (a ?= b).
Proof.
  intros Ha Hb. each_digit Ha; each_digit Hb; reflexivity.
Qed.

Lemma digit_val_char (k : Z) : is_digit k -> digit_val (digit_char k) = Some k.
Proof. intros H. each_digit H; reflexivity. Qed.

Lemma digit_char_not_dash (k : Z) :
  is_digit k -> Ascii.eqb (digit_char k) "-" = false.
Proof. intros H. each_digit H; reflexivity. Qed.

Lemma digit_char_not_T (k : Z) :
  is_digit k -> Ascii.eqb (digit_char k) "T" = false.
Proof. intros H. each_digit H; reflexivity. Qed.

Lemma ascii_compare_refl (c : ascii) : Ascii.compare c c = Eq.
Proof. unfold Ascii.compare. apply N.compare_refl. Qed.

Lemma string_compare_refl (s : string) : String.compare s s = Eq.
Proof.
  induction s as [| c s IH]; simpl; [reflexivity |].
  rewrite ascii_compare_refl. exact IH.
Qed.

Lemma str_lt_irrefl (s : string) : str_lt s s = false.
Proof. unfold str_lt, String.ltb. rewrite string_compare_refl. reflexivity. Qed.

Lemma str_le_refl (s : string) : str_le s s = true.
Proof. unfold str_le, String.leb. rewrite string_compare_refl. reflexivity. Qed.

(** Comparing after a common first character, and after a digit. *)
Lemma compare_same_head (c : ascii) (s t : string) :
  String.compare (String c s) (String c t) = String.compare s t.
Proof. simpl. rewrite ascii_compare_refl. reflexivity. Qed.

Lemma compare_digits (l1 l2 : list Z) (s t : string) :
  Forall is_digit l1 -> Forall is_digit l2 ->
  List.length l1 = List.length l2 ->
  String.compare (digits_str l1 ++ s) (digits_str l2 ++ t) =
  match lex_cmp l1 l2 with
  | Eq => String.compare s t
  | c => c
  end.
Proof.
  intros H1. revert l2.
  induction H1 as [| a l1 Ha H1 IH]; intros l2 H2 Hlen.
  - destruct l2; [reflexivity | discriminate].
  - destruct H2 as [| b l2 Hb H2]; [discriminate |].
    simpl. rewrite digit_char_cmp by assumption.
    destruct (a ?= b); try reflexivity.
    apply IH; [assumption | simpl in Hlen; congruence].
Qed.

Lemma string_app_empty (s : string) : s ++ EmptyString = s.
Proof. induction s as [| c s IH]; simpl; [reflexivity | now rewrite IH]. Qed.

Lemma compare_digits_end (l1 l2 : list Z) :
  Forall is_digit l1 -> Forall is_digit l2 ->
  List.length l1 = List.length l2 ->
  String.compare (digits_str l1) (digits_str l2) = lex_cmp l1 l2.
Proof.
  intros H1 H2 Hlen.
  rewrite <- (string_app_empty (digits_str l1)), <- (string_app_empty (digits_str l2)).
  rewrite compare_digits by assumption.
  destruct (lex_cmp l1 l2); reflexivity.
Qed.

Lemma lex_cmp_app (l1 l2 r1 r2 : list Z) :
  List.length l1 = List.length l2 ->
  lex_cmp (l1 ++ r1) (l2 ++ r2) =
  match lex_cmp l1 l2 with
  | Eq => lex_cmp r1 r2
  | c => c
  end.
Proof.
  revert l2. induction l1 as [| a l1 IH]; intros [| b l2] Hlen;
    try discriminate; [reflexivity |].
  simpl. destruct (a ?= b); try reflexivity.
  apply IH. simpl in Hlen. congruence.
Qed.

(** Two strings of three dash-separated groups of digits, the groups of
    one length pairwise, compare as their digits do. *)
Lemma compare_dashed (y1 m1 k1 y2 m2 k2 : list Z) :
  Forall is_digit y1 -> Forall is_digit m1 -> Forall is_digit k1 ->
  Forall is_digit y2 -> Forall is_digit m2 -> Forall is_digit k2 ->
  List.length y1 = List.length y2 ->
  List.length m1 = List.length m2 ->
  List.length k1 = List.length k2 ->
  String.compare
    (digits_str y1 ++ String "-" (digits_str m1 ++ String "-" (digits_str k1)))
    (digits_str y2 ++ String "-" (digits_str m2 ++ String "-" (digits_str k2)))
  = lex_cmp (y1 ++ m1 ++ k1) (y2 ++ m2 ++ k2).
Proof.
  intros Y1 M1 K1 Y2 M2 K2 Ly Lm Lk.
  rewrite compare_digits, lex_cmp_app by assumption.
  destruct (lex_cmp y1 y2); try reflexivity.
  rewrite compare_same_head, compare_digits, lex_cmp_app by assumption.
  destruct (lex_cmp m1 m2); try reflexivity.
  rewrite compare_same_head. now apply compare_digits_end.
Qed.

Lemma digits_val_bound (l : list Z) (acc : Z) :
  Forall is_digit l ->
  10 ^ Z.of_nat (List.length l) * acc <= digits_val l acc
    < 10 ^ Z.of_nat (List.length l) * (acc + 1).
Proof.
  intros H. revert acc.
  induction H as [| a l Ha H IH]; intros acc.
  - change (1 * acc <= acc < 1 * (acc + 1)). lia.
  - cbn [digits_val fold_left List.length].
    fold (digits_val l (10 * acc + a)).
    specialize (IH (10 * acc + a)).
    rewrite Nat2Z.inj_succ, Z.pow_succ_r by lia.
    unfold is_digit in Ha.
    assert (0 < 10 ^ Z.of_nat (List.length l)) by (apply Z.pow_pos_nonneg; lia).
    nia.
Qed.

Lemma lex_cmp_val (l1 l2 : list Z) (a1 a2 : Z) :
  Forall is_digit l1 -> Forall is_digit l2 ->
  List.length l1 = List.length l2 ->
  (digits_val l1 a1 ?= digits_val l2 a2) =
  match a1 ?= a2 with
  | Eq => lex_cmp l1 l2
  | c => c
  end.
Proof.
  intros H1 H2 Hlen.
  pose proof (digits_val_bound l1 a1 H1) as B1.
  pose proof (digits_val_bound l2 a2 H2) as B2.
  rewrite <- Hlen in B2.
  assert (0 < 10 ^ Z.of_nat (List.length l1)) as Hp
    by (apply Z.pow_pos_nonneg; lia).
  destruct (Z.compare_spec a1 a2) as [E | L | G].
  - subst a2. clear B1 B2 Hp. revert l2 a1 H2 Hlen.
    induction H1 as [| x l1 Hx H1 IH]; intros l2 acc H2 Hlen.
    + destruct l2; [simpl; apply Z.compare_refl | discriminate].
    + destruct H2 as [| y l2 Hy H2]; [discriminate |].
      simpl in Hlen.
      cbn [digits_val fold_left lex_cmp].
      fold (digits_val l1 (10 * acc + x)). fold (digits_val l2 (10 * acc + y)).
      pose proof (digits_val_bound l1 (10 * acc + x) H1) as B1.
      pose proof (digits_val_bound l2 (10 * acc + y) H2) as B2.
      assert (List.length l1 = List.length l2) as Hl by congruence.
      rewrite <- Hl in B2.
      assert (0 < 10 ^ Z.of_nat (List.length l1)) as Hp
        by (apply Z.pow_pos_nonneg; lia).
      destruct (Z.compare_spec x y) as [E | L | G].
      * subst y. apply IH; assumption.
      * apply Z.compare_lt_iff. nia.
      * apply Z.compare_gt_iff. nia.
  - apply Z.compare_lt_iff. nia.
  - apply Z.compare_gt_iff. nia.
Qed.

Lemma Number_digits_str (l : list Z) (acc : Z) :
  Forall is_digit l ->
  Number_digits (digits_str l) acc = Some (digits_val l acc).
Proof.
  intros H. revert acc.
  induction H as [| a l Ha H IH]; intros acc; [reflexivity |].
  simpl. rewrite digit_val_char by assumption. apply IH.
Qed.

Lemma split_digits_end (l : list Z) :
  Forall is_digit l -> split "-" (digits_str l) = [digits_str l].
Proof.
  induction 1 as [| a l Ha H IH]; [reflexivity |].
  simpl. rewrite digit_char_not_dash by assumption.
  fold (digits_str l). rewrite IH. reflexivity.
Qed.

Lemma split_digits_dash (l : list Z) (r : string) :
  Forall is_digit l ->
  split "-" (digits_str l ++ String "-" r) = digits_str l :: split "-" r.
Proof.
  induction 1 as [| a l Ha H IH]; [reflexivity |].
  cbn [digits_str fold_right append split].
  rewrite digit_char_not_dash by assumption.
  fold (digits_str l). rewrite IH. reflexivity.
Qed.

End Digits.

(** ** Dates as strings *)

Section DateStrings.
Import Js Page.

Lemma days_in_month_bound (y m : Z) : 28 <= days_in_month y m <= 31.
Proof.
  unfold days_in_month.
  destruct (m =? 1); [destruct (is_leap y); lia |].
  destruct ((m =? 3) || (m =? 5) || (m =? 8) || (m =? 10)); lia.
Qed.

Lemma String_of_int_4 (y : Z) :
  1000 <= y <= 9999 ->
  String_of_int y = digits_str [y / 1000; y / 100 mod 10; y / 10 mod 10; y mod 10].
Proof.
  intros Hy. unfold String_of_int.
  destruct (Z.ltb_spec y 0) as [? | _]; [lia |].
  change 20%nat with (S (S (S (S 16)))). cbn [digits_of].
  rewrite !Z.div_div by lia. change (10 * 10) with 100.
  change (100 * 10) with 1000. change (1000 * 10) with 10000.
  assert ((y / 10 =? 0) = false) as ->
    by (apply Z.eqb_neq; Z.to_euclidean_division_equations; lia).
  assert ((y / 100 =? 0) = false) as ->
    by (apply Z.eqb_neq; Z.to_euclidean_division_equations; lia).
  assert ((y / 1000 =? 0) = false) as ->
    by (apply Z.eqb_neq; Z.to_euclidean_division_equations; lia).
  assert ((y / 10000 =? 0) = true) as ->
    by (apply Z.eqb_eq; Z.to_euclidean_division_equations; lia).
  assert (y / 1000 mod 10 = y / 1000) as ->
    by (Z.to_euclidean_division_equations; lia).
  reflexivity.
Qed.

Lemma padStart_2 (n : Z) :
  0 <= n <= 99 ->
  padStart (String_of_int n) 2 "0" = digits_str [n / 10; n mod 10].
Proof.
  intros Hn. unfold String_of_int.
  destruct (Z.ltb_spec n 0) as [? | _]; [lia |].
  change 20%nat with (S (S 18)). cbn [digits_of].
  rewrite !Z.div_div by lia. change (10 * 10) with 100.
  destruct (Z.eqb_spec (n / 10) 0) as [E | E].
  - rewrite E. reflexivity.
  - assert ((n / 100 =? 0) = true) as ->
      by (apply Z.eqb_eq; Z.to_euclidean_division_equations; lia).
    assert (n / 10 mod 10 = n / 10) as ->
      by (Z.to_euclidean_division_equations; lia).
    reflexivity.
Qed.

Lemma date_digits_ok (d : Date) : valid_date d -> Forall is_digit (date_digits d).
Proof.
  intros (Hy & Hm & Hd).
  pose proof (days_in_month_bound (getFullYear d) (getMonth d)).
  unfold date_digits, is_digit.
  repeat constructor; Z.to_euclidean_division_equations; lia.
Qed.

Lemma date_digits_val (d : Date) :
  valid_date d -> digits_val (date_digits d) 0 = date_key d.
Proof.
  intros (Hy & Hm & Hd).
  unfold date_digits, date_key, digits_val, fold_left.
  Z.to_euclidean_division_equations; lia.
Qed.

(** The string [localDate] builds for a valid date. *)
Lemma localDate_digits (d : Date) :
  valid_date d ->
  localDate d =
  digits_str (firstn 4 (date_digits d)) ++
  String "-" (digits_str (firstn 2 (skipn 4 (date_digits d))) ++
  String "-" (digits_str (skipn 6 (date_digits d)))).
Proof.
  intros (Hy & Hm & Hd).
  pose proof (days_in_month_bound (getFullYear d) (getMonth d)).
  unfold localDate.
  rewrite String_of_int_4, !padStart_2 by lia.
  reflexivity.
Qed.

(** Date strings are ordered as the dates they write. *)
Lemma localDate_compare (d1 d2 : Date) :
  valid_date d1 -> valid_date d2 ->
  String.compare (localDate d1) (localDate d2) = (date_key d1 ?= date_key d2).
Proof.
  intros V1 V2.
  pose proof (date_digits_ok d1 V1) as D1.
  pose proof (date_digits_ok d2 V2) as D2.
  rewrite <- (date_digits_val d1 V1), <- (date_digits_val d2 V2).
  rewrite (lex_cmp_val _ _ 0 0 D1 D2) by reflexivity.
  rewrite Z.compare_refl.
  rewrite !localDate_digits by assumption.
  unfold date_digits in *. cbn [firstn skipn].
  repeat match goal with
         | H : Forall _ (_ :: _) |- _ => inversion H; clear H; subst
         end.
  rewrite compare_dashed;
    first [ reflexivity
          | repeat (apply Forall_cons; [assumption |]); apply Forall_nil ].
Qed.

Lemma localDate_lt (d1 d2 : Date) :
  valid_date d1 -> valid_date d2 ->
  str_lt (localDate d1) (localDate d2) = (date_key d1 <? date_key d2).
Proof.
  intros V1 V2. unfold str_lt, String.ltb, Z.ltb.
  rewrite localDate_compare by assumption. reflexivity.
Qed.

Lemma localDate_gt (d1 d2 : Date) :
  valid_date d1 -> valid_date d2 ->
  str_gt (localDate d1) (localDate d2) = (date_key d2 <? date_key d1).
Proof.
  intros V1 V2. generalize (localDate_lt d2 d1 V2 V1).
  generalize (localDate d1) (localDate d2). intros s1 s2 E. exact E.
Qed.

Lemma localDate_le (d1 d2 : Date) :
  valid_date d1 -> valid_date d2 ->
  str_le (localDate d1) (localDate d2) = (date_key d1 <=? date_key d2).
Proof.
  intros V1 V2. unfold str_le, String.leb, Z.leb.
  rewrite localDate_compare by assumption. reflexivity.
Qed.

Lemma localDate_eqb (d1 d2 : Date) :
  valid_date d1 -> valid_date d2 ->
  String.eqb (localDate d1) (localDate d2) = (date_key d1 =? date_key d2).
Proof.
  intros V1 V2.
  pose proof (localDate_compare d1 d2 V1 V2) as C.
  destruct (String.eqb_spec (localDate d1) (localDate d2)) as [E | E].
  - rewrite E, string_compare_refl in C. symmetry in C.
    apply Z.compare_eq_iff in C. symmetry. now apply Z.eqb_eq.
  - symmetry. apply Z.eqb_neq. intros K.
    rewrite K, Z.compare_refl in C.
    apply String.compare_eq_iff in C. contradiction.
Qed.

Lemma localDate_truthy (d : Date) : valid_date d -> truthy (localDate d) = true.
Proof. intros V. rewrite localDate_digits by assumption. reflexivity. Qed.

(** Reading a date string back gives the year, the month number and the
    day it was built from. *)
Lemma parse_localDate (d : Date) :
  valid_date d ->
  map Number (split "-" (localDate d)) =
  [Some (getFullYear d); Some (getMonth d + 1); Some (getDate d)].
Proof.
  intros V.
  pose proof (date_digits_ok d V) as D.
  rewrite localDate_digits by assumption.
  destruct V as (Hy & Hm & Hd).
  pose proof (days_in_month_bound (getFullYear d) (getMonth d)).
  unfold date_digits in *. cbn [firstn skipn].
  repeat match goal with
         | H : Forall _ (_ :: _) |- _ => inversion H; clear H; subst
         end.
  rewrite split_digits_dash, split_digits_dash, split_digits_end
    by (repeat (apply Forall_cons; [assumption |]); apply Forall_nil).
  cbn [map]. unfold Number.
  rewrite !Number_digits_str
    by (repeat (apply Forall_cons; [assumption |]); apply Forall_nil).
  unfold digits_val, fold_left.
  match goal with
  | |- [Some ?a; Some ?b; Some ?c] = [Some ?a'; Some ?b'; Some ?c'] =>
      replace a with a' by (Z.to_euclidean_division_equations; lia);
      replace b with b' by (Z.to_euclidean_division_equations; lia);
      replace c with c' by (Z.to_euclidean_division_equations; lia)
  end.
  reflexivity.
Qed.

Lemma next_day_in_month (y m : Z) (j : nat) :
  1 + Z.of_nat j <= days_in_month y m ->
  Nat.iter j next_day (mkDate y m 1) = mkDate y m (1 + Z.of_nat j).
Proof.
  induction j as [| j IH]; intros Hj.
  - reflexivity.
  - rewrite Nat.iter_succ, IH by lia.
    unfold next_day. cbn [getDate getMonth getFullYear].
    destruct (Z.ltb_spec (1 + Z.of_nat j) (days_in_month y m)); [| lia].
    f_equal. lia.
Qed.

(** [new Date(y, m, d + n)] on the fields of a valid date is that date
    moved [n] days on. *)
Lemma calendar_shift (d : Date) (n : Z) :
  valid_date d -> 0 <= n ->
  calendar (getFullYear d) (getMonth d + 1 - 1) (getDate d + n) =
  Nat.iter (Z.to_nat n) next_day d.
Proof.
  intros (Hy & Hm & Hd) Hn. destruct d as [y m k].
  cbn [getFullYear getMonth getDate] in *.
  unfold calendar.
  destruct (Z.leb_spec 0 y); [| lia].
  destruct (Z.leb_spec y 99); [lia |].
  cbn [andb].
  replace ((12 * y + (m + 1 - 1)) / 12) with y
    by (Z.to_euclidean_division_equations; lia).
  replace ((12 * y + (m + 1 - 1)) mod 12) with m
    by (Z.to_euclidean_division_equations; lia).
  unfold add_days.
  destruct (Z.leb_spec 0 (k + n - 1)); [| lia].
  replace (Z.to_nat (k + n - 1)) with (Z.to_nat n + Z.to_nat (k - 1))%nat by lia.
  rewrite Nat.iter_add, next_day_in_month by lia.
  do 2 f_equal. lia.
Qed.

Lemma new_Date_shift (d : Date) (n : Z) :
  valid_date d -> 0 <= n ->
  new_Date (getFullYear d) (getMonth d + 1 - 1) (getDate d + n) =
  Nat.iter (Z.to_nat n) next_day d.
Proof.
  intros V Hn. unfold new_Date, new_Date_in, regular. cbn [skipped].
  now apply calendar_shift.
Qed.

Lemma shiftDays_localDate (d : Date) (n : Z) :
  valid_date d -> 0 <= n ->
  shiftDays (localDate d) n = Some (localDate (days_later (Z.to_nat n) d)).
Proof.
  intros V Hn. unfold shiftDays, shiftDays_in, days_later.
  rewrite parse_localDate by assumption.
  fold (new_Date (getFullYear d) (getMonth d + 1 - 1) (getDate d + n)).
  rewrite new_Date_shift by assumption. reflexivity.
Qed.

Lemma next_day_within (j : Z) (d : Date) :
  0 <= j < 31 -> within j d ->
  within (j + 1) (next_day d) /\ date_key d < date_key (next_day d).
Proof.
  intros Hj ((Hy & Hm & Hd) & Hw). destruct d as [y m k].
  unfold within, valid_date, date_key, next_day.
  cbn [getFullYear getMonth getDate] in *.
  pose proof (days_in_month_bound y m) as B.
  destruct (Z.ltb_spec k (days_in_month y m)) as [L | L];
    cbn [getFullYear getMonth getDate].
  - lia.
  - destruct (Z.ltb_spec m 11) as [L' | L'];
      cbn [getFullYear getMonth getDate].
    + pose proof (days_in_month_bound y (m + 1)).
      assert (m = 0 -> days_in_month y m = 31) by (intros ->; reflexivity).
      lia.
    + pose proof (days_in_month_bound (y + 1) 0). lia.
Qed.

Lemma days_later_succ (n : nat) (d : Date) :
  days_later (S n) d = next_day (days_later n d).
Proof. unfold days_later. apply Nat.iter_succ. Qed.

Lemma iter_next_day_within (d : Date) (n : nat) :
  valid_date d -> getFullYear d <= 9998 -> (n <= 31)%nat ->
  within (Z.of_nat n) (days_later n d) /\
  date_key d + Z.of_nat n <= date_key (days_later n d).
Proof.
  intros V Hy. unfold days_later. induction n as [| n IH]; intros Hn.
  - change (Nat.iter 0 next_day d) with d.
    unfold within. split; [split; [assumption | lia] | lia].
  - destruct IH as [W K]; [lia |].
    rewrite Nat.iter_succ.
    destruct (next_day_within (Z.of_nat n) (Nat.iter n next_day d)) as [W' K'];
      [lia | assumption |].
    replace (Z.of_nat (S n)) with (Z.of_nat n + 1) by lia.
    split; [assumption | lia].
Qed.

Lemma some_inj {A : Type} (a b : A) : Some a = Some b -> a = b.
Proof. intros H. now inversion H. Qed.

(** The three dates of the page on a given day. *)
Lemma Home_dates_valid (now : Date) :
  valid_date now -> getFullYear now <= 9998 ->
  Home_dates now =
  Some {| today := localDate now;
          todayPlus6 := localDate (days_later 6 now);
          todayPlus7 := localDate (days_later 7 now) |}.
Proof.
  intros V Hy. unfold Home_dates.
  rewrite !shiftDays_localDate by (assumption || lia).
  reflexivity.
Qed.

End DateStrings.

(** ** Time stamps and the day in UTC *)

Section IsoStamps.
Import Js Page Api.

Lemma split_before (sep : ascii) (d r : string) :
  (forall c, In c (list_ascii_of_string d) -> Ascii.eqb c sep = false) ->
  split sep (d ++ String sep r) = d :: split sep r.
Proof.
  induction d as [| a d IH]; cbn [append split list_ascii_of_string]; intros H.
  - now rewrite Ascii.eqb_refl.
  - rewrite (H a) by now left.
    rewrite IH by (intros c Hc; apply H; now right). reflexivity.
Qed.

(** No date string holds a [T]. *)
Lemma localDate_no_T (d : Date) (c : ascii) :
  valid_date d -> In c (list_ascii_of_string (localDate d)) ->
  Ascii.eqb c "T" = false.
Proof.
  intros V Hc. rewrite (localDate_digits d V) in Hc.
  pose proof (date_digits_ok d V) as Fd. unfold date_digits in Fd.
  repeat (apply Forall_cons_iff in Fd; destruct Fd as [? Fd]).
  unfold date_digits in Hc.
  cbn [firstn skipn digits_str fold_right append list_ascii_of_string] in Hc.
  repeat (destruct Hc as [<- | Hc];
          [try (apply digit_char_not_T; assumption); reflexivity |]).
  destruct Hc.
Qed.

(** The day of a time stamp that starts with a date and a [T]. *)
Lemma day_of_iso_stamp (d : Date) (rest : string) :
  valid_date d -> day_of_iso (localDate d ++ String "T" rest) = localDate d.
Proof.
  intros V. unfold day_of_iso.
  rewrite split_before by (intros c; now apply localDate_no_T).
  reflexivity.
Qed.

(** [toISOString] starts with the date in UTC. *)
Lemma toISOString_day (i : Instant) :
  valid_date (utc_day i) ->
  exists rest, toISOString i = localDate (utc_day i) ++ String "T" rest.
Proof.
  intros V. pose proof V as (Hy & Hm & Hd).
  pose proof (days_in_month_bound (getFullYear (utc_day i)) (getMonth (utc_day i))).
  eexists. unfold toISOString.
  rewrite (localDate_digits _ V). unfold pad at 1 2 3.
  rewrite String_of_int_4, !padStart_2 by lia.
  unfold date_digits.
  cbn [firstn skipn digits_str fold_right append padStart String.length
       Nat.sub repeat_char].
  reflexivity.
Qed.

(** The day [resolveSnooze] and [datePart] read off a time stamp is the
    day in UTC. *)
Lemma day_of_iso_toISOString (i : Instant) :
  valid_date (utc_day i) -> day_of_iso (toISOString i) = localDate (utc_day i).
Proof.
  intros V. destruct (toISOString_day i V) as (rest & ->).
  now apply day_of_iso_stamp.
Qed.

End IsoStamps.

(** ** The six buckets of the views *)

Section Triage.
Import Js Page.

Variable now : Date.
Hypothesis now_valid : valid_date now.
Hypothesis now_year : getFullYear now <= 9998.

Lemma horizon_dates :
  valid_date (days_later 6 now) /\ valid_date (days_later 7 now) /\
  date_key now < date_key (days_later 6 now) /\
  date_key (days_later 6 now) < date_key (days_later 7 now).
Proof.
  destruct (iter_next_day_within now 6 now_valid now_year) as [W6 K6]; [lia |].
  destruct (iter_next_day_within now 7 now_valid now_year) as [W7 _]; [lia |].
  destruct (next_day_within 6 (days_later 6 now)) as [_ K7]; [lia | exact W6 |].
  destruct W6 as [V6 _]. destruct W7 as [V7 _].
  rewrite <- days_later_succ in K7.
  change (Z.of_nat 6) with 6 in K6.
  split; [exact V6 | split; [exact V7 | split; lia]].
Qed.


Lemma not_done_true (t : Task) : status t <> "done" -> not_done t = true.
Proof.
  intros H. unfold not_done.
  destruct (String.eqb_spec (status t) "done"); [contradiction | reflexivity].
Qed.

Lemma done_buckets (h : Horizon) (t : Task) :
  status t = "done" -> buckets_of h t = [ctx_completed].
Proof.
  intros H. unfold buckets_of, all_ctx, filter, in_bucket.
  unfold is_overdue, is_dueToday, is_upcoming, is_scheduled, is_unscheduled,
    is_completed, not_done.
  rewrite H. reflexivity.
Qed.


(** The buckets of an open task with a due date, by the four string
    tests of the filters. *)
Lemma open_buckets (h : Horizon) (t : Task) (s : string) :
  status t <> "done" -> due_date t = Some s ->
  buckets_of h t =
  ((if str_lt s (today h) then [ctx_overdue] else []) ++
   (if String.eqb s (today h) then [ctx_due_today] else []) ++
   (if str_gt s (today h) && str_le s (todayPlus6 h) then [ctx_upcoming] else []) ++
   (if str_gt s (todayPlus7 h) then [ctx_scheduled] else []) ++
   (if negb (truthy s) then [ctx_unscheduled] else []))%list.
Proof.
  intros H E. apply not_done_true in H.
  unfold buckets_of, all_ctx, filter, in_bucket.
  unfold is_overdue, is_dueToday, is_upcoming, is_scheduled, is_unscheduled,
    is_completed.
  rewrite E, H. unfold not_done in H.
  destruct (String.eqb (status t) "done"); [discriminate |].
  cbn [andb].
  destruct (str_lt s (today h)), (String.eqb s (today h)),
    (str_gt s (today h) && str_le s (todayPlus6 h)),
    (str_gt s (todayPlus7 h)), (negb (truthy s)); reflexivity.
Qed.

Lemma Home_dates_fields (h : Horizon) :
  Home_dates now = Some h ->
  today h = localDate now /\
  todayPlus6 h = localDate (days_later 6 now) /\
  todayPlus7 h = localDate (days_later 7 now).
Proof.
  intros Hh. rewrite Home_dates_valid in Hh by assumption.
  apply some_inj in Hh. rewrite <- Hh.
  cbn [today todayPlus6 todayPlus7]. auto.
Qed.

(** The buckets of an open task due on a valid date [d], by the place of
    [d] among today, today + 6 and today + 7. *)
Lemma dated_buckets (t : Task) (d : Date) :
  valid_date d ->
  status t <> "done" -> due_date t = Some (localDate d) ->
  forall h, Home_dates now = Some h ->
  buckets_of h t =
  if date_key d <? date_key now then [ctx_overdue]
  else if date_key d =? date_key now then [ctx_due_today]
  else if date_key d <=? date_key (days_later 6 now) then [ctx_upcoming]
  else if date_key (days_later 7 now) <? date_key d then [ctx_scheduled]
  else [].
Proof.
  intros V H E h Hh.
  destruct (Home_dates_fields h Hh) as (T0 & T6 & T7).
  destruct horizon_dates as (V6 & V7 & K6 & K7).
  rewrite (open_buckets h t _ H E), T0, T6, T7.
  rewrite localDate_truthy, localDate_eqb, localDate_lt, !localDate_gt,
    localDate_le by assumption.
  destruct (Z.ltb_spec (date_key d) (date_key now));
    destruct (Z.eqb_spec (date_key d) (date_key now));
    destruct (Z.ltb_spec (date_key now) (date_key d));
    destruct (Z.leb_spec (date_key d) (date_key (days_later 6 now)));
    destruct (Z.ltb_spec (date_key (days_later 7 now)) (date_key d));
    try reflexivity; lia.
Qed.

Lemma in_bucket_buckets (h : Horizon) (c : RowCtx) (t : Task) :
  in_bucket h c t = true <-> In c (buckets_of h t).
Proof.
  unfold buckets_of. rewrite filter_In. unfold all_ctx.
  destruct c; simpl; intuition.
Qed.

Lemma not_in_bucket (h : Horizon) (c : RowCtx) (t : Task) :
  ~ In c (buckets_of h t) -> in_bucket h c t = false.
Proof.
  intros H. destruct (in_bucket h c t) eqn:E; [| reflexivity].
  apply in_bucket_buckets in E. contradiction.
Qed.


(** An open task whose due date is the empty string passes two filters:
    the empty string is before every date, and it is falsy. *)
Lemma empty_due_date_in_two_buckets (h : Horizon) (t : Task) :
  Home_dates now = Some h ->
  status t <> "done" -> due_date t = Some EmptyString ->
  buckets_of h t = [ctx_overdue; ctx_unscheduled].
Proof.
  intros Hh D E.
  destruct (Home_dates_fields h Hh) as (T0 & T6 & T7).
  rewrite (open_buckets h t _ D E), T0, T6, T7.
  rewrite !localDate_digits by (assumption || apply horizon_dates).
  reflexivity.
Qed.

(** An open task due on today + 7 passes none of the six filters. *)
Lemma plus_7_in_no_bucket (h : Horizon) (t : Task) :
  Home_dates now = Some h ->
  status t <> "done" ->
  due_date t = Some (todayPlus7 h) ->
  buckets_of h t = [] /\ forall c, in_bucket h c t = false.
Proof.
  intros Hh D E.
  destruct (Home_dates_fields h Hh) as (_ & _ & T7).
  destruct horizon_dates as (V6 & V7 & K6 & K7).
  rewrite T7 in E.
  assert (buckets_of h t = []) as B.
  { rewrite (dated_buckets t (days_later 7 now) V7 D E h Hh).
    destruct (Z.ltb_spec (date_key (days_later 7 now)) (date_key now)); [lia |].
    destruct (Z.eqb_spec (date_key (days_later 7 now)) (date_key now)); [lia |].
    destruct (Z.leb_spec (date_key (days_later 7 now))
                         (date_key (days_later 6 now))); [lia |].
    rewrite Z.ltb_irrefl. reflexivity. }
  split; [exact B |].
  intros c. apply not_in_bucket. rewrite B. intros [].
Qed.

(** C1.  Claimed: every task falls in exactly one of the six buckets, no
    due date falling outside all of them.  The filters of the views leave
    a gap: on every day, an open task due on today + 7 passes none of the
    six filters, so it is shown in no tab. *)
Theorem triage_gap_at_today_plus_7 (h : Horizon) (t : Task) :
  Home_dates now = Some h ->
  status t <> "done" ->
  due_date t = Some (todayPlus7 h) ->
  buckets_of h t = [] /\ forall c, in_bucket h c t = false.
Proof. exact (plus_7_in_no_bucket h t). Qed.

(** C2.  Claimed: an open task due on today + 6 is upcoming, and one due
    on today + 7 is scheduled and not upcoming.  The first and the last
    part hold; a task due on today + 7 is not scheduled either, the
    scheduled filter asking for a due date after today + 7. *)
Theorem boundary_today_plus_6_and_7 (h : Horizon) (t : Task) :
  Home_dates now = Some h ->
  status t <> "done" ->
  (due_date t = Some (todayPlus6 h) ->
     is_upcoming (today h) (todayPlus6 h) t = true) /\
  (due_date t = Some (todayPlus7 h) ->
     is_upcoming (today h) (todayPlus6 h) t = false /\
     is_scheduled (todayPlus7 h) t = false).
Proof.
  intros Hh D. split.
  - intros E.
    destruct (Home_dates_fields h Hh) as (_ & T6 & _).
    destruct horizon_dates as (V6 & V7 & K6 & K7).
    rewrite T6 in E.
    apply (in_bucket_buckets h ctx_upcoming t).
    rewrite (dated_buckets t (days_later 6 now) V6 D E h Hh).
    destruct (Z.ltb_spec (date_key (days_later 6 now)) (date_key now)); [lia |].
    destruct (Z.eqb_spec (date_key (days_later 6 now)) (date_key now)); [lia |].
    rewrite Z.leb_refl. now left.
  - intros E.
    destruct (plus_7_in_no_bucket h t Hh D E) as [_ G].
    split; [exact (G ctx_upcoming) | exact (G ctx_scheduled)].
Qed.

End Triage.

(** On 2 November 2026 a pending task due on 9 November is in no bucket. *)
Lemma triage_gap_witness :
  buckets_of Scenario.page_dates (Scenario.task_due "2026-11-09") = [] /\
  forall c, in_bucket Scenario.page_dates c (Scenario.task_due "2026-11-09") = false.
Proof.
  apply (triage_gap_at_today_plus_7 Scenario.monday).
  - unfold valid_date. vm_compute. intuition discriminate.
  - vm_compute. discriminate.
  - vm_compute. reflexivity.
  - discriminate.
  - reflexivity.
Defined.

(** On that day a pending task due on 8 November is upcoming, and one
    due on 9 November is neither upcoming nor scheduled. *)
Lemma boundary_witness :
  Page.is_upcoming "2026-11-02" "2026-11-08" (Scenario.task_due "2026-11-08") = true /\
  Page.is_upcoming "2026-11-02" "2026-11-08" (Scenario.task_due "2026-11-09") = false /\
  Page.is_scheduled "2026-11-09" (Scenario.task_due "2026-11-09") = false.
Proof.
  split.
  - apply (proj1 (boundary_today_plus_6_and_7 Scenario.monday
                    ltac:(unfold valid_date; vm_compute; intuition discriminate)
                    ltac:(vm_compute; discriminate)
                    Scenario.page_dates (Scenario.task_due "2026-11-08")
                    ltac:(vm_compute; reflexivity)
                    ltac:(discriminate))).
    reflexivity.
  - apply (proj2 (boundary_today_plus_6_and_7 Scenario.monday
                    ltac:(unfold valid_date; vm_compute; intuition discriminate)
                    ltac:(vm_compute; discriminate)
                    Scenario.page_dates (Scenario.task_due "2026-11-09")
                    ltac:(vm_compute; reflexivity)
                    ltac:(discriminate))).
    reflexivity.
Defined.

(** ** Sorted rows *)

Section Sorting.
Import Prisma.

Lemma insert_by_In {A : Type} (le : A -> A -> bool) (x y : A) (l : list A) :
  In x (insert_by le y l) <-> x = y \/ In x l.
Proof.
  induction l as [| z l IH]; cbn.
  - intuition.
  - destruct (le y z); cbn; [intuition | rewrite IH; intuition].
Qed.

Lemma sort_by_In {A : Type} (le : A -> A -> bool) (x : A) (l : list A) :
  In x (sort_by le l) <-> In x l.
Proof.
  unfold sort_by. induction l as [| y l IH]; cbn; [tauto |].
  rewrite insert_by_In, IH. intuition.
Qed.

End Sorting.

(** ** The snooze resolver *)

Section Snooze.
Import Js Page Prisma Api.

(** [with_status] touches the status only. *)
Lemma with_status_fields (s : string) (t : Task) :
  let t' := with_status s t in
  status t' = s /\
  Page.id t' = Page.id t /\ title t' = title t /\ notes t' = notes t /\
  project t' = project t /\ due_date t' = due_date t /\
  snoozed_until t' = snoozed_until t /\ source t' = source t /\
  created_at t' = created_at t /\ updated_at t' = updated_at t.
Proof. cbn. repeat split. Qed.

Lemma resolveSnooze_lapsed (now : string) (t : Task) :
  lapsed (day_of_iso now) t -> resolveSnooze now t = with_status "pending" t.
Proof.
  intros (S & u & U & L). unfold resolveSnooze.
  rewrite S, U, L. reflexivity.
Qed.

Lemma resolveSnooze_kept (now : string) (t : Task) :
  ~ lapsed (day_of_iso now) t -> resolveSnooze now t = t.
Proof.
  intros N. unfold resolveSnooze.
  destruct (String.eqb_spec (status t) "snoozed") as [S | S]; [| reflexivity].
  destruct (snoozed_until t) as [u |] eqn:U; [| reflexivity].
  destruct (str_lt u (day_of_iso now)) eqn:L; [| reflexivity].
  exfalso. apply N. split; [exact S |]. exists u. split; [exact U | exact L].
Qed.

Lemma not_lapsed_today (today : string) (t : Task) :
  snoozed_until t = Some today -> ~ lapsed today t.
Proof.
  intros U (_ & u & U' & L). rewrite U in U'. injection U' as <-.
  rewrite str_lt_irrefl in L. discriminate.
Qed.

(** What the list handler answers: an error of status 500, or the
    selected rows, each resolved. *)
Lemma tasks_GET_cases (by_project by_status : option string) (w : World) :
  exists w',
    (TasksRoute.GET by_project by_status w =
       (Returned (errorResponse "Failed to retrieve tasks" 500), w') /\
     db w' = db w) \/
    (exists rows,
       task_findMany (TasksRoute.if_truthy by_project)
                     (TasksRoute.if_truthy by_status) (db w) = Done rows (db w) /\
       TasksRoute.GET by_project by_status w =
         (Returned (mkResponse 200
                      (JTaskList (map (resolveSnooze (clock (db w))) rows))), w') /\
       db w' = db w).
Proof.
  unfold TasksRoute.GET, try_catch, bind, await, Date_now, ret.
  destruct (next_fault w).
  - eexists. left. split; reflexivity.
  - unfold task_findMany. cbn.
    eexists. right. eexists. repeat split.
Qed.

(** C5.  Claimed: the resolver turns a task snoozed until a day strictly
    before today's date into a pending one and leaves every other task
    as it is, the clock supplying the local date.  At the instant [i]
    the resolver reads the day off [new Date().toISOString()], which is
    the day in UTC.  Relative to that day it does what is claimed: a
    task snoozed until an earlier day comes back pending and otherwise
    as it was, any other task comes back unchanged, in particular one
    snoozed until that very day, and every task in a successful answer
    of the list handler is the resolver's result on a stored row.  But
    where the local day of the host is behind the day in UTC, a task
    snoozed until today, the local day, comes back pending; and where
    it is ahead, a task snoozed until the day in UTC, which is
    yesterday for the host, comes back snoozed. *)
Theorem snooze_resolver_contract (i : Instant) (t : Task) :
  valid_date (utc_day i) ->
  let now := toISOString i in
  let today_utc := localDate (utc_day i) in
  let today_local := localDate (local_day i) in
  day_of_iso now = today_utc /\
  (lapsed today_utc t ->
     resolveSnooze now t = with_status "pending" t /\
     status (resolveSnooze now t) = "pending" /\
     Page.id (resolveSnooze now t) = Page.id t /\
     title (resolveSnooze now t) = title t /\
     notes (resolveSnooze now t) = notes t /\
     project (resolveSnooze now t) = project t /\
     due_date (resolveSnooze now t) = due_date t /\
     snoozed_until (resolveSnooze now t) = snoozed_until t /\
     source (resolveSnooze now t) = source t /\
     created_at (resolveSnooze now t) = created_at t /\
     updated_at (resolveSnooze now t) = updated_at t) /\
  (~ lapsed today_utc t -> resolveSnooze now t = t) /\
  (snoozed_until t = Some today_utc -> resolveSnooze now t = t) /\
  (forall by_project by_status w w' ts,
     clock (db w) = now ->
     TasksRoute.GET by_project by_status w =
       (Returned (mkResponse 200 (JTaskList ts)), w') ->
     forall t', In t' ts ->
     exists row, In row (task_rows (db w)) /\ t' = resolveSnooze now row) /\
  (valid_date (local_day i) -> date_key (local_day i) < date_key (utc_day i) ->
   status t = "snoozed" -> snoozed_until t = Some today_local ->
     ~ lapsed today_local t /\
     resolveSnooze now t = with_status "pending" t /\
     status (resolveSnooze now t) = "pending") /\
  (valid_date (local_day i) -> date_key (utc_day i) < date_key (local_day i) ->
   status t = "snoozed" -> snoozed_until t = Some today_utc ->
     lapsed today_local t /\
     resolveSnooze now t = t /\
     status (resolveSnooze now t) = "snoozed").
Proof.
  intros V now today_utc today_local.
  assert (day_of_iso now = today_utc) as D by now apply day_of_iso_toISOString.
  split; [exact D |].
  split; [| split; [| split; [| split; [| split]]]].
  - intros L. rewrite <- D in L. rewrite (resolveSnooze_lapsed now t L).
    split; [reflexivity |]. apply with_status_fields.
  - intros N. apply resolveSnooze_kept. now rewrite D.
  - intros U. apply resolveSnooze_kept. rewrite D. now apply not_lapsed_today.
  - intros by_project by_status w w' ts Ck G t' Ht'.
    destruct (tasks_GET_cases by_project by_status w)
      as (w1 & [[G1 _] | (rows & F & G1 & _)]);
      rewrite G1 in G; [discriminate |].
    injection G as <- _.
    apply in_map_iff in Ht'. destruct Ht' as (row & <- & Hrow).
    exists row. split; [| now rewrite Ck].
    unfold task_findMany in F. injection F as <-.
    apply sort_by_In in Hrow. apply filter_In in Hrow. tauto.
  - intros Vl Lt S U.
    split; [now apply not_lapsed_today |].
    assert (lapsed (day_of_iso now) t) as L.
    { rewrite D. split; [exact S |]. exists today_local. split; [exact U |].
      unfold today_local, today_utc. rewrite localDate_lt by assumption.
      now apply Z.ltb_lt. }
    rewrite (resolveSnooze_lapsed now t L). split; reflexivity.
  - intros Vl Lt S U.
    split.
    { split; [exact S |]. exists today_utc. split; [exact U |].
      unfold today_local, today_utc. rewrite localDate_lt by assumption.
      now apply Z.ltb_lt. }
    assert (resolveSnooze now t = t) as K.
    { apply resolveSnooze_kept. rewrite D. now apply not_lapsed_today. }
    rewrite K. split; [reflexivity | exact S].
Qed.

End Snooze.

(** ** The project registry: ensure-exists *)

Section Registry.
Import Js Page Prisma Api.

Lemma find_has_name_none (n : string) (ps : list Project) :
  find (has_name n) ps = None -> ~ In n (map name ps).
Proof.
  intros F H. apply in_map_iff in H. destruct H as (p & E & Hp).
  apply (find_none _ _ F) in Hp. unfold has_name in Hp.
  rewrite E, String.eqb_refl in Hp. discriminate.
Qed.

Lemma find_has_name_some (n : string) (ps : list Project) (p : Project) :
  find (has_name n) ps = Some p -> In p ps /\ name p = n.
Proof.
  intros F. apply find_some in F. destruct F as [Hp E].
  split; [exact Hp |]. now apply String.eqb_eq.
Qed.

Lemma find_app_new (n : string) (ps : list Project) (p : Project) :
  find (has_name n) ps = None -> name p = n ->
  find (has_name n) (ps ++ [p]) = Some p.
Proof.
  intros F E. induction ps as [| q ps IH]; cbn in *.
  - unfold has_name. now rewrite E, String.eqb_refl.
  - destruct (has_name n q); [discriminate | now apply IH].
Qed.

Lemma existsb_has_name (n : string) (ps : list Project) :
  existsb (has_name n) ps = match find (has_name n) ps with
                            | Some _ => true
                            | None => false
                            end.
Proof.
  induction ps as [| q ps IH]; cbn; [reflexivity |].
  destruct (has_name n q); [reflexivity | exact IH].
Qed.

Lemma NoDup_snoc {A : Type} (a : A) (l : list A) :
  ~ In a l -> NoDup l -> NoDup (l ++ [a]).
Proof.
  intros Ha ND. induction ND as [| x l Hx ND IH]; cbn.
  - constructor; [intros [] | constructor].
  - constructor.
    + intros H. apply in_app_or in H. destruct H as [H | [-> | []]].
      * contradiction.
      * apply Ha. now left.
    + apply IH. intros H. apply Ha. now right.
Qed.

(** The upsert as a query: what it returns and what it leaves. *)
Lemma project_upsert_cases (n : string) (d : Db) :
  (exists p, find (has_name n) (project_rows d) = Some p /\
             project_upsert n d = Done p d) \/
  (find (has_name n) (project_rows d) = None /\
   project_upsert n d =
     Done (mkProject (fresh_id d) n)
          (mkDb (project_rows d ++ [mkProject (fresh_id d) n]) (task_rows d)
                (next_id d + 1) (clock d))).
Proof.
  unfold project_upsert, project_create.
  rewrite existsb_has_name.
  destruct (find (has_name n) (project_rows d)) as [p |] eqn:F.
  - left. now exists p.
  - right. split; reflexivity.
Qed.

Lemma project_upsert_ensures (n : string) (d : Db) :
  exists p d',
    project_upsert n d = Done p d' /\
    name p = n /\ In p (project_rows d') /\
    find (has_name n) (project_rows d') = Some p /\
    task_rows d' = task_rows d /\
    (forall q, In q (project_rows d) -> In q (project_rows d')).
Proof.
  destruct (project_upsert_cases n d) as [(p & F & E) | (F & E)].
  - exists p, d. destruct (find_has_name_some _ _ _ F). repeat split; auto.
  - eexists. eexists. split; [exact E |]. cbn.
    repeat split.
    + apply in_or_app. right. now left.
    + now apply find_app_new.
    + intros q Hq. apply in_or_app. now left.
Qed.

(** C9.  Ensuring a project twice in a row gives the same project, with
    the same id, both times; the second call changes no row; a call that
    finds the name changes no row; and a call never makes two projects
    of one name out of a table that had none. *)
Theorem ensureExists_idempotent (n : string) (w : World) :
  (forall p1 w1 p2 w2,
     await (project_upsert n) w = (Returned p1, w1) ->
     await (project_upsert n) w1 = (Returned p2, w2) ->
     p1 = p2 /\ pid p1 = pid p2 /\ db w2 = db w1) /\
  (forall p, find (has_name n) (project_rows (db w)) = Some p ->
     forall r w1, await (project_upsert n) w = (r, w1) -> db w1 = db w) /\
  (forall p1 w1,
     await (project_upsert n) w = (Returned p1, w1) ->
     NoDup (map name (project_rows (db w))) ->
     NoDup (map name (project_rows (db w1)))) /\
  (faults w = [] ->
   exists p w1 w2,
     await (project_upsert n) w = (Returned p, w1) /\
     await (project_upsert n) w1 = (Returned p, w2)).
Proof.
  assert (forall w0 p1 w1,
            await (project_upsert n) w0 = (Returned p1, w1) ->
            project_upsert n (db w0) = Done p1 (db w1)) as Run.
  { intros w0 p1 w1 A. unfold await in A.
    destruct (next_fault w0); [discriminate |].
    destruct (project_upsert n (db w0)) as [e | a d']; [discriminate |].
    injection A as <- <-. reflexivity. }
  split; [| split; [| split]].
  - intros p1 w1 p2 w2 A1 A2.
    apply Run in A1. apply Run in A2.
    destruct (project_upsert_ensures n (db w)) as (p & d' & E & _ & _ & F & _).
    rewrite E in A1. injection A1 as -> ->.
    destruct (project_upsert_cases n (db w1)) as [(q & F' & E') | (F' & _)].
    + rewrite F in F'. injection F' as <-.
      rewrite E' in A2. injection A2 as <- <-. auto.
    + rewrite F in F'. discriminate.
  - intros p F r w1 A. unfold await in A.
    destruct (next_fault w); [now injection A as <- <- |].
    destruct (project_upsert_cases n (db w)) as [(q & _ & E) | (F' & _)].
    + rewrite E in A. now injection A as <- <-.
    + rewrite F in F'. discriminate.
  - intros p1 w1 A ND. apply Run in A.
    destruct (project_upsert_cases n (db w)) as [(q & _ & E) | (F & E)];
      rewrite E in A; injection A as <- <-; [exact ND |].
    cbn. rewrite map_app. cbn.
    apply NoDup_snoc; [now apply find_has_name_none | exact ND].
  - intros NF.
    destruct (project_upsert_ensures n (db w)) as (p & d' & E & _ & _ & F & _).
    exists p, (mkWorld d' []), (mkWorld d' []).
    unfold await, next_fault. rewrite NF, E. cbn [tl faults db].
    split; [reflexivity |].
    destruct (project_upsert_cases n d') as [(q & F' & E') | (F' & _)].
    + rewrite F in F'. injection F' as <-. rewrite E'. reflexivity.
    + rewrite F in F'. discriminate.
Qed.

End Registry.

(** ** Creating a task *)

Section CreateTask.
Import Js Page Prisma Api.

Lemma blank_iff (o : option string) : blank o = true <-> empty_after_trim o.
Proof.
  destruct o as [v |]; cbn; [| tauto].
  destruct v as [| c v]; cbn [truthy negb orb].
  - cbn. tauto.
  - split; intros H.
    + now apply String.eqb_eq.
    + now apply String.eqb_eq.
Qed.

Lemma blank_false (o : option string) :
  ~ empty_after_trim o -> blank o = false.
Proof.
  intros H. destruct (blank o) eqn:B; [| reflexivity].
  apply blank_iff in B. contradiction.
Qed.

(** The state a successful [await] of a query leaves. *)
Lemma await_returned {A : Type} (q : Query A) (w : World) (a : A) (w' : World) :
  await q w = (Returned a, w') ->
  q (db w) = Done a (db w') /\ faults w' = tl (faults w).
Proof.
  unfold await. destruct (next_fault w); [discriminate |].
  destruct (q (db w)) as [e | a' d']; [discriminate |].
  intros H. injection H as <- <-. split; reflexivity.
Qed.

(** A failed [await] changes no row. *)
Lemma await_threw {A : Type} (q : Query A) (w : World) (e : PrismaError) (w' : World) :
  await q w = (Threw e, w') -> db w' = db w.
Proof.
  unfold await. destruct (next_fault w).
  - intros H. now injection H as _ <-.
  - destruct (q (db w)) as [e' | a' d']; [| discriminate].
    intros H. now injection H as _ <-.
Qed.

(** With no failure of the storage to come, [await] runs the query. *)
Lemma await_no_fault {A : Type} (q : Query A) (w : World) :
  faults w = [] ->
  await q w = match q (db w) with
              | Failed e => (Threw e, mkWorld (db w) [])
              | Done a d' => (Returned a, mkWorld d' [])
              end.
Proof. intros NF. unfold await, next_fault. rewrite NF. reflexivity. Qed.

(** The rows a task handler's [POST] builds and stores. *)
Lemma tasks_POST_created (body : TasksRoute.Body) (w : World) (resp : Response)
    (w' : World) :
  TasksRoute.POST (Some body) w = (Returned resp, w') ->
  res_status resp = 201 ->
  exists p d1 t,
    blank (TasksRoute.b_title body) = false /\
    blank (TasksRoute.b_project body) = false /\
    project_upsert (trim (or_else (TasksRoute.b_project body) EmptyString)) (db w)
      = Done p d1 /\
    t = mkTask (fresh_id d1)
               (trim (or_else (TasksRoute.b_title body) EmptyString))
               (TasksRoute.b_notes body)
               (trim (or_else (TasksRoute.b_project body) EmptyString))
               default_status (TasksRoute.b_due_date body) None
               (stored_source (TasksRoute.b_source body))
               (clock d1) (clock d1) /\
    resp = mkResponse 201 (JTask t) /\
    project_rows (db w') = project_rows d1 /\
    task_rows (db w') = (task_rows d1 ++ [t])%list.
Proof.
  unfold TasksRoute.POST.
  destruct (blank (TasksRoute.b_title body)) eqn:Bt.
  { unfold ret. intros H. injection H as <- _. discriminate. }
  destruct (blank (TasksRoute.b_project body)) eqn:Bp.
  { unfold ret. intros H. injection H as <- _. discriminate. }
  unfold try_catch, bind.
  destruct (await (project_upsert _) w) as [[e | p] w1] eqn:A1.
  { unfold ret. intros H. injection H as <- _. discriminate. }
  destruct (await (task_create _) w1) as [[e | t] w2] eqn:A2.
  { unfold ret. intros H. injection H as <- _. discriminate. }
  unfold ret. intros H _. injection H as <- <-.
  apply await_returned in A1. destruct A1 as [A1 _].
  apply await_returned in A2. destruct A2 as [A2 _].
  unfold task_create in A2. injection A2 as <- A2.
  exists p, (db w1). eexists.
  split; [reflexivity |]. split; [reflexivity |].
  split; [exact A1 |]. split; [reflexivity |]. split; [reflexivity |].
  rewrite <- A2. split; reflexivity.
Qed.

(** C8.  Creating a task answers with the validation error 400 when
    the title, or else the project, is left out or empty once trimmed.
    Otherwise, the storage not failing, it answers 201 with the new
    task, stored under its trimmed title and project, the project being
    ensured; and whenever it answers 201 the new task is stored and its
    project is the name of a stored project. *)
Theorem createTask_validates_and_ensures (body : TasksRoute.Body) (w : World) :
  (empty_after_trim (TasksRoute.b_title body) ->
     TasksRoute.POST (Some body) w =
       (Returned (errorResponse "title is required" 400), w)) /\
  (~ empty_after_trim (TasksRoute.b_title body) ->
   empty_after_trim (TasksRoute.b_project body) ->
     TasksRoute.POST (Some body) w =
       (Returned (errorResponse "project is required" 400), w)) /\
  (~ empty_after_trim (TasksRoute.b_title body) ->
   ~ empty_after_trim (TasksRoute.b_project body) ->
   faults w = [] ->
   exists t w',
     TasksRoute.POST (Some body) w = (Returned (mkResponse 201 (JTask t)), w') /\
     title t = trim (or_else (TasksRoute.b_title body) EmptyString) /\
     project t = trim (or_else (TasksRoute.b_project body) EmptyString) /\
     task_rows (db w') = (task_rows (db w) ++ [t])%list /\
     exists p, In p (project_rows (db w')) /\ name p = project t) /\
  (forall resp w',
     TasksRoute.POST (Some body) w = (Returned resp, w') ->
     res_status resp = 201 ->
     exists t, res_body resp = JTask t /\
               In t (task_rows (db w')) /\
               exists p, In p (project_rows (db w')) /\ name p = project t).
Proof.
  split; [| split; [| split]].
  - intros Bt. apply blank_iff in Bt.
    unfold TasksRoute.POST. rewrite Bt. reflexivity.
  - intros Bt Bp. apply blank_false in Bt. apply blank_iff in Bp.
    unfold TasksRoute.POST. rewrite Bt, Bp. reflexivity.
  - intros Bt Bp NF. apply blank_false in Bt. apply blank_false in Bp.
    unfold TasksRoute.POST. rewrite Bt, Bp.
    unfold try_catch, bind.
    rewrite (await_no_fault _ w NF).
    destruct (project_upsert_ensures
                (trim (or_else (TasksRoute.b_project body) EmptyString)) (db w))
      as (p & d1 & E & Hn & Hp & _ & Ht & _).
    rewrite E. rewrite await_no_fault by reflexivity.
    cbn [db task_create]. unfold ret.
    eexists. eexists. split; [reflexivity |].
    cbn [title project db task_rows project_rows].
    split; [reflexivity |]. split; [reflexivity |].
    split; [now rewrite Ht |].
    exists p. split; assumption.
  - intros resp w' P S.
    destruct (tasks_POST_created body w resp w' P S)
      as (p & d1 & t & _ & _ & E & Et & -> & Hp & Ht).
    exists t. split; [reflexivity |].
    split; [rewrite Ht; apply in_or_app; right; now left |].
    destruct (project_upsert_ensures
                (trim (or_else (TasksRoute.b_project body) EmptyString)) (db w))
      as (p' & d' & E' & Hn & Hin & _).
    rewrite E in E'. injection E' as <- <-.
    exists p. rewrite Hp. split; [exact Hin |].
    rewrite Hn, Et. reflexivity.
Qed.

(** C10.  The task a successful creation stores has the source [claude]
    when the request's source is the string [claude], and [manual] for
    any other source and for none; so it is one of the two. *)
Theorem createTask_source (body : TasksRoute.Body) (w : World)
    (resp : Response) (w' : World) :
  TasksRoute.POST (Some body) w = (Returned resp, w') ->
  res_status resp = 201 ->
  exists t,
    res_body resp = JTask t /\ In t (task_rows (db w')) /\
    (TasksRoute.b_source body = Some "claude" -> source t = "claude") /\
    (TasksRoute.b_source body <> Some "claude" -> source t = "manual") /\
    (source t = "claude" \/ source t = "manual").
Proof.
  intros P S.
  destruct (tasks_POST_created body w resp w' P S)
    as (p & d1 & t & _ & _ & _ & Et & -> & _ & Ht).
  exists t. split; [reflexivity |].
  split; [rewrite Ht; apply in_or_app; right; now left |].
  assert (source t = stored_source (TasksRoute.b_source body)) as Es
    by (rewrite Et; reflexivity).
  rewrite Es. unfold stored_source.
  destruct (TasksRoute.b_source body) as [s |].
  - destruct (String.eqb_spec s "claude") as [-> | N].
    + repeat split; auto. intros H. now contradiction H.
    + repeat split; auto. intros H. injection H as ->. now contradiction N.
  - repeat split; auto. discriminate.
Qed.

End CreateTask.

(** ** Renaming a project, and name conflicts *)

Section Rename.
Import Js Page Prisma Api.

Lemma existsb_other_name (i n : string) (ps : list Project) (q : Project) :
  In q ps -> pid q <> i -> name q = n ->
  existsb (fun q => has_name n q && negb (has_pid i q)) ps = true.
Proof.
  intros Hq Hi Hn. apply existsb_exists. exists q. split; [exact Hq |].
  unfold has_name, has_pid. rewrite Hn, String.eqb_refl.
  destruct (String.eqb_spec (pid q) i); [contradiction | reflexivity].
Qed.

Lemma existsb_name_in (n : string) (ps : list Project) :
  In n (map name ps) -> existsb (has_name n) ps = true.
Proof.
  intros H. apply in_map_iff in H. destruct H as (q & E & Hq).
  apply existsb_exists. exists q. split; [exact Hq |].
  unfold has_name. now rewrite E, String.eqb_refl.
Qed.

(** Every way the rename handler ends. *)
Lemma rename_cases (id : string) (request : option ProjectRoute.Body)
    (w : World) (r : Result Response) (w' : World) :
  ProjectRoute.PATCH id request w = (r, w') ->
  (db w' = db w /\
   forall resp, r = Returned resp -> res_status resp <> 200) \/
  (exists raw old d',
     request = Some {| ProjectRoute.b_name := Some raw |} /\
     find (has_pid id) (project_rows (db w)) = Some old /\
     seq2 (project_update id (trim raw))
          (task_updateMany (name old) (trim raw)) (db w)
       = Done (mkProject (pid old) (trim raw),
               Z.of_nat (List.length (filter (in_project (name old))
                                             (task_rows (db w))))) d' /\
     r = Returned (mkResponse 200 (JProject (mkProject (pid old) (trim raw)))) /\
     db w' = d').
Proof.
  unfold ProjectRoute.PATCH.
  destruct request as [[nm] |]; cbn [ProjectRoute.b_name].
  2:{ unfold ret. intros H. injection H as <- <-. left.
      split; [reflexivity |]. intros resp E. injection E as <-. discriminate. }
  destruct (blank nm) eqn:B.
  { unfold ret. intros H. injection H as <- <-. left.
    split; [reflexivity |]. intros resp E. injection E as <-. discriminate. }
  destruct nm as [raw |]; [| discriminate]. cbn [or_else].
  unfold bind at 1.
  destruct (await (project_findUnique id) w) as [[e | found] w1] eqn:A1.
  { intros H. injection H as <- <-. left.
    split; [now apply await_threw in A1 | discriminate]. }
  apply await_returned in A1. destruct A1 as [A1 _].
  unfold project_findUnique in A1. injection A1 as A1 D1.
  destruct found as [old |].
  2:{ unfold ret. intros H. injection H as <- <-. left.
      split; [now rewrite D1 |]. intros resp E. injection E as <-. discriminate. }
  unfold try_catch, bind, transaction.
  destruct (await (seq2 _ _) w1) as [[e | [p k]] w2] eqn:A2.
  - apply await_threw in A2.
    intros H. left. split.
    + destruct e; unfold ret in H; injection H as _ <-; congruence.
    + intros resp E. subst r.
      destruct e; unfold ret in H; injection H as <- _; discriminate.
  - apply await_returned in A2. destruct A2 as [A2 _].
    unfold ret. cbn [fst]. intros H. injection H as <- <-.
    right. exists raw, old, (db w2).
    rewrite <- D1 in A2.
    assert (seq2 (project_update id (trim raw))
                 (task_updateMany (name old) (trim raw)) (db w)
            = Done (p, k) (db w2)) as A2' by exact A2.
    unfold seq2, project_update in A2.
    rewrite A1 in A2.
    destruct (existsb _ (project_rows (db w))); [discriminate |].
    unfold task_updateMany in A2. cbn [task_rows set_projects] in A2.
    injection A2 as <- <- _.
    repeat split; try assumption; try reflexivity.
Qed.

(** The rows a batch of the two rename queries leaves. *)
Lemma rename_batch_rows (id n : string) (old : Project) (d d' : Db)
    (res : Project * Z) :
  seq2 (project_update id n) (task_updateMany (name old) n) d = Done res d' ->
  project_rows d' =
    map (fun q => if has_pid id q then mkProject (pid q) n else q)
        (project_rows d) /\
  task_rows d' =
    map (fun t => if in_project (name old) t then with_project n (clock d) t else t)
        (task_rows d).
Proof.
  unfold seq2, project_update.
  destruct (find (has_pid id) (project_rows d)); [| discriminate].
  destruct (existsb _ (project_rows d)); [discriminate |].
  unfold task_updateMany. cbn. intros H. injection H as _ <-.
  split; reflexivity.
Qed.

Lemma find_renamed (id n : string) (old : Project) (ps : list Project) :
  find (has_pid id) ps = Some old ->
  find (has_pid id)
       (map (fun q => if has_pid id q then mkProject (pid q) n else q) ps)
  = Some (mkProject (pid old) n).
Proof.
  induction ps as [| q ps IH]; cbn; [discriminate |].
  destruct (has_pid id q) eqn:E.
  - intros H. injection H as <-. cbn. unfold has_pid in *. cbn. now rewrite E.
  - rewrite E. exact IH.
Qed.

(** A rename succeeds when the name is not blank, the project exists, no
    other project carries the new name and the storage does not fail. *)
Lemma rename_succeeds (id raw : string) (old : Project) (w : World) :
  ~ empty_after_trim (Some raw) ->
  find (has_pid id) (project_rows (db w)) = Some old ->
  (forall q, In q (project_rows (db w)) -> name q = trim raw -> pid q = id) ->
  faults w = [] ->
  exists w',
    ProjectRoute.PATCH id (Some {| ProjectRoute.b_name := Some raw |}) w =
      (Returned (mkResponse 200 (JProject (mkProject (pid old) (trim raw)))), w').
Proof.
  intros B F U NF. apply blank_false in B.
  unfold ProjectRoute.PATCH. cbn [ProjectRoute.b_name]. rewrite B.
  cbn [or_else]. unfold bind at 1.
  rewrite (await_no_fault _ w NF). unfold project_findUnique. rewrite F.
  unfold try_catch, bind, transaction.
  rewrite await_no_fault by reflexivity. cbn [db].
  unfold seq2, project_update. rewrite F.
  assert (existsb (fun q => has_name (trim raw) q && negb (has_pid id q))
                  (project_rows (db w)) = false) as ->.
  { destruct (existsb _ _) eqn:X; [| reflexivity].
    apply existsb_exists in X. destruct X as (q & Hq & X).
    apply andb_true_iff in X. destruct X as [X1 X2].
    apply String.eqb_eq in X1. specialize (U q Hq X1).
    unfold has_pid in X2. rewrite U, String.eqb_refl in X2. discriminate. }
  unfold task_updateMany, ret. cbn [fst]. eexists. reflexivity.
Qed.

Lemma retarget_leaves_none (old n : string) (now : string) (ts : list Task) :
  old <> n ->
  forall t,
    In t (map (fun t => if in_project old t then with_project n now t else t) ts) ->
    project t <> old.
Proof.
  intros Hne t Ht. apply in_map_iff in Ht. destruct Ht as (u & <- & _).
  unfold in_project. destruct (String.eqb_spec (project u) old) as [E | E].
  - cbn. congruence.
  - exact E.
Qed.

Lemma Forall2_map_self {A : Type} (R : A -> A -> Prop) (f : A -> A) (l : list A) :
  (forall x, R x (f x)) -> Forall2 R l (map f l).
Proof.
  intros H. induction l as [| x l IH]; cbn; constructor; auto.
Qed.

(** C3.  A rename that answers 200 has set the name of the project of
    that id to the trimmed new name and the project of every task that
    carried the old name to it, in one transaction: afterwards the
    tasks are the tasks of before, in their order, each with the new
    name as project if it carried the old one and with its own project
    if not, and with its id, title, notes, status, dates and source as
    they were; no task carries the old name any more, unless it is the
    new one; every other row is as it was.  A rename that ends in any
    other way, an error answer or an exception, has changed no project
    and no task; and a rename of a stored project to a name that is not
    blank and that no other project carries answers 200 when the
    storage does not fail. *)
Theorem renameProject_atomic (id : string) (request : option ProjectRoute.Body)
    (w : World) (r : Result Response) (w' : World) :
  ProjectRoute.PATCH id request w = (r, w') ->
  (forall resp, r = Returned resp -> res_status resp = 200 ->
     exists raw old,
       request = Some {| ProjectRoute.b_name := Some raw |} /\
       find (has_pid id) (project_rows (db w)) = Some old /\
       res_body resp = JProject (mkProject (pid old) (trim raw)) /\
       find (has_pid id) (project_rows (db w')) =
         Some (mkProject (pid old) (trim raw)) /\
       project_rows (db w') =
         map (fun q => if has_pid id q then mkProject (pid q) (trim raw) else q)
             (project_rows (db w)) /\
       task_rows (db w') =
         map (fun t => if in_project (name old) t
                       then with_project (trim raw) (clock (db w)) t else t)
             (task_rows (db w)) /\
       map project (task_rows (db w')) =
         map (fun t => if String.eqb (project t) (name old)
                       then trim raw else project t)
             (task_rows (db w)) /\
       Forall2 (fun t t' =>
                  Page.id t' = Page.id t /\ title t' = title t /\
                  notes t' = notes t /\ status t' = status t /\
                  due_date t' = due_date t /\
                  snoozed_until t' = snoozed_until t /\
                  source t' = source t /\ created_at t' = created_at t /\
                  (project t <> name old -> t' = t))
               (task_rows (db w)) (task_rows (db w')) /\
       (name old <> trim raw ->
          forall t', In t' (task_rows (db w')) -> project t' <> name old)) /\
  ((forall resp, r = Returned resp -> res_status resp <> 200) ->
     project_rows (db w') = project_rows (db w) /\
     task_rows (db w') = task_rows (db w)) /\
  (forall raw old,
     request = Some {| ProjectRoute.b_name := Some raw |} ->
     ~ empty_after_trim (Some raw) ->
     find (has_pid id) (project_rows (db w)) = Some old ->
     (forall q, In q (project_rows (db w)) -> name q = trim raw -> pid q = id) ->
     faults w = [] ->
     r = Returned (mkResponse 200 (JProject (mkProject (pid old) (trim raw))))).
Proof.
  intros P. split; [| split].
  - intros resp -> S.
    destruct (rename_cases id request w _ w' P)
      as [[D N] | (raw & old & d' & -> & F & B & E & D)].
    + now contradiction (N resp eq_refl).
    + destruct (rename_batch_rows _ _ _ _ _ _ B) as [Rp Rt].
      rewrite <- D in Rp, Rt. injection E as ->.
      exists raw, old.
      split; [reflexivity |]. split; [exact F |]. split; [reflexivity |].
      split; [rewrite Rp; now apply find_renamed |].
      split; [exact Rp |]. split; [exact Rt |].
      split; [| split].
      * rewrite Rt, map_map. apply map_ext. intros t. unfold in_project.
        now destruct (String.eqb (project t) (name old)).
      * rewrite Rt. apply Forall2_map_self. intros t. unfold in_project.
        destruct (String.eqb_spec (project t) (name old)) as [E | E];
          cbn; repeat split; intros; congruence.
      * intros Hne t' Ht'. rewrite Rt in Ht'.
        now apply (retarget_leaves_none (name old) (trim raw) (clock (db w))
                     (task_rows (db w))).
  - intros N.
    destruct (rename_cases id request w r w' P)
      as [[D _] | (raw & old & d' & _ & _ & _ & -> & _)].
    + now rewrite D.
    + now contradiction (N _ eq_refl).
  - intros raw old -> B F U NF.
    destruct (rename_succeeds id raw old w B F U NF) as (w1 & E).
    rewrite E in P. now injection P as <- _.
Qed.

(** C7.  Creating a project under a name that, trimmed, is the name of a
    stored project, and renaming a project to the name of another stored
    project, are answered with the conflict error 409, whose message
    holds the name as given between quotes, and change no row; the answer
    differs from the generic failure, which is a 500.  Of two creations
    under one name in a row the second is answered with that conflict. *)
Theorem project_name_conflict (raw : string) (w : World) :
  ~ empty_after_trim (Some raw) -> faults w = [] ->
  let conflict_on_create :=
    errorResponse ("Project " ++ dquote ++ raw ++ dquote ++ " already exists") 409 in
  let conflict_on_rename :=
    errorResponse ("Project name " ++ dquote ++ raw ++ dquote ++ " already exists") 409 in
  (In (trim raw) (map name (project_rows (db w))) ->
     ProjectsRoute.POST (Some {| ProjectsRoute.b_name := Some raw |}) w =
       (Returned conflict_on_create, mkWorld (db w) [])) /\
  (forall id p q,
     find (has_pid id) (project_rows (db w)) = Some p ->
     In q (project_rows (db w)) -> pid q <> id -> name q = trim raw ->
     ProjectRoute.PATCH id (Some {| ProjectRoute.b_name := Some raw |}) w =
       (Returned conflict_on_rename, mkWorld (db w) [])) /\
  (exists r1 w1,
     ProjectsRoute.POST (Some {| ProjectsRoute.b_name := Some raw |}) w =
       (Returned r1, w1) /\
     (res_status r1 = 201 \/ r1 = conflict_on_create) /\
     ProjectsRoute.POST (Some {| ProjectsRoute.b_name := Some raw |}) w1 =
       (Returned conflict_on_create, mkWorld (db w1) [])) /\
  conflict_on_create <> errorResponse "Failed to create project" 500 /\
  conflict_on_rename <> errorResponse "Failed to rename project" 500.
Proof.
  intros B NF c1 c2. apply blank_false in B.
  assert (forall w0, faults w0 = [] ->
            In (trim raw) (map name (project_rows (db w0))) ->
            ProjectsRoute.POST (Some {| ProjectsRoute.b_name := Some raw |}) w0 =
              (Returned c1, mkWorld (db w0) [])) as Dup.
  { intros w0 NF0 Hin.
    unfold ProjectsRoute.POST. cbn [ProjectsRoute.b_name]. rewrite B.
    cbn [or_else]. unfold try_catch, bind.
    rewrite (await_no_fault _ w0 NF0). unfold project_create.
    rewrite (existsb_name_in _ _ Hin). reflexivity. }
  split; [| split; [| split; [| split]]].
  - apply Dup. exact NF.
  - intros id p q F Hq Hne Hn.
    unfold ProjectRoute.PATCH. cbn [ProjectRoute.b_name]. rewrite B.
    cbn [or_else]. unfold bind at 1.
    rewrite (await_no_fault _ w NF). unfold project_findUnique. rewrite F.
    unfold try_catch, bind, transaction.
    rewrite await_no_fault by reflexivity. cbn [db].
    unfold seq2, project_update. rewrite F.
    rewrite (existsb_other_name id (trim raw) _ q Hq Hne Hn). reflexivity.
  - destruct (existsb (has_name (trim raw)) (project_rows (db w))) eqn:X.
    + assert (In (trim raw) (map name (project_rows (db w)))) as Hin.
      { apply existsb_exists in X. destruct X as (q & Hq & X).
        apply String.eqb_eq in X. apply in_map_iff. now exists q. }
      exists c1, (mkWorld (db w) []).
      split; [now apply Dup |]. split; [now right |].
      apply Dup; [reflexivity | exact Hin].
    + eexists. eexists. split.
      * unfold ProjectsRoute.POST. cbn [ProjectsRoute.b_name]. rewrite B.
        cbn [or_else]. unfold try_catch, bind.
        rewrite (await_no_fault _ w NF). unfold project_create.
        rewrite X. unfold ret. reflexivity.
      * split; [now left |].
        apply Dup; [reflexivity |].
        cbn [db project_rows]. rewrite map_app. apply in_or_app.
        right. now left.
  - unfold c1, errorResponse. intros H. discriminate.
  - unfold c2, errorResponse. intros H. discriminate.
Qed.

End Rename.

(** ** Deleting a project *)

Section Delete.
Import Js Page Prisma Api.

(** The projects the list handler shows are the stored ones. *)
Lemma projects_GET_lists (w : World) (ps : list ProjectWithCount) (w' : World) :
  ProjectsRoute.GET w = (Returned (mkResponse 200 (JProjectList ps)), w') ->
  forall pc, In pc ps ->
  exists q, In q (project_rows (db w)) /\ pc_id pc = pid q /\ pc_name pc = name q.
Proof.
  unfold ProjectsRoute.GET, try_catch, bind.
  destruct (await project_findMany w) as [[e | projects] w1] eqn:A1;
    [unfold ret; discriminate |].
  destruct (await task_groupBy_project w1) as [[e | counts] w2] eqn:A2;
    [unfold ret; discriminate |].
  unfold ret. intros H. injection H as <- _.
  apply await_returned in A1. destruct A1 as [A1 _].
  unfold project_findMany in A1. injection A1 as <- _.
  intros pc Hpc. apply in_map_iff in Hpc. destruct Hpc as (q & <- & Hq).
  apply sort_by_In in Hq. exists q. cbn. auto.
Qed.

(** The rows a batch of the two delete queries leaves. *)
Lemma delete_batch_rows (id old : string) (d d' : Db) (res : Z * Project) :
  seq2 (task_updateMany old ProjectRoute.UNCATEGORISED) (project_delete id) d
    = Done res d' ->
  project_rows d' = filter (fun q => negb (has_pid id q)) (project_rows d) /\
  task_rows d' =
    map (fun t => if in_project old t
                  then with_project ProjectRoute.UNCATEGORISED (clock d) t else t)
        (task_rows d).
Proof.
  unfold seq2, task_updateMany, project_delete. cbn.
  destruct (find (has_pid id) (project_rows d)); [| discriminate].
  intros H. injection H as _ <-. split; reflexivity.
Qed.

(** Every way the delete handler ends. *)
Lemma delete_cases (id : string) (w : World) (r : Result Response) (w' : World) :
  ProjectRoute.DELETE id w = (r, w') ->
  (db w' = db w /\
   forall resp, r = Returned resp -> res_status resp <> 204) \/
  (exists p s d1,
     find (has_pid id) (project_rows (db w)) = Some p /\
     project_upsert ProjectRoute.UNCATEGORISED (db w) = Done s d1 /\
     ((db w' = d1 /\ r = Returned (errorResponse "Failed to delete project" 500)) \/
      (exists res,
         seq2 (task_updateMany (name p) ProjectRoute.UNCATEGORISED)
              (project_delete id) d1 = Done res (db w') /\
         r = Returned (mkResponse 204 JNone)))).
Proof.
  unfold ProjectRoute.DELETE. unfold bind at 1.
  destruct (await (project_findUnique id) w) as [[e | found] w1] eqn:A1.
  { intros H. injection H as <- <-. left.
    split; [now apply await_threw in A1 | discriminate]. }
  apply await_returned in A1. destruct A1 as [A1 _].
  unfold project_findUnique in A1. injection A1 as A1 D1.
  destruct found as [p |].
  2:{ unfold ret. intros H. injection H as <- <-. left.
      split; [now rewrite D1 |]. intros resp E. injection E as <-. discriminate. }
  unfold try_catch, bind.
  destruct (await (project_upsert _) w1) as [[e | s] w2] eqn:A2.
  { apply await_threw in A2. unfold ret. intros H. injection H as <- <-. left.
    split; [congruence |]. intros resp E. injection E as <-. discriminate. }
  apply await_returned in A2. destruct A2 as [A2 _]. rewrite <- D1 in A2.
  unfold transaction.
  destruct (await (seq2 _ _) w2) as [[e | res] w3] eqn:A3.
  - apply await_threw in A3. unfold ret. intros H. injection H as <- <-.
    right. exists p, s, (db w2). repeat split; try assumption.
    left. split; [exact A3 | reflexivity].
  - apply await_returned in A3. destruct A3 as [A3 _].
    unfold ret. intros H. injection H as <- <-.
    right. exists p, s, (db w2). repeat split; try assumption.
    right. exists res. split; [exact A3 | reflexivity].
Qed.

Lemma find_app_found {A : Type} (f : A -> bool) (l l' : list A) (a : A) :
  find f l = Some a -> find f (l ++ l') = Some a.
Proof.
  induction l as [| x l IH]; cbn; [discriminate |].
  destruct (f x); [trivial | exact IH].
Qed.

(** Deleting a stored project answers 204 when the storage does not
    fail. *)
Lemma delete_succeeds (id : string) (p : Project) (w : World) :
  find (has_pid id) (project_rows (db w)) = Some p ->
  faults w = [] ->
  exists w', ProjectRoute.DELETE id w = (Returned (mkResponse 204 JNone), w').
Proof.
  intros F NF.
  unfold ProjectRoute.DELETE. unfold bind at 1.
  rewrite (await_no_fault _ w NF). unfold project_findUnique. rewrite F.
  unfold try_catch, bind, transaction.
  rewrite await_no_fault by reflexivity. cbn [db].
  assert (exists s d1, project_upsert ProjectRoute.UNCATEGORISED (db w) = Done s d1 /\
                       find (has_pid id) (project_rows d1) = Some p) as (s & d1 & U & F1).
  { destruct (project_upsert_cases ProjectRoute.UNCATEGORISED (db w))
      as [(q & _ & E) | (_ & E)]; rewrite E; eexists; eexists;
      (split; [reflexivity |]); [exact F |].
    cbn [project_rows]. now apply find_app_found. }
  rewrite U. rewrite await_no_fault by reflexivity. cbn [db].
  unfold seq2, task_updateMany, project_delete. cbn [project_rows set_tasks].
  rewrite F1. unfold ret. eexists. reflexivity.
Qed.

(** C4, as the handler has it.  A delete that answers 204 found the
    project, first ensured the sentinel, so that it was stored before the
    batch ran, and then in one transaction moved to the sentinel every
    task that carried the project's name and deleted the project's row.
    Afterwards no stored project has the id, the project list does not
    show it, and, the deleted project not being the sentinel itself, no
    task carries its name.  A delete that ends in any other way has
    changed no task, and no project except that the sentinel may have
    been added.  Deleting a stored project answers 204 when the storage
    does not fail. *)
Theorem deleteProject_effect (id : string) (w : World) (r : Result Response)
    (w' : World) :
  ProjectRoute.DELETE id w = (r, w') ->
  (forall resp, r = Returned resp -> res_status resp = 204 ->
     exists p s d1 res,
       find (has_pid id) (project_rows (db w)) = Some p /\
       project_upsert ProjectRoute.UNCATEGORISED (db w) = Done s d1 /\
       In s (project_rows d1) /\ name s = ProjectRoute.UNCATEGORISED /\
       task_rows d1 = task_rows (db w) /\
       seq2 (task_updateMany (name p) ProjectRoute.UNCATEGORISED)
            (project_delete id) d1 = Done res (db w') /\
       task_rows (db w') =
         map (fun t => if in_project (name p) t
                       then with_project ProjectRoute.UNCATEGORISED (clock d1) t
                       else t)
             (task_rows (db w)) /\
       project_rows (db w') =
         filter (fun q => negb (has_pid id q)) (project_rows d1) /\
       (forall q, In q (project_rows (db w')) -> pid q <> id) /\
       (forall ps w'',
          ProjectsRoute.GET w' = (Returned (mkResponse 200 (JProjectList ps)), w'') ->
          forall pc, In pc ps -> pc_id pc <> id) /\
       (name p <> ProjectRoute.UNCATEGORISED ->
          forall t, In t (task_rows (db w')) -> project t <> name p) /\
       (pid s <> id -> In s (project_rows (db w')))) /\
  ((forall resp, r = Returned resp -> res_status resp <> 204) ->
     task_rows (db w') = task_rows (db w) /\
     (project_rows (db w') = project_rows (db w) \/
      exists s, name s = ProjectRoute.UNCATEGORISED /\
                project_rows (db w') = (project_rows (db w) ++ [s])%list)) /\
  (forall p, find (has_pid id) (project_rows (db w)) = Some p ->
     faults w = [] -> r = Returned (mkResponse 204 JNone)).
Proof.
  intros P.
  apply and_assoc. split.
  2:{ intros p F NF.
      destruct (delete_succeeds id p w F NF) as (w1 & E).
      rewrite E in P. now injection P as <- _. }
  destruct (delete_cases id w r w' P)
    as [[D N] | (p & s & d1 & F & U & [[D ->] | (res & B & ->)])].
  - split.
    + intros resp -> S. now contradiction (N resp eq_refl).
    + intros _. rewrite D. split; [reflexivity | now left].
  - split; [intros resp E S; injection E as <-; discriminate |].
    intros _. rewrite D.
    destruct (project_upsert_cases ProjectRoute.UNCATEGORISED (db w))
      as [(q & _ & E) | (_ & E)]; rewrite E in U; injection U as <- <-.
    + split; [reflexivity | now left].
    + cbn. split; [reflexivity |]. right.
      exists (mkProject (fresh_id (db w)) ProjectRoute.UNCATEGORISED).
      split; reflexivity.
  - split; [| intros N; now contradiction (N _ eq_refl)].
    intros resp _ _.
    destruct (project_upsert_ensures ProjectRoute.UNCATEGORISED (db w))
      as (s' & d' & U' & Hn & Hs & _ & Ht & _).
    rewrite U in U'. injection U' as <- <-.
    destruct (delete_batch_rows _ _ _ _ _ B) as [Rp Rt].
    rewrite Ht in Rt.
    assert (forall q, In q (project_rows (db w')) -> pid q <> id) as Gone.
    { intros q Hq. rewrite Rp in Hq. apply filter_In in Hq.
      destruct Hq as [_ Hq]. unfold has_pid in Hq.
      destruct (String.eqb_spec (pid q) id); [discriminate | assumption]. }
    exists p, s, d1, res.
    split; [exact F |]. split; [exact U |]. split; [exact Hs |].
    split; [exact Hn |]. split; [exact Ht |]. split; [exact B |].
    split; [exact Rt |]. split; [exact Rp |]. split; [exact Gone |].
    split; [| split].
    + intros ps w'' G pc Hpc.
      destruct (projects_GET_lists w' ps w'' G pc Hpc) as (q & Hq & -> & _).
      now apply Gone.
    + intros Hne. rewrite Rt. now apply retarget_leaves_none.
    + intros Hne. rewrite Rp. apply filter_In. split; [exact Hs |].
      unfold has_pid. destruct (String.eqb_spec (pid s) id) as [E | E];
        [contradiction | reflexivity].
Qed.

End Delete.

(** ** Writing tasks and the project invariant *)

Section TaskWrites.
Import Js Page Prisma Api.

Lemma consistent_more_projects (d d' : Db) :
  task_rows d' = task_rows d ->
  (forall q, In q (project_rows d) -> In q (project_rows d')) ->
  projects_consistent d -> projects_consistent d'.
Proof.
  intros Ht Hp C t Hin. rewrite Ht in Hin.
  destruct (C t Hin) as [Ne Hn]. split; [exact Ne |].
  apply in_map_iff in Hn. destruct Hn as (q & E & Hq).
  apply in_map_iff. exists q. split; [exact E | now apply Hp].
Qed.

Lemma consistent_after_upsert (n : string) (d d1 : Db) (p : Project) :
  project_upsert n d = Done p d1 ->
  projects_consistent d ->
  projects_consistent d1 /\ In n (map name (project_rows d1)).
Proof.
  intros U C.
  destruct (project_upsert_ensures n d) as (p' & d' & U' & Hn & Hp & _ & Ht & Hs).
  rewrite U in U'. injection U' as <- <-.
  split.
  - now apply (consistent_more_projects d d1).
  - apply in_map_iff. now exists p.
Qed.

Lemma status_check (o : option string) :
  status_accepted o ->
  match o with
  | Some s => negb (TaskRoute.includes VALID_STATUSES s)
  | None => false
  end = false.
Proof.
  destruct o as [s |]; [| reflexivity]. cbn [status_accepted]. intros H.
  unfold TaskRoute.includes.
  assert (existsb (String.eqb s) VALID_STATUSES = true) as ->; [| reflexivity].
  apply existsb_exists. exists s. split; [exact H | apply String.eqb_refl].
Qed.

(** The fields of an updated row: each is the one the data gives, or
    the one the row had; the time of the update is the time of the
    write unless the data gives nothing. *)
Lemma apply_update_fields (d : TaskUpdateData) (now : string) (t : Task) :
  Page.id (apply_update d now t) = Page.id t /\
  title (apply_update d now t) = or_else (u_title d) (title t) /\
  notes (apply_update d now t) = or_keep (u_notes d) (notes t) /\
  project (apply_update d now t) = or_else (u_project d) (project t) /\
  status (apply_update d now t) = or_else (u_status d) (status t) /\
  due_date (apply_update d now t) = or_keep (u_due_date d) (due_date t) /\
  snoozed_until (apply_update d now t)
    = or_keep (u_snoozed_until d) (snoozed_until t) /\
  source (apply_update d now t) = source t /\
  created_at (apply_update d now t) = created_at t /\
  updated_at (apply_update d now t) = if no_data d then updated_at t else now.
Proof.
  unfold apply_update, no_data.
  destruct (u_title d), (u_notes d), (u_project d), (u_status d),
    (u_due_date d), (u_snoozed_until d); cbn; repeat split.
Qed.

Lemma apply_update_id (d : TaskUpdateData) (now : string) (t : Task) :
  Page.id (apply_update d now t) = Page.id t.
Proof. apply apply_update_fields. Qed.

Lemma apply_update_project (d : TaskUpdateData) (now : string) (t : Task) :
  project (apply_update d now t) = or_else (u_project d) (project t).
Proof. apply apply_update_fields. Qed.

(** Creating a task keeps the invariant, however the handler ends. *)
Lemma createTask_keeps_consistent (request : option TasksRoute.Body)
    (w : World) (r : Result Response) (w' : World) :
  TasksRoute.POST request w = (r, w') ->
  projects_consistent (db w) -> projects_consistent (db w').
Proof.
  unfold TasksRoute.POST.
  destruct request as [body |];
    [| unfold ret; intros H; now injection H as _ <-].
  destruct (blank (TasksRoute.b_title body)) eqn:Bt;
    [unfold ret; intros H; now injection H as _ <- |].
  destruct (blank (TasksRoute.b_project body)) eqn:Bp;
    [unfold ret; intros H; now injection H as _ <- |].
  unfold try_catch, bind.
  destruct (await (project_upsert _) w) as [[e | p] w1] eqn:A1.
  { apply await_threw in A1. unfold ret. intros H. injection H as _ <-.
    now rewrite A1. }
  apply await_returned in A1. destruct A1 as [A1 _].
  intros H C.
  destruct (consistent_after_upsert _ _ _ _ A1 C) as [C1 Hn].
  destruct (await (task_create _) w1) as [[e | t] w2] eqn:A2.
  { apply await_threw in A2. unfold ret in H. injection H as _ <-.
    now rewrite A2. }
  apply await_returned in A2. destruct A2 as [A2 _].
  unfold ret in H. injection H as _ <-.
  unfold task_create in A2. injection A2 as <- A2. rewrite <- A2.
  intros u Hu. cbn [task_rows project_rows] in *.
  apply in_app_or in Hu. destruct Hu as [Hu | [<- | []]].
  - now apply C1.
  - cbn [project]. split; [| exact Hn].
    destruct (TasksRoute.b_project body) as [v |]; [| discriminate].
    cbn [or_else]. intros E.
    assert (blank (Some v) = true) as B by (apply blank_iff; exact E).
    rewrite B in Bp. discriminate.
Qed.

Lemma In_updated (i : string) (f : Task -> Task) (ts : list Task) (u : Task) :
  In u (map (fun t => if has_id i t then f t else t) ts) ->
  In u ts \/ exists t, In t ts /\ u = f t.
Proof.
  intros H. apply in_map_iff in H. destruct H as (t & E & Ht).
  destruct (has_id i t); [right; now exists t | left; now subst].
Qed.

(** Updating a task keeps the invariant, however the handler ends,
    unless the request sets the project to the empty string. *)
Lemma updateTask_keeps_consistent (id : string) (request : option TaskRoute.Body)
    (w : World) (r : Result Response) (w' : World) :
  (forall body, request = Some body ->
     TaskRoute.b_project body <> Some EmptyString) ->
  TaskRoute.PATCH id request w = (r, w') ->
  projects_consistent (db w) -> projects_consistent (db w').
Proof.
  unfold TaskRoute.PATCH. intros Hp.
  destruct request as [body |];
    [| unfold ret; intros H; now injection H as _ <-].
  specialize (Hp body eq_refl).
  destruct (match TaskRoute.b_status body with
            | Some s => negb (TaskRoute.includes VALID_STATUSES s)
            | None => false
            end);
    [unfold ret; intros H; now injection H as _ <- |].
  unfold bind at 1.
  destruct (TaskRoute.b_project body) as [v |] eqn:Ev.
  - destruct v as [| c v]; [now contradiction Hp |].
    cbn [truthy]. unfold bind at 1.
    destruct (await (project_upsert _) w) as [[e | p] w1] eqn:A1.
    { apply await_threw in A1. intros H. injection H as _ <-. now rewrite A1. }
    apply await_returned in A1. destruct A1 as [A1 _].
    unfold ret at 1. intros H C.
    destruct (consistent_after_upsert _ _ _ _ A1 C) as [C1 Hn].
    unfold try_catch, bind in H.
    destruct (await (task_update _ _) w1) as [[e | t] w2] eqn:A2.
    { apply await_threw in A2.
      destruct (TaskRoute.isPrismaNotFound e); unfold ret in H;
        injection H as _ <-; now rewrite A2. }
    apply await_returned in A2. destruct A2 as [A2 _].
    unfold Date_now, ret in H. injection H as _ <-.
    unfold task_update in A2.
    destruct (find (has_id id) (task_rows (db w1))); [| discriminate].
    injection A2 as _ A2. rewrite <- A2.
    intros u Hu. cbn [task_rows project_rows set_tasks] in *.
    apply In_updated in Hu. destruct Hu as [Hu | (row & Hrow & ->)].
    + now apply C1.
    + rewrite apply_update_project. cbn [u_project or_else].
      split; [discriminate | exact Hn].
  - unfold ret at 1. intros H C.
    unfold try_catch, bind in H.
    destruct (await (task_update _ _) w) as [[e | t] w2] eqn:A2.
    { apply await_threw in A2.
      destruct (TaskRoute.isPrismaNotFound e); unfold ret in H;
        injection H as _ <-; now rewrite A2. }
    apply await_returned in A2. destruct A2 as [A2 _].
    unfold Date_now, ret in H. injection H as _ <-.
    unfold task_update in A2.
    destruct (find (has_id id) (task_rows (db w))); [| discriminate].
    injection A2 as _ A2. rewrite <- A2.
    intros u Hu. cbn [task_rows project_rows set_tasks] in *.
    apply In_updated in Hu. destruct Hu as [Hu | (row & Hrow & ->)].
    + now apply C.
    + rewrite apply_update_project. cbn [u_project or_else]. now apply C.
Qed.

(** C6.  Claimed: after every write every stored task's project is not
    empty and names a stored project.  An update whose request sets the
    project to the empty string is answered 200 and stores the empty
    project on the task, ensuring no project: the handler ensures the
    project only when the string is truthy, and writes it whenever it is
    given. *)
Theorem updateTask_stores_empty_project (id : string) (body : TaskRoute.Body)
    (w : World) (t : Task) :
  faults w = [] ->
  find (has_id id) (task_rows (db w)) = Some t ->
  TaskRoute.b_project body = Some EmptyString ->
  status_accepted (TaskRoute.b_status body) ->
  exists resp w',
    TaskRoute.PATCH id (Some body) w = (Returned resp, w') /\
    res_status resp = 200 /\
    project_rows (db w') = project_rows (db w) /\
    (exists t', In t' (task_rows (db w')) /\
                Page.id t' = id /\ project t' = EmptyString) /\
    ~ projects_consistent (db w').
Proof.
  intros NF F Ep Hs.
  unfold TaskRoute.PATCH. rewrite (status_check _ Hs), Ep.
  cbn [truthy]. unfold bind at 1. unfold ret at 1.
  unfold try_catch, bind.
  rewrite (await_no_fault _ w NF). unfold task_update. rewrite F.
  unfold Date_now, ret. cbn [db].
  eexists. eexists. split; [reflexivity |].
  split; [reflexivity |]. split; [reflexivity |].
  apply find_some in F. destruct F as [Hin Hid].
  assert (exists t', In t' (task_rows (set_tasks (db w)
            (map (fun u => if has_id id u
                           then apply_update
                                  {| u_title := TaskRoute.b_title body;
                                     u_notes := TaskRoute.b_notes body;
                                     u_project := Some EmptyString;
                                     u_status := TaskRoute.b_status body;
                                     u_due_date := TaskRoute.b_due_date body;
                                     u_snoozed_until := TaskRoute.b_snoozed_until body |}
                                  (clock (db w)) u
                           else u) (task_rows (db w))))) /\
                      Page.id t' = id /\ project t' = EmptyString) as X.
  { eexists. split; [| split].
    - cbn [task_rows set_tasks]. apply in_map_iff. exists t.
      split; [rewrite Hid; reflexivity | exact Hin].
    - rewrite apply_update_id. now apply String.eqb_eq.
    - now rewrite apply_update_project. }
  split; [exact X |].
  destruct X as (t' & Ht' & _ & E). intros C.
  destruct (C t' Ht') as [Ne _]. contradiction.
Qed.

End TaskWrites.

(** ** Worked runs on the sample states *)

Section Runs.
Import Js Page Prisma Api Scenario.

(** Deleting the sentinel project answers 204 and leaves its task
    carrying the name of a project that is no longer stored; and a
    delete whose transaction fails answers 500 having stored the
    sentinel all the same. *)
Lemma deleteProject_counterexample :
  (exists w',
     ProjectRoute.DELETE "1" (steady db_sentinel) =
       (Returned (mkResponse 204 JNone), w') /\
     find (has_pid "1") (project_rows db_sentinel) =
       Some (mkProject "1" "Uncategorised") /\
     map project (task_rows (db w')) = ["Uncategorised"] /\
     project_rows (db w') = []) /\
  (exists w',
     ProjectRoute.DELETE "1" (failing_third db_alpha) =
       (Returned (errorResponse "Failed to delete project" 500), w') /\
     project_rows (db w') = [mkProject "1" "Alpha"; mkProject "3" "Uncategorised"] /\
     project_rows db_alpha = [mkProject "1" "Alpha"] /\
     task_rows (db w') = task_rows db_alpha).
Proof.
  split; eexists; vm_compute; repeat split.
Qed.

(** Renaming Alpha to Beta in the sample of two projects: the task of
    Alpha is under Beta afterwards. *)
Lemma renameProject_witness :
  let run := ProjectRoute.PATCH "1" (Some {| ProjectRoute.b_name := Some " Beta " |})
               (steady db_two) in
  map project (task_rows (db (snd run))) = ["Beta"] /\
  map name (project_rows (db (snd run))) = ["Beta"; "Gamma"].
Proof.
  intros run.
  destruct (proj1 (renameProject_atomic "1" _ (steady db_two) (fst run) (snd run)
                     (surjective_pairing run))
                  (mkResponse 200 (JProject (mkProject "1" "Beta"))))
    as (raw & old & Erq & F & _ & _ & Rp & _ & Rm & _).
  - vm_compute. reflexivity.
  - reflexivity.
  - injection Erq as <-. vm_compute in F. injection F as <-.
    rewrite Rm, Rp. vm_compute. split; reflexivity.
Defined.

Lemma deleteProject_witness :
  let run := ProjectRoute.DELETE "1" (steady db_alpha) in
  Forall (fun t => project t <> "Alpha") (task_rows (db (snd run))).
Proof.
  intros run.
  destruct (proj1 (deleteProject_effect "1" (steady db_alpha) (fst run) (snd run)
                     (surjective_pairing run))
                  (mkResponse 204 JNone))
    as (p & s & d1 & res & F & _ & _ & _ & _ & _ & _ & _ & _ & _ & NoRef & _).
  - vm_compute. reflexivity.
  - reflexivity.
  - vm_compute in F. injection F as <-.
    apply Forall_forall. apply NoRef. vm_compute. discriminate.
Defined.

(** On 2 November 2026 at 23:30 on a host five hours behind UTC, where
    it is already 3 November in UTC, a task snoozed until 2 November is
    answered as pending; at 02:00 on a host nine hours ahead, where it
    is still 1 November in UTC, a task snoozed until 1 November is
    answered as snoozed. *)
Lemma snooze_resolver_witness :
  toISOString Samples.late_evening = "2026-11-03T04:30:00.000Z" /\
  localDate (local_day Samples.late_evening) = "2026-11-02" /\
  ~ lapsed "2026-11-02" (Samples.snoozed_to "2026-11-02") /\
  status (resolveSnooze (toISOString Samples.late_evening)
            (Samples.snoozed_to "2026-11-02")) = "pending" /\
  toISOString Samples.early_morning = "2026-11-01T17:00:00.000Z" /\
  lapsed "2026-11-02" (Samples.snoozed_to "2026-11-01") /\
  status (resolveSnooze (toISOString Samples.early_morning)
            (Samples.snoozed_to "2026-11-01")) = "snoozed".
Proof.
  split; [reflexivity |]. split; [reflexivity |].
  assert (valid_date (utc_day Samples.late_evening)) as V
    by (unfold valid_date; vm_compute; intuition discriminate).
  assert (valid_date (utc_day Samples.early_morning)) as V'
    by (unfold valid_date; vm_compute; intuition discriminate).
  pose proof (snooze_resolver_contract Samples.late_evening
                (Samples.snoozed_to "2026-11-02") V) as H.
  pose proof (snooze_resolver_contract Samples.early_morning
                (Samples.snoozed_to "2026-11-01") V') as H'.
  cbv zeta in H, H'.
  destruct H as (_ & _ & _ & _ & _ & H & _).
  destruct H' as (_ & _ & _ & _ & _ & _ & H').
  destruct H as (N & _ & S).
  - unfold valid_date. vm_compute. intuition discriminate.
  - vm_compute. reflexivity.
  - reflexivity.
  - reflexivity.
  - destruct H' as (L & _ & S').
    + unfold valid_date. vm_compute. intuition discriminate.
    + vm_compute. reflexivity.
    + reflexivity.
    + reflexivity.
    + split; [exact N |]. split; [exact S |]. split; [reflexivity |].
      split; [exact L | exact S'].
Defined.

Lemma updateTask_empty_project_witness :
  exists resp w',
    TaskRoute.PATCH "2"
      (Some {| TaskRoute.b_title := None; TaskRoute.b_notes := None;
               TaskRoute.b_project := Some EmptyString;
               TaskRoute.b_status := None; TaskRoute.b_due_date := None;
               TaskRoute.b_snoozed_until := None |})
      (steady db_alpha) = (Returned resp, w') /\
    res_status resp = 200 /\
    project_rows (db w') = project_rows (db (steady db_alpha)) /\
    (exists t', In t' (task_rows (db w')) /\
                Page.id t' = "2" /\ project t' = EmptyString) /\
    ~ projects_consistent (db w').
Proof.
  apply (updateTask_stores_empty_project "2" _ (steady db_alpha) (task_in "2" "Alpha")).
  - reflexivity.
  - reflexivity.
  - reflexivity.
  - exact I.
Defined.

(** Creating Alpha again, with a no-break space before the name and a
    space after it, is a conflict. *)
Lemma project_name_conflict_witness :
  ProjectsRoute.POST
    (Some {| ProjectsRoute.b_name := Some (Samples.nbsp ++ "Alpha ") |})
    (steady db_alpha) =
  (Returned (errorResponse
               ("Project " ++ dquote ++ Samples.nbsp ++ "Alpha " ++ dquote
                ++ " already exists") 409),
   mkWorld (db (steady db_alpha)) []).
Proof.
  apply (proj1 (project_name_conflict (Samples.nbsp ++ "Alpha ") (steady db_alpha)
                  ltac:(vm_compute; discriminate) eq_refl)).
  vm_compute. now left.
Defined.

(** A task for a new project is created under its trimmed title; a
    title that is a no-break space alone is turned down. *)
Lemma createTask_witness :
  (exists t w',
     TasksRoute.POST
       (Some {| TasksRoute.b_title := Some " Ship ";
                TasksRoute.b_project := Some "Beta";
                TasksRoute.b_notes := None;
                TasksRoute.b_due_date := Some "2026-11-01";
                TasksRoute.b_source := Some "claude" |})
       (steady db_alpha) = (Returned (mkResponse 201 (JTask t)), w') /\
     title t = "Ship" /\ project t = "Beta" /\
     task_rows (db w') = (task_rows (db (steady db_alpha)) ++ [t])%list /\
     exists p, In p (project_rows (db w')) /\ name p = project t) /\
  TasksRoute.POST
    (Some {| TasksRoute.b_title := Some Samples.nbsp;
             TasksRoute.b_project := Some "Beta";
             TasksRoute.b_notes := None;
             TasksRoute.b_due_date := None;
             TasksRoute.b_source := None |})
    (steady db_alpha) =
  (Returned (errorResponse "title is required" 400), steady db_alpha).
Proof.
  split.
  - apply (proj1 (proj2 (proj2
             (createTask_validates_and_ensures
                {| TasksRoute.b_title := Some " Ship ";
                   TasksRoute.b_project := Some "Beta";
                   TasksRoute.b_notes := None;
                   TasksRoute.b_due_date := Some "2026-11-01";
                   TasksRoute.b_source := Some "claude" |}
                (steady db_alpha))))).
    + vm_compute. discriminate.
    + vm_compute. discriminate.
    + reflexivity.
  - apply (proj1 (createTask_validates_and_ensures
                    {| TasksRoute.b_title := Some Samples.nbsp;
                       TasksRoute.b_project := Some "Beta";
                       TasksRoute.b_notes := None;
                       TasksRoute.b_due_date := None;
                       TasksRoute.b_source := None |}
                    (steady db_alpha))).
    vm_compute. reflexivity.
Defined.

Lemma ensureExists_witness :
  exists p w1 w2,
    await (project_upsert "Beta") (steady db_alpha) = (Returned p, w1) /\
    await (project_upsert "Beta") w1 = (Returned p, w2).
Proof.
  apply (proj2 (proj2 (proj2 (ensureExists_idempotent "Beta" (steady db_alpha))))).
  reflexivity.
Defined.

Lemma createTask_source_witness :
  let run := TasksRoute.POST (Some body_other_source) (steady db_alpha) in
  exists t,
    res_body (mkResponse 201 (JTask task_other_source)) = JTask t /\
    In t (task_rows (db (snd run))) /\
    (TasksRoute.b_source body_other_source = Some "claude" -> source t = "claude") /\
    (TasksRoute.b_source body_other_source <> Some "claude" -> source t = "manual") /\
    (source t = "claude" \/ source t = "manual").
Proof.
  intros run.
  apply (createTask_source body_other_source (steady db_alpha)
           (mkResponse 201 (JTask task_other_source)) (snd run)).
  - vm_compute. reflexivity.
  - reflexivity.
Defined.

End Runs.

(** * Further properties *)

Import Spec2.

(** ** Date strings *)

Section MoreDates.
Import Js Page.

Lemma date_before_key (d1 d2 : Date) :
  valid_date d1 -> valid_date d2 ->
  (date_before d1 d2 <-> date_key d1 < date_key d2).
Proof.
  intros (Hy1 & Hm1 & Hd1) (Hy2 & Hm2 & Hd2).
  pose proof (days_in_month_bound (getFullYear d1) (getMonth d1)).
  pose proof (days_in_month_bound (getFullYear d2) (getMonth d2)).
  unfold date_before, date_key. lia.
Qed.

Lemma date_key_inj (d1 d2 : Date) :
  valid_date d1 -> valid_date d2 -> date_key d1 = date_key d2 -> d1 = d2.
Proof.
  intros (Hy1 & Hm1 & Hd1) (Hy2 & Hm2 & Hd2).
  pose proof (days_in_month_bound (getFullYear d1) (getMonth d1)).
  pose proof (days_in_month_bound (getFullYear d2) (getMonth d2)).
  destruct d1 as [y1 m1 k1], d2 as [y2 m2 k2].
  unfold date_key. cbn [getFullYear getMonth getDate] in *.
  intros K. assert (y1 = y2 /\ m1 = m2 /\ k1 = k2) as (-> & -> & ->) by lia.
  reflexivity.
Qed.

(** X1.  The strings [localDate] writes for two valid dates compare,
    with the operators of JavaScript, as the dates do: one is below the
    other exactly when its date is before, and they are equal only for
    one date. *)
Theorem localDate_orders_dates (d1 d2 : Date) :
  valid_date d1 -> valid_date d2 ->
  (str_lt (localDate d1) (localDate d2) = true <-> date_before d1 d2) /\
  (str_gt (localDate d1) (localDate d2) = true <-> date_before d2 d1) /\
  (str_le (localDate d1) (localDate d2) = true <-> ~ date_before d2 d1) /\
  (localDate d1 = localDate d2 <-> d1 = d2).
Proof.
  intros V1 V2.
  rewrite localDate_lt, localDate_gt, localDate_le by assumption.
  rewrite (date_before_key d1 d2 V1 V2), (date_before_key d2 d1 V2 V1).
  rewrite !Z.ltb_lt, Z.leb_le.
  repeat split; try lia.
  - intros E. apply date_key_inj; try assumption.
    apply Z.eqb_eq. rewrite <- localDate_eqb by assumption.
    now apply String.eqb_eq.
  - now intros ->.
Qed.

(** [shiftDays] on a host in any zone. *)
Lemma shiftDays_in_localDate (z : Zone) (d : Date) (n : Z) :
  valid_date d -> 0 <= n ->
  shiftDays_in z (localDate d) n =
    Some (localDate (if skipped z (days_later (Z.to_nat n) d)
                     then next_day (days_later (Z.to_nat n) d)
                     else days_later (Z.to_nat n) d)).
Proof.
  intros V Hn. unfold shiftDays_in, new_Date_in, days_later.
  rewrite parse_localDate by assumption.
  rewrite calendar_shift by assumption. reflexivity.
Qed.

(** X2.  [shiftDays] on a host in the zone [z], on the string of a
    valid date [d]: shifting by [a] days, up to 31, gives the string of
    the day [a] days after [d], or of the day after that one when the
    zone has skipped it; so shifting by no day gives the string back
    unless the zone has skipped [d] itself, and then gives the next
    day.  When the zone has not skipped the day [a] days after [d], the
    result of shifting by [a] is the string of a valid date, later than
    [d] when [a] is positive, and shifting it by [b] more days is
    shifting [d] by [a + b] at once. *)
Theorem shiftDays_composes (z : Zone) (d : Date) (a b : Z) :
  valid_date d -> getFullYear d <= 9998 ->
  0 <= a <= 31 -> 0 <= b ->
  shiftDays_in z (localDate d) a =
    Some (localDate (if skipped z (days_later (Z.to_nat a) d)
                     then next_day (days_later (Z.to_nat a) d)
                     else days_later (Z.to_nat a) d)) /\
  (skipped z d = false -> shiftDays_in z (localDate d) 0 = Some (localDate d)) /\
  (skipped z d = true ->
     shiftDays_in z (localDate d) 0 = Some (localDate (next_day d))) /\
  (skipped z (days_later (Z.to_nat a) d) = false ->
   exists d',
     shiftDays_in z (localDate d) a = Some (localDate d') /\
     valid_date d' /\
     (0 < a -> str_lt (localDate d) (localDate d') = true) /\
     shiftDays_in z (localDate d') b = shiftDays_in z (localDate d) (a + b)).
Proof.
  intros V Hy Ha Hb.
  split; [apply shiftDays_in_localDate; assumption || lia |].
  split; [| split].
  - intros S. rewrite shiftDays_in_localDate by (assumption || lia).
    change (days_later (Z.to_nat 0) d) with d. now rewrite S.
  - intros S. rewrite shiftDays_in_localDate by (assumption || lia).
    change (days_later (Z.to_nat 0) d) with d. now rewrite S.
  - intros Sa. exists (days_later (Z.to_nat a) d).
    destruct (iter_next_day_within d (Z.to_nat a) V Hy) as [[V' _] K]; [lia |].
    split; [rewrite shiftDays_in_localDate by (assumption || lia); now rewrite Sa |].
    split; [exact V' |]. split.
    + intros Hpos. rewrite localDate_lt by assumption. apply Z.ltb_lt. lia.
    + rewrite !shiftDays_in_localDate by (assumption || lia).
      assert (days_later (Z.to_nat b) (days_later (Z.to_nat a) d)
              = days_later (Z.to_nat (a + b)) d) as ->.
      { unfold days_later.
        replace (Z.to_nat (a + b)) with (Z.to_nat b + Z.to_nat a)%nat by lia.
        now rewrite Nat.iter_add. }
      reflexivity.
Qed.

End MoreDates.

(** ** The activity heatmap *)

Section MoreHeatmap.
Import Js Page Prisma Api Heatmap.







(** X5.  The arrows of the heatmap keep the month shown between the
    first month of the heatmap and the current month, with a month
    number from 1 to 12; and away from these two ends, going forth and
    back, or back and forth, shows the same month again. *)
Theorem heatmap_navigation (now : Date) (s : Shown) :
  0 <= getMonth now <= 11 ->
  shown_in_range now s ->
  shown_in_range now (goPrev s) /\
  shown_in_range now (goNext now s) /\
  (atMax now s = false -> goPrev (goNext now s) = s) /\
  (atMin s = false -> goNext now (goPrev s) = s).
Proof.
  intros Hn ((M1 & M2) & R1 & R2). destruct s as [y m].
  unfold shown_in_range, month_index, goPrev, goNext, atMin, atMax,
    HEATMAP_MIN_YEAR, HEATMAP_MIN_MONTH in *.
  cbn [year month] in *.
  repeat split;
    repeat match goal with
           | |- context [?a =? ?b] => destruct (Z.eqb_spec a b)
           | |- context [andb _ _] => cbn [andb year month]
           | |- _ -> _ => intros ?
           end;
    cbn [andb year month] in *; try discriminate; try lia;
    try (f_equal; lia).
Qed.

End MoreHeatmap.

(** ** The earlier page: three lists *)

Section MoreLegacy.
Import Js Page Prisma Api LegacyPage.

Lemma str_le_not_gt (a b : string) : str_le a b = negb (str_gt a b).
Proof.
  unfold str_le, str_gt, String.leb, String.ltb.
  rewrite (String.compare_antisym a b).
  destruct (String.compare b a); reflexivity.
Qed.

Lemma bucketTasks_one (t : string) (task : Task) :
  (is_todayTask t task = true /\ is_scheduledTask t task = false /\
   is_completedTask task = false) \/
  (is_todayTask t task = false /\ is_scheduledTask t task = true /\
   is_completedTask task = false) \/
  (is_todayTask t task = false /\ is_scheduledTask t task = false /\
   is_completedTask task = true).
Proof.
  unfold is_todayTask, is_scheduledTask, is_completedTask, not_done.
  destruct (String.eqb (status task) "done"); cbn [negb andb]; [tauto |].
  destruct (due_date task) as [d |]; [| tauto].
  rewrite str_le_not_gt. destruct (str_gt d t); cbn; tauto.
Qed.

Lemma three_filters_permutation {A : Type} (p1 p2 p3 : A -> bool) (l : list A) :
  (forall x,
     (p1 x = true /\ p2 x = false /\ p3 x = false) \/
     (p1 x = false /\ p2 x = true /\ p3 x = false) \/
     (p1 x = false /\ p2 x = false /\ p3 x = true)) ->
  Permutation l (filter p1 l ++ filter p2 l ++ filter p3 l)%list.
Proof.
  intros H. induction l as [| x l IH]; cbn [filter]; [constructor |].
  destruct (H x) as [(-> & -> & ->) | [(-> & -> & ->) | (-> & -> & ->)]].
  - cbn. now constructor.
  - apply Permutation_cons_app. exact IH.
  - rewrite app_assoc. apply Permutation_cons_app.
    rewrite <- app_assoc. exact IH.
Qed.

(** X6.  The three lists of the earlier page split the tasks: whatever
    the tasks and the day, every task passes exactly one of the three
    filters, and the three lists together hold each task as often as the
    list they are taken from. *)
Theorem bucketTasks_partitions (now : string) (tasks : list Task) :
  (forall task,
     (is_todayTask (today now) task = true /\
      is_scheduledTask (today now) task = false /\
      is_completedTask task = false) \/
     (is_todayTask (today now) task = false /\
      is_scheduledTask (today now) task = true /\
      is_completedTask task = false) \/
     (is_todayTask (today now) task = false /\
      is_scheduledTask (today now) task = false /\
      is_completedTask task = true)) /\
  Permutation tasks
    (todayTasks (bucketTasks now tasks) ++
     scheduledTasks (bucketTasks now tasks) ++
     completedTasks (bucketTasks now tasks))%list.
Proof.
  split; [intros task; apply bucketTasks_one |].
  unfold bucketTasks. cbn [todayTasks scheduledTasks completedTasks].
  apply three_filters_permutation. intros x. apply bucketTasks_one.
Qed.

End MoreLegacy.

(** ** The handlers of the page *)

Section MorePageState.
Import Js Page Prisma Api PageState.

Lemma map_task_twice (i : string) (f g : Task -> Task) (l : list Task) :
  (forall t, Page.id (f t) = Page.id t) ->
  map_task i g (map_task i f l) = map_task i (fun t => g (f t)) l.
Proof.
  intros Hf. unfold map_task. rewrite map_map. apply map_ext. intros t.
  destruct (has_id i t) eqn:E; [| now rewrite E].
  unfold has_id in *. now rewrite Hf, E.
Qed.

Lemma map_task_restores (i : string) (task : Task) (l : list Task) :
  NoDup (map Page.id l) -> find (has_id i) l = Some task ->
  map_task i (fun _ => task) l = l.
Proof.
  intros ND F. induction l as [| x l IH]; [reflexivity |].
  cbn [map] in ND. apply NoDup_cons_iff in ND. destruct ND as [Nx ND].
  cbn [find] in F. cbn [map_task map]. fold (map_task i (fun _ => task) l).
  destruct (has_id i x) eqn:E.
  - injection F as ->. f_equal.
    unfold map_task. rewrite <- (map_id l) at 2. apply map_ext_in.
    intros y Hy. destruct (has_id i y) eqn:Ey; [| reflexivity].
    exfalso. apply Nx. unfold has_id in *.
    apply String.eqb_eq in E, Ey. rewrite E, <- Ey. now apply in_map.
  - f_equal. now apply IH.
Qed.

(** X7.  Ticking a task on the page: for an id the list does not hold,
    nothing is sent and the list stays as it is; when the request fails
    and the ids of the list are distinct, the list is again what it was
    before the click; when it succeeds, the rows of that id become the
    task the server answered with and the other rows are untouched. *)
Theorem handleToggle_outcomes (i now : string) (tasks : list Task) :
  (find (has_id i) tasks = None ->
     handleToggle_request i tasks = None /\
     forall res, handleToggle i now res tasks = tasks) /\
  (NoDup (map Page.id tasks) -> handleToggle i now None tasks = tasks) /\
  (forall task updated,
     find (has_id i) tasks = Some task ->
     handleToggle_request i tasks =
       Some {| u_title := None; u_notes := None; u_project := None;
               u_status := Some (if String.eqb (status task) "done"
                                 then "pending" else "done");
               u_due_date := None; u_snoozed_until := None |} /\
     handleToggle i now (Some updated) tasks
       = map_task i (fun _ => updated) tasks).
Proof.
  split; [| split].
  - intros F. unfold handleToggle_request, handleToggle. rewrite F. auto.
  - intros ND. unfold handleToggle.
    destruct (find (has_id i) tasks) as [task |] eqn:F; [| reflexivity].
    rewrite map_task_twice by reflexivity. now apply map_task_restores.
  - intros task updated F. unfold handleToggle_request, handleToggle.
    rewrite F. split; [reflexivity |].
    now rewrite map_task_twice by reflexivity.
Qed.

(** X8.  Reopening or rescheduling a task on the page is not undone
    when the request fails: the rows of that id then keep the new due
    date, and for a reopening the status [pending], so that a reopened
    task leaves the completed list whatever the server answered. *)
Theorem reopen_reschedule_keep_optimistic (i newDate now : string)
    (tasks : list Task) (t : Task) :
  In t tasks -> Page.id t = i ->
  (exists t', In t' (handleReopen i newDate now None tasks) /\
              Page.id t' = i /\ status t' = "pending" /\
              due_date t' = Some newDate /\ is_completed t' = false /\
              title t' = title t /\ project t' = project t) /\
  (exists t', In t' (handleReschedule i newDate None tasks) /\
              Page.id t' = i /\ status t' = status t /\
              due_date t' = Some newDate) /\
  (forall u, In u tasks -> Page.id u <> i ->
     In u (handleReopen i newDate now None tasks) /\
     In u (handleReschedule i newDate None tasks)).
Proof.
  intros Hin Hid.
  assert (has_id i t = true) as Ht by (unfold has_id; now apply String.eqb_eq).
  split; [| split].
  - exists (with_due_date newDate (with_status_at "pending" now t)).
    split; [| cbn; auto 10].
    unfold handleReopen, map_task. apply in_map_iff. exists t.
    now rewrite Ht.
  - exists (with_due_date newDate t). split; [| cbn; auto].
    unfold handleReschedule, map_task. apply in_map_iff. exists t.
    now rewrite Ht.
  - intros u Hu Hne.
    assert (has_id i u = false) as Hf.
    { unfold has_id. now apply String.eqb_neq. }
    unfold handleReopen, handleReschedule, map_task.
    split; apply in_map_iff; exists u; now rewrite Hf.
Qed.

End MorePageState.

(** ** The route of one task *)

Section MoreTaskRoute.
Import Js Page Prisma Api.

Lemma resolveSnooze_not_lapsed (now : string) (t : Task) :
  ~ lapsed (day_of_iso now) (resolveSnooze now t).
Proof.
  unfold resolveSnooze.
  destruct (String.eqb (status t) "snoozed" &&
            match snoozed_until t with
            | Some u => str_lt u (day_of_iso now)
            | None => false
            end) eqn:E.
  - intros (S & _). cbn in S. discriminate.
  - intros (S & u & U & L). rewrite S, U, L in E. discriminate.
Qed.

(** Every way an update of a task ends. *)
Lemma task_PATCH_cases (id : string) (body : TaskRoute.Body) (w : World)
    (r : Result Response) (w' : World) :
  TaskRoute.PATCH id (Some body) w = (r, w') ->
  (~ status_accepted (TaskRoute.b_status body) /\ w' = w /\
   r = Returned (errorResponse
                   "Invalid status. Must be one of: pending, in_progress, done, snoozed"
                   400)) \/
  (status_accepted (TaskRoute.b_status body) /\
   ((exists e, r = Threw e /\ db w' = db w) \/
    (db w' = after_ensure (TaskRoute.b_project body) (db w) /\
     (r = Returned (errorResponse "Task not found" 404) \/
      r = Returned (errorResponse "Failed to update task" 500))) \/
    (exists t,
       let d1 := after_ensure (TaskRoute.b_project body) (db w) in
       find (has_id id) (task_rows d1) = Some t /\
       r = Returned (mkResponse 200
                       (JTask (resolveSnooze (clock d1)
                                 (apply_update (update_data body) (clock d1) t)))) /\
       db w' = set_tasks d1
                 (map (fun u => if has_id id u
                                then apply_update (update_data body) (clock d1) u
                                else u)
                      (task_rows d1))))).
Proof.
  unfold TaskRoute.PATCH.
  destruct (match TaskRoute.b_status body with
            | Some s => negb (TaskRoute.includes VALID_STATUSES s)
            | None => false
            end) eqn:Bad.
  { unfold ret. intros H. injection H as <- <-. left.
    split; [| split; reflexivity].
    intros Acc. rewrite (status_check _ Acc) in Bad. discriminate. }
  intros H. right. split.
  { destruct (TaskRoute.b_status body) as [s |]; cbn [status_accepted]; [| exact I].
    unfold TaskRoute.includes in Bad. apply negb_false_iff in Bad.
    apply existsb_exists in Bad. destruct Bad as (x & Hx & E).
    apply String.eqb_eq in E. now subst x. }
  revert H. fold (update_data body).
  generalize (update_data body). intros data.
  assert (forall w0,
            db w0 = after_ensure (TaskRoute.b_project body) (db w) ->
            try_catch
              (bind (await (task_update id data))
                    (fun task => bind Date_now
                       (fun now => ret (mkResponse 200 (JTask (resolveSnooze now task))))))
              (fun err => if TaskRoute.isPrismaNotFound err
                          then ret (errorResponse "Task not found" 404)
                          else ret (errorResponse "Failed to update task" 500)) w0
            = (r, w') ->
            (db w' = after_ensure (TaskRoute.b_project body) (db w) /\
             (r = Returned (errorResponse "Task not found" 404) \/
              r = Returned (errorResponse "Failed to update task" 500))) \/
            (exists t,
               let d1 := after_ensure (TaskRoute.b_project body) (db w) in
               find (has_id id) (task_rows d1) = Some t /\
               r = Returned (mkResponse 200
                               (JTask (resolveSnooze (clock d1)
                                         (apply_update data (clock d1) t)))) /\
               db w' = set_tasks d1
                         (map (fun u => if has_id id u
                                        then apply_update data (clock d1) u
                                        else u)
                              (task_rows d1)))) as Upd.
  { intros w0 D0. unfold try_catch, bind.
    destruct (await (task_update id data) w0) as [[e | t] w2] eqn:A2.
    - apply await_threw in A2. intros H. left.
      destruct (TaskRoute.isPrismaNotFound e); unfold ret in H;
        injection H as <- <-; (split; [congruence |]); auto.
    - apply await_returned in A2. destruct A2 as [A2 _].
      unfold Date_now, ret. intros H. injection H as <- <-.
      right. unfold task_update in A2. rewrite D0 in A2.
      destruct (find (has_id id) (task_rows (after_ensure _ (db w))))
        as [t0 |]; [| discriminate].
      injection A2 as <- A2. exists t0. cbn zeta.
      split; [reflexivity |]. rewrite <- A2. cbn [clock set_tasks].
      split; reflexivity. }
  unfold bind at 1.
  destruct (TaskRoute.b_project body) as [p |] eqn:Ep; cbn [after_ensure] in *.
  - destruct (truthy p).
    + unfold bind at 1.
      destruct (await (project_upsert p) w) as [[e | q] w1] eqn:A1.
      { intros H. injection H as <- <-. left. exists e.
        split; [reflexivity | now apply await_threw in A1]. }
      apply await_returned in A1. destruct A1 as [A1 _]. rewrite A1 in *.
      unfold ret at 1. intros H. right. now apply (Upd w1).
    + unfold ret at 1. intros H. right. now apply (Upd w).
  - unfold ret at 1. intros H. right. now apply (Upd w).
Qed.

Lemma after_ensure_keeps (o : option string) (d : Db) :
  task_rows (after_ensure o d) = task_rows d /\
  clock (after_ensure o d) = clock d /\
  (forall q, In q (project_rows d) -> In q (project_rows (after_ensure o d))).
Proof.
  unfold after_ensure. destruct o as [p |]; [| auto].
  destruct (truthy p); [| auto].
  destruct (project_upsert_cases p d) as [(q & _ & E) | (_ & E)]; rewrite E.
  - auto.
  - cbn. repeat split. intros q Hq. apply in_or_app. now left.
Qed.

(** Every way a read of one task ends. *)
Lemma task_GET_cases (id : string) (w : World) :
  exists w', db w' = db w /\
    (TaskRoute.GET id w =
       (Returned (errorResponse "Failed to retrieve task" 500), w') \/
     (find (has_id id) (task_rows (db w)) = None /\
      TaskRoute.GET id w = (Returned (errorResponse "Task not found" 404), w')) \/
     (exists t, find (has_id id) (task_rows (db w)) = Some t /\
        TaskRoute.GET id w =
          (Returned (mkResponse 200 (JTask (resolveSnooze (clock (db w)) t))), w'))).
Proof.
  unfold TaskRoute.GET, try_catch, bind, await, task_findUnique, Date_now, ret.
  destruct (next_fault w).
  - eexists. split; [| left; reflexivity]. reflexivity.
  - destruct (find (has_id id) (task_rows (db w))) as [t |] eqn:F.
    + eexists. split; [| right; right; exists t; split; reflexivity]. reflexivity.
    + eexists. split; [| right; left; split; reflexivity]. reflexivity.
Qed.

(** X9.  The handlers read the day off the time stamp of the clock,
    which is the day in UTC at the instant of the request, not the day
    of the host.  Resolving a snooze twice is resolving it once, and a
    resolved task is never snoozed until a day before that day; so no
    task in a 200 answer of the list of tasks, of the read of one task
    or of the update of one is a task whose snooze has lapsed by the day
    in UTC.  A stored task whose snooze has lapsed is read as pending,
    alone or in the list, and stays stored as it was. *)
Theorem answers_show_no_lapsed_snooze (w : World) (i : Instant) :
  clock (db w) = toISOString i -> valid_date (utc_day i) ->
  let now := clock (db w) in
  let today_utc := localDate (utc_day i) in
  (forall t,
     resolveSnooze now (resolveSnooze now t) = resolveSnooze now t /\
     ~ lapsed today_utc (resolveSnooze now t)) /\
  (forall by_project by_status ts w' t,
     TasksRoute.GET by_project by_status w =
       (Returned (mkResponse 200 (JTaskList ts)), w') ->
     In t ts -> ~ lapsed today_utc t) /\
  (forall id t w',
     TaskRoute.GET id w = (Returned (mkResponse 200 (JTask t)), w') ->
     ~ lapsed today_utc t) /\
  (forall id body t w',
     TaskRoute.PATCH id (Some body) w = (Returned (mkResponse 200 (JTask t)), w') ->
     ~ lapsed today_utc t) /\
  (forall id row,
     faults w = [] -> find (has_id id) (task_rows (db w)) = Some row ->
     lapsed today_utc row ->
     TaskRoute.GET id w =
       (Returned (mkResponse 200 (JTask (with_status "pending" row))),
        mkWorld (db w) []) /\
     exists ts,
       TasksRoute.GET None None w =
         (Returned (mkResponse 200 (JTaskList ts)), mkWorld (db w) []) /\
       In (with_status "pending" row) ts).
Proof.
  intros Ck V now today_utc.
  assert (day_of_iso now = today_utc) as D.
  { unfold now. rewrite Ck. now apply day_of_iso_toISOString. }
  assert (forall t, ~ lapsed today_utc (resolveSnooze now t)) as NL.
  { intros t. rewrite <- D. apply resolveSnooze_not_lapsed. }
  split; [| split; [| split; [| split]]].
  - intros t. split; [| apply NL].
    apply resolveSnooze_kept. apply resolveSnooze_not_lapsed.
  - intros by_project by_status ts w' t G Hin.
    destruct (tasks_GET_cases by_project by_status w)
      as (w1 & [[G1 _] | (rows & _ & G1 & _)]);
      rewrite G1 in G; [discriminate |].
    injection G as <- _. apply in_map_iff in Hin.
    destruct Hin as (row & <- & _). apply NL.
  - intros id t w' G.
    destruct (task_GET_cases id w) as (w1 & _ & [G1 | [(_ & G1) | (t0 & _ & G1)]]);
      rewrite G1 in G; try discriminate.
    injection G as <- _. apply NL.
  - intros id body t w' P.
    destruct (task_PATCH_cases id body w _ w' P)
      as [(_ & _ & E) | (_ & [(e & E & _) | [(_ & [E | E]) | (t0 & _ & E & _)]])];
      try discriminate.
    injection E as ->.
    destruct (after_ensure_keeps (TaskRoute.b_project body) (db w)) as (_ & -> & _).
    apply NL.
  - intros id row NF F L. rewrite <- D in L.
    split.
    + unfold TaskRoute.GET, try_catch, bind. rewrite (await_no_fault _ w NF).
      unfold task_findUnique. rewrite F. unfold Date_now, ret. cbn [db].
      fold now. now rewrite (resolveSnooze_lapsed now row L).
    + unfold TasksRoute.GET, try_catch, bind. rewrite (await_no_fault _ w NF).
      unfold task_findMany. cbn [TasksRoute.if_truthy]. unfold Date_now, ret.
      cbn [db]. fold now. eexists. split; [reflexivity |].
      rewrite <- (resolveSnooze_lapsed now row L).
      apply in_map. apply sort_by_In. apply filter_In.
      split; [| reflexivity]. now apply (find_some _ _ F).
Qed.

(** X10.  An update whose status is not one of the four statuses is
    answered 400 with the list of the four, before anything is written:
    the world is left as it was, whatever else the request holds. *)
Theorem updateTask_rejects_unknown_status (id : string) (body : TaskRoute.Body)
    (w : World) :
  ~ status_accepted (TaskRoute.b_status body) ->
  TaskRoute.PATCH id (Some body) w =
    (Returned (errorResponse
                 "Invalid status. Must be one of: pending, in_progress, done, snoozed"
                 400), w).
Proof.
  intros N.
  destruct (TaskRoute.PATCH id (Some body) w) as [r w'] eqn:P.
  destruct (task_PATCH_cases id body w r w' P) as [(_ & -> & ->) | (A & _)].
  - reflexivity.
  - contradiction.
Qed.

(** X11.  An update of a task that is not stored, naming a project, is
    answered 404, and yet the project is ensured: the upsert runs before
    the task is looked up, so a project of that name is stored
    afterwards, a new one if there was none.  No task changes. *)
Theorem updateTask_unknown_id_still_ensures (id p : string)
    (body : TaskRoute.Body) (w : World) :
  faults w = [] ->
  status_accepted (TaskRoute.b_status body) ->
  TaskRoute.b_project body = Some p -> p <> EmptyString ->
  find (has_id id) (task_rows (db w)) = None ->
  exists w',
    TaskRoute.PATCH id (Some body) w =
      (Returned (errorResponse "Task not found" 404), w') /\
    In p (map name (project_rows (db w'))) /\
    task_rows (db w') = task_rows (db w) /\
    (~ In p (map name (project_rows (db w))) ->
       project_rows (db w') =
         (project_rows (db w) ++ [mkProject (fresh_id (db w)) p])%list).
Proof.
  intros NF Acc Ep Hp F.
  unfold TaskRoute.PATCH. rewrite (status_check _ Acc), Ep.
  destruct p as [| c p]; [contradiction |]. cbn [truthy].
  unfold bind at 1. unfold bind at 1.
  rewrite (await_no_fault _ w NF).
  destruct (project_upsert_ensures (String c p) (db w))
    as (q & d1 & U & Hn & Hq & _ & Ht & _).
  rewrite U. unfold ret at 1. unfold try_catch, bind.
  rewrite await_no_fault by reflexivity. cbn [db].
  unfold task_update. rewrite Ht, F. cbn [TaskRoute.isPrismaNotFound].
  unfold ret. eexists. split; [reflexivity |]. cbn [db].
  split; [apply in_map_iff; now exists q |].
  split; [exact Ht |].
  intros Nin.
  destruct (project_upsert_cases (String c p) (db w)) as [(q' & Fq & E) | (_ & E)].
  - exfalso. apply Nin. apply find_has_name_some in Fq. destruct Fq as [Hin Hnm].
    apply in_map_iff. now exists q'.
  - rewrite E in U. injection U as _ <-. reflexivity.
Qed.

Lemma find_updated (i : string) (f : Task -> Task) (ts : list Task) (t : Task) :
  (forall u, Page.id (f u) = Page.id u) ->
  find (has_id i) ts = Some t ->
  find (has_id i) (map (fun u => if has_id i u then f u else u) ts) = Some (f t).
Proof.
  intros Hf. induction ts as [| u ts IH]; cbn [find map]; [discriminate |].
  destruct (has_id i u) eqn:E.
  - intros H. injection H as <-. cbn [find].
    unfold has_id in *. now rewrite Hf, E.
  - cbn [find]. rewrite E. exact IH.
Qed.

Lemma others_kept (i : string) (f : Task -> Task) (ts : list Task) (u : Task) :
  In u ts -> Page.id u <> i ->
  In u (map (fun u => if has_id i u then f u else u) ts).
Proof.
  intros Hu Hne. apply in_map_iff. exists u.
  assert (has_id i u = false) as ->; [| auto].
  unfold has_id. now apply String.eqb_neq.
Qed.

(** An update, the storage not failing. *)
Lemma task_PATCH_no_fault (id : string) (body : TaskRoute.Body) (w : World) :
  faults w = [] ->
  status_accepted (TaskRoute.b_status body) ->
  exists w',
    TaskRoute.PATCH id (Some body) w =
      (Returned
         match find (has_id id) (task_rows (db w)) with
         | None => errorResponse "Task not found" 404
         | Some t =>
             mkResponse 200
               (JTask (resolveSnooze (clock (db w))
                         (apply_update (update_data body) (clock (db w)) t)))
         end, w') /\
    db w' =
      match find (has_id id) (task_rows (db w)) with
      | None => after_ensure (TaskRoute.b_project body) (db w)
      | Some _ =>
          set_tasks (after_ensure (TaskRoute.b_project body) (db w))
            (map (fun u => if has_id id u
                           then apply_update (update_data body) (clock (db w)) u
                           else u)
                 (task_rows (db w)))
      end.
Proof.
  intros NF Acc. unfold TaskRoute.PATCH. rewrite (status_check _ Acc).
  fold (update_data body).
  assert (forall w0, faults w0 = [] -> task_rows (db w0) = task_rows (db w) ->
            clock (db w0) = clock (db w) ->
            db w0 = after_ensure (TaskRoute.b_project body) (db w) ->
            exists w',
              try_catch
                (bind (await (task_update id (update_data body)))
                   (fun task => bind Date_now
                      (fun now => ret (mkResponse 200 (JTask (resolveSnooze now task))))))
                (fun err => if TaskRoute.isPrismaNotFound err
                            then ret (errorResponse "Task not found" 404)
                            else ret (errorResponse "Failed to update task" 500)) w0
              = (Returned
                   match find (has_id id) (task_rows (db w)) with
                   | None => errorResponse "Task not found" 404
                   | Some t =>
                       mkResponse 200
                         (JTask (resolveSnooze (clock (db w))
                                   (apply_update (update_data body) (clock (db w)) t)))
                   end, w') /\
              db w' =
                match find (has_id id) (task_rows (db w)) with
                | None => after_ensure (TaskRoute.b_project body) (db w)
                | Some _ =>
                    set_tasks (after_ensure (TaskRoute.b_project body) (db w))
                      (map (fun u => if has_id id u
                                     then apply_update (update_data body)
                                            (clock (db w)) u
                                     else u)
                           (task_rows (db w)))
                end) as Upd.
  { intros w0 NF0 T0 C0 D0. unfold try_catch, bind.
    rewrite (await_no_fault _ w0 NF0). unfold task_update. rewrite T0, C0.
    destruct (find (has_id id) (task_rows (db w))) as [t |].
    - unfold Date_now, ret. cbn [db clock set_tasks]. rewrite C0.
      eexists. split; [reflexivity |]. cbn [db]. now rewrite D0.
    - cbn [TaskRoute.isPrismaNotFound]. unfold ret.
      eexists. split; [reflexivity | exact D0]. }
  destruct (after_ensure_keeps (TaskRoute.b_project body) (db w)) as (Kt & Kc & _).
  unfold bind at 1.
  destruct (TaskRoute.b_project body) as [p |]; cbn [after_ensure] in Kt, Kc, Upd |- *.
  - destruct (truthy p).
    + unfold bind at 1. rewrite (await_no_fault _ w NF).
      destruct (project_upsert p (db w)) as [e | q d1] eqn:U.
      { exfalso. destruct (project_upsert_ensures p (db w)) as (? & ? & U' & _).
        rewrite U in U'. discriminate. }
      unfold ret at 1. now apply (Upd (mkWorld d1 [])).
    + unfold ret at 1. now apply (Upd w).
  - unfold ret at 1. now apply (Upd w).
Qed.

(** X12.  An update of a stored task, the storage not failing, is
    answered 200.  The stored task takes each field the request gives
    and keeps each field it leaves out; its id, source and creation time
    never change.  Its [updated_at] is the time of the write when the
    request gives a field; a request that gives none leaves the task as
    it was, [updated_at] included.  The tasks of other ids are
    untouched, and the answer is the stored task with its snooze
    resolved. *)
Theorem updateTask_applies_fields (id : string) (body : TaskRoute.Body)
    (w : World) (t : Task) :
  faults w = [] ->
  status_accepted (TaskRoute.b_status body) ->
  find (has_id id) (task_rows (db w)) = Some t ->
  exists t' w',
    TaskRoute.PATCH id (Some body) w =
      (Returned (mkResponse 200 (JTask (resolveSnooze (clock (db w)) t'))), w') /\
    find (has_id id) (task_rows (db w')) = Some t' /\
    Page.id t' = Page.id t /\ source t' = source t /\
    created_at t' = created_at t /\
    title t' = or_else (TaskRoute.b_title body) (title t) /\
    project t' = or_else (TaskRoute.b_project body) (project t) /\
    status t' = or_else (TaskRoute.b_status body) (status t) /\
    notes t' = or_keep (TaskRoute.b_notes body) (notes t) /\
    due_date t' = or_keep (TaskRoute.b_due_date body) (due_date t) /\
    snoozed_until t' = or_keep (TaskRoute.b_snoozed_until body) (snoozed_until t) /\
    (no_data (update_data body) = false -> updated_at t' = clock (db w)) /\
    (no_data (update_data body) = true -> t' = t) /\
    List.length (task_rows (db w')) = List.length (task_rows (db w)) /\
    (forall u, In u (task_rows (db w)) -> Page.id u <> id ->
       In u (task_rows (db w'))).
Proof.
  intros NF Acc F.
  destruct (task_PATCH_no_fault id body w NF Acc) as (w' & P & D).
  rewrite F in P, D.
  exists (apply_update (update_data body) (clock (db w)) t), w'.
  split; [exact P |].
  rewrite D. cbn [task_rows set_tasks].
  split.
  { apply (find_updated id (apply_update (update_data body) (clock (db w))));
      [intros u; apply apply_update_id | exact F]. }
  destruct (apply_update_fields (update_data body) (clock (db w)) t)
    as (E1 & E2 & E3 & E4 & E5 & E6 & E7 & E8 & E9 & E10).
  split; [exact E1 |]. split; [exact E8 |]. split; [exact E9 |].
  split; [exact E2 |]. split; [exact E4 |]. split; [exact E5 |].
  split; [exact E3 |]. split; [exact E6 |]. split; [exact E7 |].
  split; [intros N; now rewrite E10, N |].
  split; [intros N; unfold apply_update; now rewrite N |].
  split; [apply length_map |].
  intros u Hu Hne. now apply others_kept.
Qed.

End MoreTaskRoute.

(** ** Deleting and reading *)

Section MoreReads.
Import Js Page Prisma Api.

(** X13.  Deleting a task, the storage not failing: an id that is not
    stored is answered 404 and nothing changes; a stored id is answered
    204, after which no task has that id, the tasks of other ids are kept
    in their order, and no project is touched, not even one left without
    a task.  When the storage fails the answer is 500 and nothing
    changes. *)
Theorem deleteTask_outcomes (id : string) (w : World) :
  (faults w = [] -> find (has_id id) (task_rows (db w)) = None ->
     TaskRoute.DELETE id w =
       (Returned (errorResponse "Task not found" 404), mkWorld (db w) [])) /\
  (faults w = [] ->
   forall t, find (has_id id) (task_rows (db w)) = Some t ->
     exists w',
       TaskRoute.DELETE id w = (Returned (mkResponse 204 JNone), w') /\
       task_rows (db w') =
         filter (fun u => negb (has_id id u)) (task_rows (db w)) /\
       (forall u, In u (task_rows (db w')) -> Page.id u <> id) /\
       (forall u, In u (task_rows (db w)) -> Page.id u <> id ->
          In u (task_rows (db w'))) /\
       project_rows (db w') = project_rows (db w)) /\
  (next_fault w = true ->
     exists w',
       TaskRoute.DELETE id w =
         (Returned (errorResponse "Failed to delete task" 500), w') /\
       db w' = db w).
Proof.
  unfold TaskRoute.DELETE, try_catch, bind.
  split; [| split].
  - intros NF F. rewrite (await_no_fault _ w NF). unfold task_delete. rewrite F.
    reflexivity.
  - intros NF t F. rewrite (await_no_fault _ w NF). unfold task_delete. rewrite F.
    unfold ret. eexists. split; [reflexivity |]. cbn [db task_rows set_tasks project_rows].
    split; [reflexivity |]. split; [| split; [| reflexivity]].
    + intros u Hu. apply filter_In in Hu. destruct Hu as [_ Hu].
      unfold has_id in Hu.
      destruct (String.eqb_spec (Page.id u) id); [discriminate | assumption].
    + intros u Hu Hne. apply filter_In. split; [exact Hu |].
      unfold has_id. destruct (String.eqb_spec (Page.id u) id);
        [contradiction | reflexivity].
  - intros NF. unfold await. rewrite NF. cbn. eexists. split; reflexivity.
Qed.

(** Every way the list of projects ends. *)
Lemma projects_GET_cases (w : World) :
  exists w', db w' = db w /\
    (ProjectsRoute.GET w =
       (Returned (errorResponse "Failed to retrieve projects" 500), w') \/
     ProjectsRoute.GET w =
       (Returned
          (mkResponse 200
             (JProjectList
                (map (fun p => {| pc_id := pid p;
                                  pc_name := name p;
                                  task_count :=
                                    ProjectsRoute.count_of
                                      (map (fun n => (n, tasks_of n (db w)))
                                           (nodup string_dec
                                              (map project (task_rows (db w)))))
                                      (name p) |})
                     (sort_by (fun p q => str_le (name p) (name q))
                              (project_rows (db w)))))), w')).
Proof.
  unfold ProjectsRoute.GET, try_catch, bind, await, project_findMany,
    task_groupBy_project, ret.
  destruct (next_fault w).
  - eexists. split; [| left; reflexivity]. reflexivity.
  - cbn [db faults].
    destruct (next_fault (mkWorld (db w) (tl (faults w)))).
    + eexists. split; [| left; reflexivity]. reflexivity.
    + eexists. split; [| right; reflexivity]. reflexivity.
Qed.

(** X14.  The three reading handlers, the list of tasks, the read of one
    task and the list of projects, never change a stored row and never
    throw, whatever the storage does; and the read of a task that is not
    stored is answered 404 when the storage does not fail. *)
Theorem reads_never_write (w : World) :
  (forall by_project by_status,
     exists resp w',
       TasksRoute.GET by_project by_status w = (Returned resp, w') /\ db w' = db w) /\
  (forall id,
     exists resp w',
       TaskRoute.GET id w = (Returned resp, w') /\ db w' = db w) /\
  (exists resp w',
     ProjectsRoute.GET w = (Returned resp, w') /\ db w' = db w) /\
  (forall id,
     faults w = [] -> find (has_id id) (task_rows (db w)) = None ->
     fst (TaskRoute.GET id w) = Returned (errorResponse "Task not found" 404)).
Proof.
  split; [| split; [| split]].
  - intros by_project by_status.
    destruct (tasks_GET_cases by_project by_status w)
      as (w' & [[G D] | (rows & _ & G & D)]); rewrite G; eauto.
  - intros id.
    destruct (task_GET_cases id w) as (w' & D & [G | [(_ & G) | (t & _ & G)]]);
      rewrite G; eauto.
  - destruct (projects_GET_cases w) as (w' & D & [G | G]); rewrite G; eauto.
  - intros id NF F.
    unfold TaskRoute.GET, try_catch, bind.
    rewrite (await_no_fault _ w NF). unfold task_findUnique. rewrite F.
    reflexivity.
Qed.

End MoreReads.

(** ** The lists of tasks and of projects *)

Section MoreLists.
Import Js Page Prisma Api.

Lemma insert_by_perm {A : Type} (le : A -> A -> bool) (x : A) (l : list A) :
  Permutation (insert_by le x l) (x :: l).
Proof.
  induction l as [| y l IH]; cbn; [reflexivity |].
  destruct (le x y); [reflexivity |].
  rewrite IH. apply perm_swap.
Qed.

Lemma sort_by_perm {A : Type} (le : A -> A -> bool) (l : list A) :
  Permutation (sort_by le l) l.
Proof.
  unfold sort_by. induction l as [| x l IH]; cbn; [reflexivity |].
  rewrite insert_by_perm. now constructor.
Qed.

Lemma insert_by_ordered {A : Type} (le : A -> A -> bool) (x : A) (l : list A) :
  (forall a b, le a b = true \/ le b a = true) ->
  ordered le l -> ordered le (insert_by le x l).
Proof.
  intros T. induction l as [| y l IH]; intros O; [exact I |].
  cbn [insert_by]. destruct (le x y) eqn:E.
  - cbn. split; assumption.
  - assert (le y x = true) as Eyx by (destruct (T x y); congruence).
    destruct l as [| z l].
    + cbn. rewrite Eyx. auto.
    + destruct O as [Oyz O]. specialize (IH O).
      cbn [insert_by] in *. destruct (le x z); cbn; auto.
Qed.

Lemma sort_by_ordered {A : Type} (le : A -> A -> bool) (l : list A) :
  (forall a b, le a b = true \/ le b a = true) -> ordered le (sort_by le l).
Proof.
  intros T. unfold sort_by. induction l as [| x l IH]; [exact I |].
  cbn [fold_right]. now apply insert_by_ordered.
Qed.

Lemma ordered_map {A B : Type} (f : A -> B) (le : B -> B -> bool) (l : list A) :
  ordered (fun a b => le (f a) (f b)) l -> ordered le (map f l).
Proof.
  induction l as [| x l IH]; [trivial |].
  destruct l as [| y l]; [trivial |].
  intros [H O]. cbn. split; [exact H | now apply IH].
Qed.

(** X15.  A 200 answer of the list of tasks holds the stored tasks that
    pass the filters, each once and each with its snooze resolved, newest
    first by [created_at].  The filters test the stored project and the
    stored status, so a task listed under a status may show another one
    once resolved; and a filter given as the empty string filters
    nothing. *)
Theorem listTasks_answer (by_project by_status : option string) (w : World)
    (ts : list Task) (w' : World) :
  TasksRoute.GET by_project by_status w =
    (Returned (mkResponse 200 (JTaskList ts)), w') ->
  exists rows,
    ts = map (resolveSnooze (clock (db w))) rows /\
    ordered (fun a b => str_le (created_at b) (created_at a)) rows /\
    Permutation rows
      (filter (fun t =>
                 match by_project with
                 | Some (String c p) => in_project (String c p) t
                 | _ => true
                 end &&
                 match by_status with
                 | Some (String c s) => String.eqb (status t) (String c s)
                 | _ => true
                 end)
              (task_rows (db w))) /\
    TasksRoute.GET (Some EmptyString) by_status w = TasksRoute.GET None by_status w /\
    TasksRoute.GET by_project (Some EmptyString) w = TasksRoute.GET by_project None w.
Proof.
  intros G.
  destruct (tasks_GET_cases by_project by_status w)
    as (w1 & [[G1 _] | (rows & F & G1 & _)]); rewrite G1 in G; [discriminate |].
  injection G as <- _. exists rows. split; [reflexivity |].
  unfold task_findMany in F. injection F as <-.
  split; [| split; [| split; reflexivity]].
  - apply sort_by_ordered. intros a b. apply String.leb_total.
  - rewrite sort_by_perm.
    assert (forall (p q : Task -> bool) l, (forall x, p x = q x) ->
              filter p l = filter q l) as Ext.
    { intros p q l H. induction l as [| x l IH]; cbn; [reflexivity |].
      rewrite H, IH. reflexivity. }
    rewrite (Ext _ (fun t =>
                 match by_project with
                 | Some (String c p) => in_project (String c p) t
                 | _ => true
                 end &&
                 match by_status with
                 | Some (String c s) => String.eqb (status t) (String c s)
                 | _ => true
                 end)); [reflexivity |].
    intros x. destruct by_project as [[| c p] |], by_status as [[| c' s] |];
      reflexivity.
Qed.

Lemma count_of_rows (f : string -> Z) (l : list string) (n : string) :
  ProjectsRoute.count_of (map (fun k => (k, f k)) l) n =
  if in_dec string_dec n l then f n else 0.
Proof.
  unfold ProjectsRoute.count_of.
  induction l as [| k l IH]; cbn [map find fst]; [reflexivity |].
  destruct (String.eqb_spec k n) as [-> | N].
  - cbn [snd]. destruct (in_dec string_dec n (n :: l)) as [_ | X];
      [reflexivity | exfalso; apply X; now left].
  - rewrite IH.
    destruct (in_dec string_dec n l) as [Hl | Hl],
             (in_dec string_dec n (k :: l)) as [Hk | Hk];
      try reflexivity.
    + exfalso. apply Hk. now right.
    + destruct Hk as [-> | Hk]; contradiction.
Qed.

Lemma tasks_of_unused (n : string) (d : Db) :
  ~ In n (map project (task_rows d)) -> tasks_of n d = 0.
Proof.
  intros H. unfold tasks_of.
  assert (filter (in_project n) (task_rows d) = []) as ->; [| reflexivity].
  induction (task_rows d) as [| t l IH]; [reflexivity |].
  cbn [filter map] in *. unfold in_project at 1.
  destruct (String.eqb_spec (project t) n) as [E | E].
  - exfalso. apply H. now left.
  - apply IH. intros X. apply H. now right.
Qed.

(** X16.  A 200 answer of the list of projects holds every stored
    project once, in the order of their names, each with the number of
    stored tasks that carry its name as [task_count], nought for a
    project no task names. *)
Theorem listProjects_answer (w : World) (ps : list ProjectWithCount) (w' : World) :
  ProjectsRoute.GET w = (Returned (mkResponse 200 (JProjectList ps)), w') ->
  ordered str_le (map pc_name ps) /\
  Permutation (map (fun pc => mkProject (pc_id pc) (pc_name pc)) ps)
              (project_rows (db w)) /\
  (forall pc, In pc ps -> task_count pc = tasks_of (pc_name pc) (db w)) /\
  (forall pc, In pc ps -> ~ In (pc_name pc) (map project (task_rows (db w))) ->
     task_count pc = 0).
Proof.
  intros G.
  destruct (projects_GET_cases w) as (w1 & _ & [G1 | G1]);
    rewrite G1 in G; [discriminate |].
  injection G as <- _.
  assert (forall p,
            ProjectsRoute.count_of
              (map (fun n => (n, tasks_of n (db w)))
                   (nodup string_dec (map project (task_rows (db w)))))
              (name p) = tasks_of (name p) (db w)) as Cnt.
  { intros p. rewrite count_of_rows.
    destruct (in_dec string_dec (name p) _) as [_ | N]; [reflexivity |].
    symmetry. apply tasks_of_unused. intros X. apply N. now apply nodup_In. }
  split; [| split; [| split]].
  - rewrite map_map. cbn [pc_name].
    apply (ordered_map name str_le).
    apply sort_by_ordered. intros a b. apply String.leb_total.
  - rewrite map_map. cbn [pc_id pc_name].
    rewrite <- (sort_by_perm (fun p q => str_le (name p) (name q))
                  (project_rows (db w))) at 2.
    assert (forall l : list Project,
              map (fun x => mkProject (pid x) (name x)) l = l) as Id.
    { induction l as [| [i n] l IH]; cbn; [reflexivity | now rewrite IH]. }
    rewrite Id. reflexivity.
  - intros pc Hpc. apply in_map_iff in Hpc. destruct Hpc as (p & <- & _).
    cbn [task_count pc_name]. apply Cnt.
  - intros pc Hpc N. apply in_map_iff in Hpc. destruct Hpc as (p & <- & _).
    cbn [task_count pc_name] in *. rewrite Cnt. now apply tasks_of_unused.
Qed.

End MoreLists.

(** ** Invariants of the project table *)

Section MoreInvariants.
Import Js Page Prisma Api.

Lemma upsert_keeps_unique (n : string) (d d' : Db) (p : Project) :
  project_upsert n d = Done p d' -> names_unique d -> names_unique d'.
Proof.
  intros U ND. unfold names_unique in *.
  destruct (project_upsert_cases n d) as [(q & _ & E) | (F & E)];
    rewrite E in U; injection U as _ <-; [exact ND |].
  cbn. rewrite map_app. cbn.
  apply NoDup_snoc; [now apply find_has_name_none | exact ND].
Qed.

Lemma after_ensure_unique (o : option string) (d : Db) :
  names_unique d -> names_unique (after_ensure o d).
Proof.
  intros ND. unfold after_ensure. destruct o as [p |]; [| exact ND].
  destruct (truthy p); [| exact ND].
  destruct (project_upsert p d) as [e | q d'] eqn:U; [exact ND |].
  now apply (upsert_keeps_unique p d d' q).
Qed.

Lemma renamed_names_unique (i n : string) (rows : list Project) :
  NoDup (map pid rows) -> NoDup (map name rows) ->
  (forall r, In r rows -> name r = n -> pid r = i) ->
  NoDup (map name (map (fun q => if has_pid i q then mkProject (pid q) n else q) rows)).
Proof.
  induction rows as [| q rows IH]; intros Np Nn Own; [constructor |].
  cbn [map] in *. apply NoDup_cons_iff in Np. apply NoDup_cons_iff in Nn.
  destruct Np as [Pq Np], Nn as [Nq Nn].
  assert (NoDup (map name (map (fun q => if has_pid i q then mkProject (pid q) n else q)
                               rows))) as R.
  { apply IH; try assumption. intros r Hr. apply Own. now right. }
  constructor; [| exact R].
  intros X. apply in_map_iff in X. destruct X as (r' & E & Hr').
  apply in_map_iff in Hr'. destruct Hr' as (r & <- & Hr).
  unfold has_pid in *.
  destruct (String.eqb_spec (pid r) i) as [Er | Er];
    destruct (String.eqb_spec (pid q) i) as [Eq | Eq]; cbn [name] in E.
  - apply Pq. rewrite Eq, <- Er. now apply in_map.
  - apply Eq. apply Own; [now left | now symmetry].
  - apply Er. apply Own; [now right | exact E].
  - apply Nq. rewrite <- E. now apply in_map.
Qed.

Lemma filter_names_unique (f : Project -> bool) (rows : list Project) :
  NoDup (map name rows) -> NoDup (map name (filter f rows)).
Proof.
  induction rows as [| q rows IH]; intros ND; [constructor |].
  cbn [map] in ND. apply NoDup_cons_iff in ND. destruct ND as [Nq ND].
  cbn [filter]. destruct (f q); [| now apply IH].
  cbn [map]. constructor; [| now apply IH].
  intros X. apply Nq. apply in_map_iff in X. destruct X as (r & E & Hr).
  apply filter_In in Hr. apply in_map_iff. exists r. tauto.
Qed.

(** Every way the creation of a project ends. *)
Lemma projects_POST_cases (request : option ProjectsRoute.Body) (w : World)
    (r : Result Response) (w' : World) :
  ProjectsRoute.POST request w = (r, w') ->
  (db w' = db w /\ exists resp, r = Returned resp /\ res_status resp <> 201) \/
  (exists raw,
     request = Some {| ProjectsRoute.b_name := Some raw |} /\
     ~ empty_after_trim (Some raw) /\
     ~ In (trim raw) (map name (project_rows (db w))) /\
     r = Returned (mkResponse 201 (JProject (mkProject (fresh_id (db w)) (trim raw)))) /\
     project_rows (db w') =
       (project_rows (db w) ++ [mkProject (fresh_id (db w)) (trim raw)])%list /\
     task_rows (db w') = task_rows (db w)).
Proof.
  unfold ProjectsRoute.POST.
  destruct request as [[nm] |]; cbn [ProjectsRoute.b_name].
  2:{ unfold ret. intros H. injection H as <- <-. left.
      split; [reflexivity |]. eexists. split; [reflexivity | discriminate]. }
  destruct (blank nm) eqn:B.
  { unfold ret. intros H. injection H as <- <-. left.
    split; [reflexivity |]. eexists. split; [reflexivity | discriminate]. }
  destruct nm as [raw |]; [| discriminate]. cbn [or_else].
  unfold try_catch, bind.
  destruct (await (project_create (trim raw)) w) as [[e | p] w1] eqn:A.
  - apply await_threw in A. intros H. left.
    destruct e; unfold ret in H; injection H as <- <-;
      (split; [exact A |]); eexists; (split; [reflexivity | discriminate]).
  - apply await_returned in A. destruct A as [A _].
    unfold ret. intros H. injection H as <- <-. right. exists raw.
    unfold project_create in A.
    destruct (existsb (has_name (trim raw)) (project_rows (db w))) eqn:X;
      [discriminate |].
    injection A as <- A. rewrite <- A. cbn [project_rows task_rows].
    split; [reflexivity |].
    split; [intros E; apply blank_iff in E; rewrite E in B; discriminate |].
    split; [| repeat split].
    intros Hin. rewrite (existsb_name_in _ _ Hin) in X. discriminate.
Qed.

(** X17.  Creating a project: a name left out or blank is answered 400
    and changes nothing; a name that, trimmed, no stored project carries
    is answered 201, the storage not failing, and stores one more
    project under the trimmed name, after the others, touching no task;
    and no ending but a 201 changes a row. *)
Theorem createProject_outcomes (request : option ProjectsRoute.Body) (w : World) :
  (forall body, request = Some body ->
     empty_after_trim (ProjectsRoute.b_name body) ->
     ProjectsRoute.POST request w =
       (Returned (errorResponse "name is required" 400), w)) /\
  (forall raw, request = Some {| ProjectsRoute.b_name := Some raw |} ->
     ~ empty_after_trim (Some raw) -> faults w = [] ->
     ~ In (trim raw) (map name (project_rows (db w))) ->
     exists w',
       ProjectsRoute.POST request w =
         (Returned (mkResponse 201
                      (JProject (mkProject (fresh_id (db w)) (trim raw)))), w') /\
       project_rows (db w') =
         (project_rows (db w) ++ [mkProject (fresh_id (db w)) (trim raw)])%list /\
       task_rows (db w') = task_rows (db w)) /\
  (forall r w', ProjectsRoute.POST request w = (r, w') ->
     (forall resp, r = Returned resp -> res_status resp <> 201) ->
     db w' = db w).
Proof.
  split; [| split].
  - intros body -> B. apply blank_iff in B.
    unfold ProjectsRoute.POST. now rewrite B.
  - intros raw -> B NF Nin. apply blank_false in B.
    unfold ProjectsRoute.POST. cbn [ProjectsRoute.b_name]. rewrite B.
    cbn [or_else]. unfold try_catch, bind.
    rewrite (await_no_fault _ w NF). unfold project_create.
    assert (existsb (has_name (trim raw)) (project_rows (db w)) = false) as ->.
    { destruct (existsb _ _) eqn:X; [| reflexivity].
      exfalso. apply Nin. apply existsb_exists in X. destruct X as (q & Hq & E).
      apply String.eqb_eq in E. apply in_map_iff. now exists q. }
    unfold ret. eexists. repeat split.
  - intros r w' P N.
    destruct (projects_POST_cases request w r w' P)
      as [[D _] | (raw & _ & _ & _ & -> & _)]; [exact D |].
    now contradiction (N _ eq_refl).
Qed.

(** Every way the deletion of a task ends leaves the projects alone. *)
Lemma task_DELETE_projects (id : string) (w : World) (r : Result Response)
    (w' : World) :
  TaskRoute.DELETE id w = (r, w') -> project_rows (db w') = project_rows (db w).
Proof.
  unfold TaskRoute.DELETE, try_catch, bind.
  destruct (await (task_delete id) w) as [[e | t] w1] eqn:A.
  - apply await_threw in A.
    destruct (TaskRoute.isPrismaNotFound e); unfold ret; intros H;
      injection H as _ <-; now rewrite A.
  - apply await_returned in A. destruct A as [A _].
    unfold ret. intros H. injection H as _ <-.
    unfold task_delete in A.
    destruct (find (has_id id) (task_rows (db w))); [| discriminate].
    injection A as _ <-. reflexivity.
Qed.

(** Every way the creation of a task ends, on the projects. *)
Lemma tasks_POST_projects (request : option TasksRoute.Body) (w : World)
    (r : Result Response) (w' : World) :
  TasksRoute.POST request w = (r, w') ->
  project_rows (db w') = project_rows (db w) \/
  exists n p d1, project_upsert n (db w) = Done p d1 /\
                 project_rows (db w') = project_rows d1.
Proof.
  unfold TasksRoute.POST.
  destruct request as [body |];
    [| unfold ret; intros H; injection H as _ <-; now left].
  destruct (blank (TasksRoute.b_title body));
    [unfold ret; intros H; injection H as _ <-; now left |].
  destruct (blank (TasksRoute.b_project body));
    [unfold ret; intros H; injection H as _ <-; now left |].
  unfold try_catch, bind.
  destruct (await (project_upsert _) w) as [[e | p] w1] eqn:A1.
  { apply await_threw in A1. unfold ret. intros H. injection H as _ <-.
    left. now rewrite A1. }
  apply await_returned in A1. destruct A1 as [A1 _].
  destruct (await (task_create _) w1) as [[e | t] w2] eqn:A2.
  { apply await_threw in A2. unfold ret. intros H. injection H as _ <-.
    right. eexists. eexists. eexists. split; [exact A1 | now rewrite A2]. }
  apply await_returned in A2. destruct A2 as [A2 _].
  unfold ret. intros H. injection H as _ <-.
  unfold task_create in A2. injection A2 as _ A2.
  right. eexists. eexists. eexists. split; [exact A1 | now rewrite <- A2].
Qed.

(** X18.  No handler makes two projects of one name: when the names of
    the stored projects are pairwise distinct, and so are their ids, they
    are still pairwise distinct after any request to any of the routes,
    however it ends. *)
Theorem handlers_keep_names_unique (w : World) (r : Result Response) (w' : World) :
  names_unique (db w) -> NoDup (map pid (project_rows (db w))) ->
  (forall request, TasksRoute.POST request w = (r, w') -> names_unique (db w')) /\
  (forall id body, TaskRoute.PATCH id (Some body) w = (r, w') ->
     names_unique (db w')) /\
  (forall id, TaskRoute.DELETE id w = (r, w') -> names_unique (db w')) /\
  (forall request, ProjectsRoute.POST request w = (r, w') -> names_unique (db w')) /\
  (forall id request, ProjectRoute.PATCH id request w = (r, w') ->
     names_unique (db w')) /\
  (forall id, ProjectRoute.DELETE id w = (r, w') -> names_unique (db w')).
Proof.
  intros Nn Np. unfold names_unique in *.
  split; [| split; [| split; [| split; [| split]]]].
  - intros request P.
    destruct (tasks_POST_projects request w r w' P) as [-> | (n & p & d1 & U & ->)];
      [exact Nn |].
    now apply (upsert_keeps_unique n (db w) d1 p).
  - intros id body P.
    pose proof (after_ensure_unique (TaskRoute.b_project body) (db w) Nn) as A.
    destruct (task_PATCH_cases id body w r w' P)
      as [(_ & -> & _) | (_ & [(e & _ & ->) | [(-> & _) | (t & _ & _ & ->)]])];
      try assumption.
  - intros id P. now rewrite (task_DELETE_projects id w r w' P).
  - intros request P.
    destruct (projects_POST_cases request w r w' P)
      as [[-> _] | (raw & _ & _ & Nin & _ & -> & _)]; [exact Nn |].
    rewrite map_app. cbn. now apply NoDup_snoc.
  - intros id request P.
    destruct (rename_cases id request w r w' P)
      as [[-> _] | (raw & old & d' & _ & F & B & _ & <-)]; [exact Nn |].
    destruct (rename_batch_rows _ _ _ _ _ _ B) as [-> _].
    apply renamed_names_unique; try assumption.
    intros q Hq Hn. unfold seq2, project_update in B. rewrite F in B.
    destruct (existsb _ (project_rows (db w))) eqn:X; [discriminate |].
    destruct (String.eqb_spec (pid q) id) as [E | E]; [exact E |].
    exfalso. rewrite (existsb_other_name id (trim raw) _ q Hq E Hn) in X.
    discriminate.
  - intros id P.
    destruct (delete_cases id w r w' P)
      as [[-> _] | (p & s & d1 & _ & U & [[-> _] | (res & B & _)])];
      [exact Nn | now apply (upsert_keeps_unique ProjectRoute.UNCATEGORISED (db w) d1 s)
      |].
    destruct (delete_batch_rows id (name p) d1 (db w') res B) as [-> _].
    apply filter_names_unique.
    now apply (upsert_keeps_unique ProjectRoute.UNCATEGORISED (db w) d1 s).
Qed.

Lemma NoDup_map_inj {A B : Type} (f : A -> B) (l : list A) (a b : A) :
  NoDup (map f l) -> In a l -> In b l -> f a = f b -> a = b.
Proof.
  induction l as [| x l IH]; intros ND Ha Hb E; [destruct Ha |].
  cbn [map] in ND. apply NoDup_cons_iff in ND. destruct ND as [Nx ND].
  destruct Ha as [-> | Ha], Hb as [-> | Hb].
  - reflexivity.
  - exfalso. apply Nx. rewrite E. now apply in_map.
  - exfalso. apply Nx. rewrite <- E. now apply in_map.
  - now apply IH.
Qed.

Lemma upsert_keeps_ids_unique (n : string) (d d' : Db) (p : Project) :
  project_upsert n d = Done p d' ->
  NoDup (map pid (project_rows d)) ->
  ~ In (fresh_id d) (map pid (project_rows d)) ->
  NoDup (map pid (project_rows d')).
Proof.
  intros U ND Fr.
  destruct (project_upsert_cases n d) as [(q & _ & E) | (F & E)];
    rewrite E in U; injection U as _ <-; [exact ND |].
  cbn. rewrite map_app. cbn. now apply NoDup_snoc.
Qed.

(** Every way the deletion of a task ends drops tasks at most. *)
Lemma task_DELETE_tasks (id : string) (w : World) (r : Result Response)
    (w' : World) :
  TaskRoute.DELETE id w = (r, w') ->
  forall t, In t (task_rows (db w')) -> In t (task_rows (db w)).
Proof.
  unfold TaskRoute.DELETE, try_catch, bind.
  destruct (await (task_delete id) w) as [[e | t] w1] eqn:A.
  - apply await_threw in A.
    destruct (TaskRoute.isPrismaNotFound e); unfold ret; intros H;
      injection H as _ <-; now rewrite A.
  - apply await_returned in A. destruct A as [A _].
    unfold ret. intros H. injection H as _ <-.
    unfold task_delete in A.
    destruct (find (has_id id) (task_rows (db w))); [| discriminate].
    injection A as _ <-. cbn. intros u Hu. apply filter_In in Hu. tauto.
Qed.

Lemma renamed_consistent (i n : string) (old : Project) (now : string) (d : Db) :
  n <> EmptyString ->
  find (has_pid i) (project_rows d) = Some old ->
  NoDup (map pid (project_rows d)) ->
  projects_consistent d ->
  forall t,
    In t (map (fun t => if in_project (name old) t then with_project n now t else t)
              (task_rows d)) ->
    project t <> EmptyString /\
    In (project t)
       (map name (map (fun q => if has_pid i q then mkProject (pid q) n else q)
                      (project_rows d))).
Proof.
  intros Ne F ND C t Ht.
  apply in_map_iff in Ht. destruct Ht as (u & <- & Hu).
  destruct (find_some _ _ F) as [Ho Hi].
  unfold in_project. destruct (String.eqb_spec (project u) (name old)) as [E | E].
  - cbn [with_project project]. split; [exact Ne |].
    apply in_map_iff. exists (mkProject (pid old) n). split; [reflexivity |].
    apply in_map_iff. exists old. now rewrite Hi.
  - destruct (C u Hu) as [Nu Hn]. split; [exact Nu |].
    apply in_map_iff in Hn. destruct Hn as (q & Eq & Hq).
    apply in_map_iff. exists q. split; [exact Eq |].
    apply in_map_iff. exists q. split; [| exact Hq].
    destruct (has_pid i q) eqn:X; [| reflexivity].
    exfalso. apply E. rewrite <- Eq. f_equal.
    apply (NoDup_map_inj pid (project_rows d)); try assumption.
    unfold has_pid in *. apply String.eqb_eq in X, Hi. congruence.
Qed.

Lemma deleted_consistent (i : string) (p s : Project) (now : string) (d : Db) :
  find (has_pid i) (project_rows d) = Some p ->
  In s (project_rows d) -> name s = ProjectRoute.UNCATEGORISED ->
  name p <> ProjectRoute.UNCATEGORISED ->
  NoDup (map pid (project_rows d)) ->
  projects_consistent d ->
  forall t,
    In t (map (fun t => if in_project (name p) t
                        then with_project ProjectRoute.UNCATEGORISED now t else t)
              (task_rows d)) ->
    project t <> EmptyString /\
    In (project t)
       (map name (filter (fun q => negb (has_pid i q)) (project_rows d))).
Proof.
  intros F Hs Ns Np ND C t Ht.
  apply in_map_iff in Ht. destruct Ht as (u & <- & Hu).
  destruct (find_some _ _ F) as [Hp Hi].
  assert (forall q, In q (project_rows d) -> name q <> name p ->
            In q (filter (fun q => negb (has_pid i q)) (project_rows d))) as Keep.
  { intros q Hq Nq. apply filter_In. split; [exact Hq |].
    destruct (has_pid i q) eqn:X; [| reflexivity].
    exfalso. apply Nq. f_equal.
    apply (NoDup_map_inj pid (project_rows d)); try assumption.
    unfold has_pid in *. apply String.eqb_eq in X, Hi. congruence. }
  unfold in_project. destruct (String.eqb_spec (project u) (name p)) as [E | E].
  - cbn [with_project project]. split; [discriminate |].
    apply in_map_iff. exists s. split; [exact Ns |].
    apply Keep; [exact Hs | congruence].
  - destruct (C u Hu) as [Nu Hn]. split; [exact Nu |].
    apply in_map_iff in Hn. destruct Hn as (q & Eq & Hq).
    apply in_map_iff. exists q. split; [exact Eq |].
    apply Keep; [exact Hq | congruence].
Qed.

(** X19.  The handlers keep every task in a stored project.  When every
    stored task carries a project name that is not empty and that a
    stored project has, the ids of the stored projects are pairwise
    distinct and the id the storage gives next is none of them, the same
    holds of the tasks after any request, however it ends, in these
    cases: creating a task, deleting a task, creating a project,
    renaming a project; updating a task whose body does not give the
    empty string as project; and deleting a project other than
    Uncategorised. *)
Theorem handlers_keep_tasks_in_projects (w : World) (r : Result Response)
    (w' : World) :
  projects_consistent (db w) ->
  NoDup (map pid (project_rows (db w))) ->
  ~ In (fresh_id (db w)) (map pid (project_rows (db w))) ->
  (forall request, TasksRoute.POST request w = (r, w') ->
     projects_consistent (db w')) /\
  (forall id body, TaskRoute.b_project body <> Some EmptyString ->
     TaskRoute.PATCH id (Some body) w = (r, w') -> projects_consistent (db w')) /\
  (forall id, TaskRoute.DELETE id w = (r, w') -> projects_consistent (db w')) /\
  (forall request, ProjectsRoute.POST request w = (r, w') ->
     projects_consistent (db w')) /\
  (forall id request, ProjectRoute.PATCH id request w = (r, w') ->
     projects_consistent (db w')) /\
  (forall id,
     (forall p, find (has_pid id) (project_rows (db w)) = Some p ->
        name p <> ProjectRoute.UNCATEGORISED) ->
     ProjectRoute.DELETE id w = (r, w') -> projects_consistent (db w')).
Proof.
  intros C ND Fr.
  split; [| split; [| split; [| split; [| split]]]].
  - intros request P. now apply (createTask_keeps_consistent request w r w').
  - intros id body Nb P.
    apply (updateTask_keeps_consistent id (Some body) w r w'); try assumption.
    intros b E. now injection E as <-.
  - intros id P t Ht. rewrite (task_DELETE_projects id w r w' P).
    apply C. now apply (task_DELETE_tasks id w r w' P).
  - intros request P.
    destruct (projects_POST_cases request w r w' P)
      as [[-> _] | (raw & _ & _ & _ & _ & Rp & Rt)]; [exact C |].
    apply (consistent_more_projects (db w)); try assumption.
    intros q Hq. rewrite Rp. apply in_or_app. now left.
  - intros id request P.
    destruct (rename_cases id request w r w' P)
      as [[-> _] | (raw & old & d' & Rq & F & B & Er & <-)]; [exact C |].
    assert (trim raw <> EmptyString) as Ne.
    { intros E. rewrite Rq, Er in P. unfold ProjectRoute.PATCH in P.
      cbn [ProjectRoute.b_name] in P.
      assert (blank (Some raw) = true) as Bl by now apply blank_iff.
      rewrite Bl in P. unfold ret, errorResponse in P. discriminate. }
    destruct (rename_batch_rows id (trim raw) old (db w) (db w') _ B) as [Rp Rt].
    intros t Ht. rewrite Rp. rewrite Rt in Ht.
    now apply (renamed_consistent id (trim raw) old (clock (db w)) (db w)).
  - intros id Ns P.
    destruct (delete_cases id w r w' P)
      as [[-> _] | (p & s & d1 & F & U & [[-> _] | (res & B & _)])];
      [exact C | |].
    + now apply (consistent_after_upsert ProjectRoute.UNCATEGORISED (db w) d1 s).
    + destruct (project_upsert_ensures ProjectRoute.UNCATEGORISED (db w))
        as (s' & d' & U' & Hn & Hs & _ & Ht & Hmore).
      rewrite U in U'. injection U' as <- <-.
      destruct (delete_batch_rows id (name p) d1 (db w') res B) as [Rp Rt].
      assert (find (has_pid id) (project_rows d1) = Some p) as F1.
      { destruct (project_upsert_cases ProjectRoute.UNCATEGORISED (db w))
          as [(q & _ & E) | (_ & E)]; rewrite E in U; injection U as _ <-;
          [exact F |].
        cbn [project_rows]. now apply find_app_found. }
      intros t Hin. rewrite Rp. rewrite Rt in Hin.
      apply (deleted_consistent id p s (clock d1) d1); try assumption.
      * now apply Ns.
      * now apply (upsert_keeps_ids_unique ProjectRoute.UNCATEGORISED (db w) d1 s).
      * now apply (consistent_after_upsert ProjectRoute.UNCATEGORISED (db w) d1 s).
Qed.

End MoreInvariants.

(** ** The tools of the MCP server *)

Section MoreMcp.
Import Js Page Prisma Api McpServer.

(** A handler of the task routes never answers with an empty body. *)
Lemma tasks_POST_answers (request : option TasksRoute.Body) (w : World)
    (r : Result Response) (w' : World) :
  TasksRoute.POST request w = (r, w') ->
  exists resp, r = Returned resp /\ res_body resp <> JNone.
Proof.
  unfold TasksRoute.POST.
  destruct request as [body |];
    [| unfold ret; intros H; injection H as <- _; eexists;
       split; [reflexivity | discriminate]].
  destruct (blank (TasksRoute.b_title body));
    [unfold ret; intros H; injection H as <- _; eexists;
     split; [reflexivity | discriminate] |].
  destruct (blank (TasksRoute.b_project body));
    [unfold ret; intros H; injection H as <- _; eexists;
     split; [reflexivity | discriminate] |].
  unfold try_catch, bind.
  destruct (await (project_upsert _) w) as [[e | p] w1];
    [unfold ret; intros H; injection H as <- _; eexists;
     split; [reflexivity | discriminate] |].
  destruct (await (task_create _) w1) as [[e | t] w2];
    unfold ret; intros H; injection H as <- _; eexists;
    (split; [reflexivity | discriminate]).
Qed.

Lemma task_PATCH_answers (id : string) (body : TaskRoute.Body) (w : World)
    (r : Result Response) (w' : World) :
  TaskRoute.PATCH id (Some body) w = (r, w') ->
  (exists e, r = Threw e) \/
  (exists resp, r = Returned resp /\ res_body resp <> JNone).
Proof.
  intros P.
  destruct (task_PATCH_cases id body w r w' P)
    as [(_ & _ & ->) | (_ & [(e & -> & _) | [(_ & [-> | ->]) | (t & _ & -> & _)]])];
    [right | left; now exists e | right | right | right];
    eexists; (split; [reflexivity | discriminate]).
Qed.

Lemma done_body_update (now : string) (t : Task) :
  apply_update (update_data done_body) now t
  = mkTask (Page.id t) (title t) (notes t) (project t) "done" (due_date t)
           (snoozed_until t) (source t) (created_at t) now.
Proof. reflexivity. Qed.

Lemma min_1_true (s : string) : s <> EmptyString -> min_1 s = true.
Proof. destruct s; [contradiction | reflexivity]. Qed.

Lemma status_enum_accepted (o : option string) :
  status_enum o = true <-> status_accepted o.
Proof.
  destruct o as [s |]; cbn [status_enum status_accepted]; [| tauto].
  rewrite existsb_exists. split.
  - intros (v & Hv & E). apply String.eqb_eq in E. now subst.
  - intros H. exists s. split; [exact H | apply String.eqb_refl].
Qed.

(** A request for a task, the app answering and the storage not
    failing. *)
Lemma patch_task_served (net : Net) (task_id i : string) (body : TaskRoute.Body)
    (w : World) :
  up net = true -> route_id net task_id = Some i -> faults w = [] ->
  status_accepted (TaskRoute.b_status body) ->
  exists w',
    apiFetch net (patch_task task_id body) w =
      (inr match find (has_id i) (task_rows (db w)) with
           | None => mkApiResult false 404 (Some (JError "Task not found"))
           | Some t =>
               mkApiResult true 200
                 (Some (JTask (resolveSnooze (clock (db w))
                                 (apply_update (update_data body) (clock (db w)) t))))
           end, w') /\
    db w' =
      match find (has_id i) (task_rows (db w)) with
      | None => after_ensure (TaskRoute.b_project body) (db w)
      | Some _ =>
          set_tasks (after_ensure (TaskRoute.b_project body) (db w))
            (map (fun u => if has_id i u
                           then apply_update (update_data body) (clock (db w)) u
                           else u)
                 (task_rows (db w)))
      end.
Proof.
  intros Up R NF Acc.
  destruct (task_PATCH_no_fault i body w NF Acc) as (w' & P & D).
  exists w'. split; [| exact D].
  unfold apiFetch, serve. rewrite Up, R, P.
  destruct (find (has_id i) (task_rows (db w))); reflexivity.
Qed.

(** X20.  The tool [complete_task].  An empty id fails the schema of
    the tool and no request is sent.  Otherwise the id goes into the
    URL as it is: when its part before a query or a fragment is plain,
    that part is the id the route receives.  When the app does not
    answer, the tool answers with the error that it is not reachable,
    and when the URL leads to no task, with an error; nothing changes.
    When the route receives the id [i] and the storage does not fail:
    if no task has the id [i] the tool answers with the error that it
    could not find the task, and no row changes; if one has, it answers
    that the task, by its title, is marked as done, and afterwards the
    task of id [i] is stored with the status done and the time of the
    write, its other fields as before, the views show it under
    Completed and nowhere else, and no other task and no project has
    changed. *)
Theorem complete_task_outcomes (net : Net) (task_id : string) (w : World) :
  (task_id = EmptyString -> complete_task net task_id w = (Refused, w)) /\
  (task_id <> EmptyString -> up net = false ->
     complete_task net task_id w =
       (Answered (mkToolResult (unreachable_text (base net)) true), w)) /\
  (plain (path_part task_id) = true ->
     route_id net task_id = Some (path_part task_id)) /\
  (task_id <> EmptyString -> up net = true -> route_id net task_id = None ->
     exists r, complete_task net task_id w = (Answered r, w) /\
               isError r = true) /\
  (forall i,
     task_id <> EmptyString -> up net = true ->
     route_id net task_id = Some i -> faults w = [] ->
     find (has_id i) (task_rows (db w)) = None ->
     exists w',
       complete_task net task_id w =
         (Answered (mkToolResult not_found_text true), w') /\
       db w' = db w) /\
  (forall i t,
     task_id <> EmptyString -> up net = true ->
     route_id net task_id = Some i -> faults w = [] ->
     find (has_id i) (task_rows (db w)) = Some t ->
     exists t' w',
       complete_task net task_id w =
         (Answered (mkToolResult (dquote ++ title t ++ dquote
                                  ++ " is marked as done.") false), w') /\
       find (has_id i) (task_rows (db w')) = Some t' /\
       t' = mkTask (Page.id t) (title t) (notes t) (project t) "done" (due_date t)
                   (snoozed_until t) (source t) (created_at t) (clock (db w)) /\
       (forall h, buckets_of h t' = [ctx_completed]) /\
       (forall u, In u (task_rows (db w)) -> Page.id u <> i ->
          In u (task_rows (db w'))) /\
       List.length (task_rows (db w')) = List.length (task_rows (db w)) /\
       project_rows (db w') = project_rows (db w)).
Proof.
  split; [| split; [| split; [| split; [| split]]]].
  - intros ->. reflexivity.
  - intros Ne Up. unfold complete_task, apiFetch.
    now rewrite (min_1_true _ Ne), Up.
  - intros Pl. unfold route_id. now rewrite Pl.
  - intros Ne Up R. unfold complete_task, apiFetch, serve.
    rewrite (min_1_true _ Ne), Up, R. cbn [negb result_of_error api_status ok].
    destruct (err_status (elsewhere net task_id) =? 404);
      eexists; split; reflexivity.
  - intros i Ne Up R NF F. unfold complete_task. rewrite (min_1_true _ Ne).
    cbn [negb].
    destruct (patch_task_served net task_id i done_body w Up R NF)
      as (w' & P & D); [cbn; auto |].
    rewrite P, F. rewrite F in D. exists w'. split; [reflexivity | exact D].
  - intros i t Ne Up R NF F. unfold complete_task. rewrite (min_1_true _ Ne).
    cbn [negb].
    destruct (patch_task_served net task_id i done_body w Up R NF)
      as (w' & P & D); [cbn; auto |].
    rewrite P, F. rewrite F in D. cbn [after_ensure TaskRoute.b_project done_body] in D.
    rewrite done_body_update.
    eexists. exists w'. split; [reflexivity |].
    rewrite D. cbn [task_rows project_rows set_tasks].
    split.
    { apply (find_updated i (apply_update (update_data done_body) (clock (db w))));
        [reflexivity | exact F]. }
    split; [apply done_body_update |].
    split; [intros h; now apply done_buckets |].
    split; [intros u Hu Hne; now apply others_kept |].
    split; [apply length_map | reflexivity].
Qed.

(** X21.  The tool [add_task].  An empty title, project or due date
    fails the schema of the tool and no request is sent.  Otherwise:
    when the app does not answer, the tool answers with the error that
    it is not reachable and nothing changes; a title that is blank once
    trimmed is answered with the error of the route, that the title is
    required, and likewise a blank project, nothing changing; and else,
    the storage not failing, the tool answers that the task is saved,
    naming the trimmed title, the trimmed project and the new id, and
    one task more is stored, after the others: with that title and
    project, the notes and the due date as given, pending, never
    snoozed, of the source claude, in a project that is stored. *)
Theorem add_task_outcomes (net : Net) (args : AddTaskArgs) (w : World) :
  (a_title args = EmptyString \/ a_project args = EmptyString \/
   a_due_date args = EmptyString ->
     add_task net args w = (Refused, w)) /\
  (a_title args <> EmptyString -> a_project args <> EmptyString ->
   a_due_date args <> EmptyString ->
     (up net = false ->
        add_task net args w =
          (Answered (mkToolResult (unreachable_text (base net)) true), w)) /\
     (up net = true -> trim (a_title args) = EmptyString ->
        add_task net args w =
          (Answered (mkToolResult "title is required" true), w)) /\
     (up net = true -> trim (a_title args) <> EmptyString ->
      trim (a_project args) = EmptyString ->
        add_task net args w =
          (Answered (mkToolResult "project is required" true), w)) /\
     (up net = true -> faults w = [] ->
      trim (a_title args) <> EmptyString -> trim (a_project args) <> EmptyString ->
        exists t w',
          add_task net args w =
            (Answered
               (mkToolResult
                  ("Saved " ++ dquote ++ trim (a_title args) ++ dquote
                   ++ " to your Action Center under *" ++ trim (a_project args)
                   ++ "*. (ID: " ++ Page.id t ++ ")") false), w') /\
          task_rows (db w') = (task_rows (db w) ++ [t])%list /\
          title t = trim (a_title args) /\
          project t = trim (a_project args) /\
          notes t = a_notes args /\
          due_date t = Some (a_due_date args) /\
          status t = "pending" /\ snoozed_until t = None /\
          source t = "claude" /\
          In (project t) (map name (project_rows (db w'))))).
Proof.
  split.
  { intros H. unfold add_task.
    destruct (a_title args); [reflexivity |].
    destruct (a_project args); [reflexivity |].
    destruct (a_due_date args); [reflexivity |].
    destruct H as [H | [H | H]]; discriminate. }
  intros N1 N2 N3.
  assert (forall X : ToolOutcome * World,
            (if negb (min_1 (a_title args) && min_1 (a_project args)
                      && min_1 (a_due_date args))
             then (Refused, w) else X) = X) as Pass.
  { intros X. now rewrite !min_1_true. }
  split; [| split; [| split]].
  - intros Up. unfold add_task. rewrite Pass. unfold apiFetch. now rewrite Up.
  - intros Up Bt. unfold add_task. rewrite Pass. unfold apiFetch, serve. rewrite Up.
    unfold TasksRoute.POST. cbn [TasksRoute.b_title].
    assert (blank (Some (a_title args)) = true) as -> by now apply blank_iff.
    reflexivity.
  - intros Up Bt Bp. unfold add_task. rewrite Pass. unfold apiFetch, serve.
    rewrite Up.
    unfold TasksRoute.POST. cbn [TasksRoute.b_title TasksRoute.b_project].
    assert (blank (Some (a_title args)) = false) as -> by now apply blank_false.
    assert (blank (Some (a_project args)) = true) as -> by now apply blank_iff.
    reflexivity.
  - intros Up NF Bt Bp. unfold add_task. rewrite Pass. unfold apiFetch, serve.
    rewrite Up.
    unfold TasksRoute.POST.
    cbn [TasksRoute.b_title TasksRoute.b_project TasksRoute.b_notes
         TasksRoute.b_due_date TasksRoute.b_source or_else].
    assert (blank (Some (a_title args)) = false) as -> by now apply blank_false.
    assert (blank (Some (a_project args)) = false) as -> by now apply blank_false.
    unfold try_catch, bind. rewrite (await_no_fault _ w NF).
    destruct (project_upsert_ensures (trim (a_project args)) (db w))
      as (p & d1 & U & Hn & Hp & _ & Ht & _).
    rewrite U. rewrite await_no_fault by reflexivity.
    unfold task_create, ret. cbn [db task_rows project_rows].
    change (if String.eqb "claude" "claude" then "claude" else "manual")
      with "claude".
    cbn [result_of res_status res_body ok data negb read_title read_project read_id
         c_title c_project c_notes c_due_date c_source].
    change ((200 <=? 201) && (201 <=? 299)) with true. cbn [negb].
    eexists. eexists. split; [reflexivity |].
    cbn [db task_rows project_rows title project notes due_date status
         snoozed_until source].
    rewrite Ht. repeat (split; [reflexivity |]).
    apply in_map_iff. exists p. now split.
Qed.

(** X22.  The tool [update_task].  An empty id, or a status that is
    not one of the four, fails the schema of the tool and no request is
    sent: the error of the route for a status is never seen through the
    tool.  Otherwise: with every field left out the tool answers with
    an error and sends no request, whether the app is reachable or not;
    with a field given, when the route receives the id [i] and the
    storage does not fail, an id that no task has is answered with the
    error that the task could not be found, and changes no task; and
    for the id of a task the tool answers with the title the task now
    has and the names of the fields given, in the order title, notes,
    due date, project, status, and the stored task has taken each field
    given and kept the others: the tool gives no way to change the
    snooze date. *)
Theorem update_task_outcomes (net : Net) (task_id : string)
    (args : UpdateTaskArgs) (w : World) :
  (task_id = EmptyString \/ ~ status_accepted (up_status args) ->
     update_task net task_id args w = (Refused, w)) /\
  (task_id <> EmptyString -> status_accepted (up_status args) ->
     (up_title args = None -> up_notes args = None -> up_due_date args = None ->
      up_project args = None -> up_status args = None ->
        update_task net task_id args w =
          (Answered (mkToolResult "No fields provided to update." true), w)) /\
     (update_keys args <> [] -> up net = false ->
        update_task net task_id args w =
          (Answered (mkToolResult (unreachable_text (base net)) true), w)) /\
     (forall i,
        update_keys args <> [] -> up net = true ->
        route_id net task_id = Some i -> faults w = [] ->
        find (has_id i) (task_rows (db w)) = None ->
        exists w',
          update_task net task_id args w =
            (Answered (mkToolResult not_found_text true), w') /\
          task_rows (db w') = task_rows (db w)) /\
     (forall i t,
        update_keys args <> [] -> up net = true ->
        route_id net task_id = Some i -> faults w = [] ->
        find (has_id i) (task_rows (db w)) = Some t ->
        exists t' w',
          update_task net task_id args w =
            (Answered
               (mkToolResult
                  ("Updated " ++ dquote ++ or_else (up_title args) (title t) ++ dquote
                   ++ ". Changed: " ++ String.concat ", " (update_keys args) ++ ".")
                  false), w') /\
          find (has_id i) (task_rows (db w')) = Some t' /\
          t' = mkTask (Page.id t)
                      (or_else (up_title args) (title t))
                      (or_keep (up_notes args) (notes t))
                      (or_else (up_project args) (project t))
                      (or_else (up_status args) (status t))
                      (or_keep (up_due_date args) (due_date t))
                      (snoozed_until t) (source t) (created_at t) (clock (db w)) /\
          (forall u, In u (task_rows (db w)) -> Page.id u <> i ->
             In u (task_rows (db w'))))).
Proof.
  split.
  { intros H. unfold update_task.
    destruct task_id as [| c task_id']; [reflexivity |].
    destruct H as [H | H]; [discriminate |].
    destruct (status_enum (up_status args)) eqn:E; [| reflexivity].
    apply status_enum_accepted in E. contradiction. }
  intros Ne Acc.
  assert (forall X : ToolOutcome * World,
            (if negb (min_1 task_id && status_enum (up_status args))
             then (Refused, w) else X) = X) as Pass.
  { intros X. rewrite (min_1_true _ Ne).
    now rewrite (proj2 (status_enum_accepted _) Acc). }
  set (body := {| TaskRoute.b_title := up_title args;
                  TaskRoute.b_notes := up_notes args;
                  TaskRoute.b_project := up_project args;
                  TaskRoute.b_status := up_status args;
                  TaskRoute.b_due_date := up_due_date args;
                  TaskRoute.b_snoozed_until := None |}).
  split; [| split; [| split]].
  - intros E1 E2 E3 E4 E5. unfold update_task. rewrite Pass. unfold update_keys.
    now rewrite E1, E2, E3, E4, E5.
  - intros K Up. unfold update_task. rewrite Pass. unfold apiFetch. rewrite Up.
    destruct (update_keys args); [contradiction | reflexivity].
  - intros i K Up R NF F. unfold update_task. rewrite Pass.
    destruct (update_keys args) as [| k ks]; [contradiction |].
    fold body.
    destruct (patch_task_served net task_id i body w Up R NF Acc) as (w' & P & D).
    rewrite P, F. rewrite F in D. exists w'. split; [reflexivity |].
    rewrite D. apply after_ensure_keeps.
  - intros i t K Up R NF F. unfold update_task. rewrite Pass.
    assert (no_data (update_data body) = false) as Nd.
    { unfold update_keys in K. unfold no_data, update_data, body.
      cbn [u_title u_notes u_project u_status u_due_date u_snoozed_until
           TaskRoute.b_title TaskRoute.b_notes TaskRoute.b_project
           TaskRoute.b_status TaskRoute.b_due_date TaskRoute.b_snoozed_until].
      destruct (up_title args), (up_notes args), (up_project args),
        (up_status args), (up_due_date args); try reflexivity.
      now contradiction K. }
    destruct (update_keys args) as [| k ks]; [contradiction |].
    fold body.
    destruct (patch_task_served net task_id i body w Up R NF Acc) as (w' & P & D).
    rewrite P, F. rewrite F in D.
    assert (forall s u, title (resolveSnooze s u) = title u) as Rt.
    { intros s u. unfold resolveSnooze.
      destruct (String.eqb (status u) "snoozed" && _); reflexivity. }
    cbn [api_status ok data].
    change (200 =? 404) with false. cbn [negb read_title]. rewrite Rt.
    destruct (apply_update_fields (update_data body) (clock (db w)) t)
      as (_ & E2 & _).
    rewrite E2. cbn [update_data u_title TaskRoute.b_title body].
    eexists. exists w'. split; [reflexivity |].
    rewrite D. cbn [task_rows set_tasks].
    split.
    { apply (find_updated i (apply_update (update_data body) (clock (db w))));
        [intros u; apply apply_update_id | exact F]. }
    split; [unfold apply_update; rewrite Nd; reflexivity |].
    intros u Hu Hne. now apply others_kept.
Qed.

(** X23.  The tools always answer: whatever the state of the storage,
    its failures to come and the arguments, no tool throws reading a
    field of the body of an answer, the routes answering a task, a list
    or an error wherever a tool reads one. *)
Theorem tools_always_answer (net : Net) (w : World) :
  (forall args, fst (add_task net args w) <> Crashed) /\
  (forall task_id, fst (complete_task net task_id w) <> Crashed) /\
  (forall task_id args, fst (update_task net task_id args w) <> Crashed).
Proof.
  assert (forall id body,
            match apiFetch net (patch_task id body) w with
            | (inl _, _) => True
            | (inr result, _) => ok result = true -> data result <> None
            end) as Patch.
  { intros id body. unfold apiFetch, serve. destruct (up net); [| exact I].
    destruct (route_id net id) as [i |]; [| discriminate].
    destruct (TaskRoute.PATCH i (Some body) w) as [r w'] eqn:P.
    destruct (task_PATCH_answers i body w r w' P) as [(e & ->) | (resp & -> & N)];
      cbn [result_of ok data]; [discriminate |].
    intros _. destruct (res_body resp); try discriminate. now contradiction N. }
  split; [| split].
  - intros args. unfold add_task.
    destruct (negb _); [discriminate |].
    match goal with |- context [apiFetch net ?rq w] =>
      assert (match apiFetch net rq w with
              | (inl _, _) => True
              | (inr result, _) => ok result = true -> data result <> None
              end) as Post;
      [| destruct (apiFetch net rq w) as [[message | result] w'] ]
    end.
    { unfold apiFetch, serve. destruct (up net); [| exact I].
      match goal with |- context [TasksRoute.POST ?rq w] =>
        destruct (TasksRoute.POST rq w) as [r w'] eqn:P;
        destruct (tasks_POST_answers rq w r w' P) as (resp & -> & N)
      end.
      cbn [result_of ok data]. intros _.
      destruct (res_body resp); try discriminate. now contradiction N. }
    + discriminate.
    + destruct (ok result); cbn [negb fst]; [| discriminate].
      destruct (data result); [discriminate | now contradiction Post].
  - intros task_id. unfold complete_task.
    destruct (negb _); [discriminate |].
    match goal with |- context [apiFetch net (patch_task ?i ?b) w] =>
      pose proof (Patch i b) as Q;
      destruct (apiFetch net (patch_task i b) w) as [[message | result] w']
    end; [discriminate |].
    destruct (api_status result =? 404); [discriminate |].
    destruct (ok result); cbn [negb fst]; [| discriminate].
    destruct (data result); [discriminate | now contradiction Q].
  - intros task_id args. unfold update_task.
    destruct (negb _); [discriminate |].
    destruct (update_keys args); [discriminate |].
    match goal with |- context [apiFetch net (patch_task ?i ?b) w] =>
      pose proof (Patch i b) as Q;
      destruct (apiFetch net (patch_task i b) w) as [[message | result] w']
    end; [discriminate |].
    destruct (api_status result =? 404); [discriminate |].
    destruct (ok result); cbn [negb fst]; [| discriminate].
    destruct (data result); [discriminate | now contradiction Q].
Qed.

End MoreMcp.


(** ** The views, away from the gap *)

Section MoreViews.
Import Js Page Prisma Api.


(** X25.  The route stores the due date of a new task as it is given,
    the empty string too; the page then shows the task twice, under
    Overdue, the empty string being before every date, and under
    Unscheduled, the empty string being falsy. *)
Theorem empty_due_date_shown_twice (now : Date) (h : Horizon)
    (body : TasksRoute.Body) (w : World) (resp : Response) (w' : World) :
  valid_date now -> getFullYear now <= 9998 ->
  Home_dates now = Some h ->
  TasksRoute.b_due_date body = Some EmptyString ->
  TasksRoute.POST (Some body) w = (Returned resp, w') ->
  res_status resp = 201 ->
  exists t,
    res_body resp = JTask t /\ In t (task_rows (db w')) /\
    due_date t = Some EmptyString /\
    buckets_of h t = [ctx_overdue; ctx_unscheduled].
Proof.
  intros V Y Hh E P S.
  destruct (tasks_POST_created body w resp w' P S)
    as (p & d1 & t & _ & _ & _ & Et & -> & _ & Rt).
  exists t. split; [reflexivity |].
  split; [rewrite Rt; apply in_or_app; right; now left |].
  assert (due_date t = Some EmptyString) as D by (rewrite Et; exact E).
  split; [exact D |].
  apply (empty_due_date_in_two_buckets now V Y h t Hh); [| exact D].
  rewrite Et. discriminate.
Qed.

End MoreViews.

(** ** The earlier page: ticking a task *)

Section MoreLegacyCheck.
Import Js Page Prisma Api PageState LegacyPage.

(** X26.  Ticking a task on the earlier page.  When the request is
    answered ok the rows of that id are done and shown under Completed.
    When it is answered with an error, the rows of that id end as
    pending, whatever their status was before the click: the list is
    what it was only if they were pending, and a task that was snoozed,
    in progress or done is left shown as pending.  When the request is
    not answered at all, [fetch] rejecting, nothing is reverted: the
    rows of that id stay shown as done, though nothing was stored.
    Rows of other ids are never touched. *)
Theorem handleCheck_outcomes (i : string) (tasks : list Task) :
  (forall t, In t (handleCheck i (answered true) tasks) -> Page.id t = i ->
     is_completedTask t = true) /\
  (forall t, In t (handleCheck i (answered false) tasks) -> Page.id t = i ->
     status t = "pending") /\
  ((forall t, In t tasks -> Page.id t = i -> status t = "pending") ->
     handleCheck i (answered false) tasks = tasks) /\
  (forall t, In t tasks -> Page.id t = i -> status t <> "pending" ->
     handleCheck i (answered false) tasks <> tasks) /\
  (forall t, In t (handleCheck i rejected tasks) -> Page.id t = i ->
     status t = "done" /\ is_completedTask t = true) /\
  (forall t, In t tasks -> Page.id t = i -> status t <> "done" ->
     handleCheck i rejected tasks <> tasks) /\
  (forall res u, In u tasks -> Page.id u <> i -> In u (handleCheck i res tasks)).
Proof.
  assert (handleCheck i (answered false) tasks =
          map_task i (fun t => with_status "pending" (with_status "done" t)) tasks)
    as Rev.
  { unfold handleCheck. now apply map_task_twice. }
  assert (forall t, In t (handleCheck i (answered false) tasks) -> Page.id t = i ->
            status t = "pending") as Pend.
  { intros t Ht Hi. rewrite Rev in Ht. unfold map_task in Ht.
    apply in_map_iff in Ht. destruct Ht as (u & <- & _).
    destruct (has_id i u) eqn:E; [reflexivity |].
    unfold has_id in E. apply String.eqb_neq in E. contradiction. }
  assert (forall t, In t (map_task i (with_status "done") tasks) -> Page.id t = i ->
            status t = "done") as Done.
  { intros t Ht Hi. unfold map_task in Ht.
    apply in_map_iff in Ht. destruct Ht as (u & <- & _).
    destruct (has_id i u) eqn:E; [reflexivity |].
    unfold has_id in E. apply String.eqb_neq in E. contradiction. }
  split; [| split; [| split; [| split; [| split; [| split]]]]].
  - intros t Ht Hi. unfold is_completedTask. now rewrite (Done t Ht Hi).
  - exact Pend.
  - intros All. rewrite Rev. unfold map_task.
    rewrite <- (map_id tasks) at 2. apply map_ext_in. intros t Ht.
    destruct (has_id i t) eqn:E; [| reflexivity].
    unfold has_id in E. apply String.eqb_eq in E.
    specialize (All t Ht E). destruct t. cbn in All |- *. now subst.
  - intros t Ht Hi Ns Same. apply Ns. apply Pend; [| exact Hi].
    now rewrite Same.
  - intros t Ht Hi. unfold is_completedTask. now rewrite (Done t Ht Hi).
  - intros t Ht Hi Ns Same. apply Ns. apply Done; [| exact Hi].
    unfold handleCheck in Same. now rewrite Same.
  - intros res u Hu Hne.
    assert (forall f l, In u l -> In u (map_task i f l)) as Keep.
    { intros f l Hl. unfold map_task. apply in_map_iff. exists u.
      assert (has_id i u = false) as ->; [| auto].
      unfold has_id. now apply String.eqb_neq. }
    unfold handleCheck. destruct res as [[|] |]; auto.
Qed.

End MoreLegacyCheck.

(** ** Further worked runs on the sample states *)

Section MoreRuns.
Import Js Page Prisma Api PageState Heatmap McpServer.

Ltac valid_sample := unfold valid_date; vm_compute; intuition discriminate.

(** The dates of 2 and 9 November 2026 compare as their strings do. *)
Lemma localDate_orders_dates_witness :
  str_lt (localDate Scenario.monday) (localDate Samples.next_monday) = true <->
  date_before Scenario.monday Samples.next_monday.
Proof.
  apply (localDate_orders_dates Scenario.monday Samples.next_monday);
    valid_sample.
Defined.

(** On a host in Pacific/Apia, [shiftDays] by no day turns 30 December
    2011, which that zone skipped, into the 31st; and on a host whose
    zone skipped no day, seven days and seven more from 2 November 2026
    are fourteen days. *)
Lemma shiftDays_composes_witness :
  shiftDays_in Samples.apia "2011-12-30" 0 = Some "2011-12-31" /\
  exists d',
    shiftDays_in regular (localDate Scenario.monday) 7 = Some (localDate d') /\
    valid_date d' /\
    (0 < 7 -> str_lt (localDate Scenario.monday) (localDate d') = true) /\
    shiftDays_in regular (localDate d') 7
      = shiftDays_in regular (localDate Scenario.monday) (7 + 7).
Proof.
  split.
  - apply (proj1 (proj2 (proj2
             (shiftDays_composes Samples.apia (mkDate 2011 11 30) 0 0
                ltac:(valid_sample) ltac:(vm_compute; discriminate)
                ltac:(lia) ltac:(lia))))).
    reflexivity.
  - apply (proj2 (proj2 (proj2
             (shiftDays_composes regular Scenario.monday 7 7
                ltac:(valid_sample) ltac:(vm_compute; discriminate)
                ltac:(lia) ltac:(lia)))));
      reflexivity.
Defined.



(** From the month of 2 November 2026 the heatmap steps back and forth
    within its range. *)
Lemma heatmap_navigation_witness :
  shown_in_range Scenario.monday (goPrev (initial Scenario.monday)) /\
  shown_in_range Scenario.monday (goNext Scenario.monday (initial Scenario.monday)) /\
  (atMax Scenario.monday (initial Scenario.monday) = false ->
     goPrev (goNext Scenario.monday (initial Scenario.monday))
       = initial Scenario.monday) /\
  (atMin (initial Scenario.monday) = false ->
     goNext Scenario.monday (goPrev (initial Scenario.monday))
       = initial Scenario.monday).
Proof.
  apply (heatmap_navigation Scenario.monday (initial Scenario.monday)).
  - cbn. lia.
  - unfold shown_in_range, month_index. cbn. lia.
Defined.

(** Toggling the one task of the sample list asks for the status done,
    and a failed request leaves the list as it was. *)
Lemma handleToggle_witness :
  handleToggle "2" Scenario.stamp None [Samples.alpha_task] = [Samples.alpha_task].
Proof.
  apply (proj1 (proj2 (handleToggle_outcomes "2" Scenario.stamp
                         [Samples.alpha_task]))).
  repeat constructor. cbn. intuition discriminate.
Defined.

(** Rescheduling the task of the sample list keeps its status. *)
Lemma reopen_reschedule_witness :
  exists t', In t' (handleReschedule "2" "2026-11-10" None [Samples.alpha_task]) /\
             Page.id t' = "2" /\ status t' = status Samples.alpha_task /\
             due_date t' = Some "2026-11-10".
Proof.
  apply (reopen_reschedule_keep_optimistic "2" "2026-11-10" Scenario.stamp
           [Samples.alpha_task] Samples.alpha_task);
    [now left | reflexivity].
Defined.

(** On 2 November 2026 at 10:00 in UTC the stored task, snoozed until
    1 November, is read as pending. *)
Lemma answers_show_no_lapsed_snooze_witness :
  TaskRoute.GET "2" Samples.world_snoozed =
    (Returned (mkResponse 200
                 (JTask (with_status "pending" (Samples.snoozed_to "2026-11-01")))),
     Samples.world_snoozed) /\
  exists ts,
    TasksRoute.GET None None Samples.world_snoozed =
      (Returned (mkResponse 200 (JTaskList ts)), Samples.world_snoozed) /\
    In (with_status "pending" (Samples.snoozed_to "2026-11-01")) ts.
Proof.
  pose proof (answers_show_no_lapsed_snooze Samples.world_snoozed Samples.at_ten
                eq_refl ltac:(valid_sample)) as H.
  cbv zeta in H. destruct H as (_ & _ & _ & _ & H).
  apply (H "2" (Samples.snoozed_to "2026-11-01")).
  - reflexivity.
  - reflexivity.
  - split; [reflexivity |]. exists "2026-11-01". split; reflexivity.
Defined.

(** The status finished is turned down. *)
Lemma updateTask_rejects_witness :
  TaskRoute.PATCH "2" (Some Samples.body_bad_status) Samples.world_alpha =
    (Returned (errorResponse
                 "Invalid status. Must be one of: pending, in_progress, done, snoozed"
                 400), Samples.world_alpha).
Proof.
  apply (updateTask_rejects_unknown_status "2" Samples.body_bad_status
           Samples.world_alpha).
  cbn. intuition discriminate.
Defined.

(** Moving a task that is not stored to Beta stores the project Beta. *)
Lemma updateTask_unknown_id_witness :
  exists w',
    TaskRoute.PATCH "9" (Some Samples.body_to_beta) Samples.world_alpha =
      (Returned (errorResponse "Task not found" 404), w') /\
    In "Beta" (map name (project_rows (db w'))) /\
    task_rows (db w') = task_rows (db Samples.world_alpha) /\
    (~ In "Beta" (map name (project_rows (db Samples.world_alpha))) ->
       project_rows (db w') =
         (project_rows (db Samples.world_alpha)
          ++ [mkProject (fresh_id (db Samples.world_alpha)) "Beta"])%list).
Proof.
  apply (updateTask_unknown_id_still_ensures "9" "Beta" Samples.body_to_beta
           Samples.world_alpha);
    [reflexivity | exact I | reflexivity | discriminate | reflexivity].
Defined.

(** Marking the task of the sample state as done sets the time of the
    update; an update that gives no field leaves the task as it was. *)
Lemma updateTask_applies_witness :
  (exists t' w',
     TaskRoute.PATCH "2" (Some Samples.body_done) Samples.world_alpha =
       (Returned (mkResponse 200
                    (JTask (resolveSnooze (clock (db Samples.world_alpha)) t'))), w') /\
     find (has_id "2") (task_rows (db w')) = Some t' /\ status t' = "done" /\
     title t' = title Samples.alpha_task /\
     updated_at t' = clock (db Samples.world_alpha)) /\
  (exists w',
     TaskRoute.PATCH "2" (Some Samples.no_fields) Samples.world_alpha =
       (Returned (mkResponse 200 (JTask Samples.alpha_task)), w') /\
     find (has_id "2") (task_rows (db w')) = Some Samples.alpha_task).
Proof.
  split.
  - destruct (updateTask_applies_fields "2" Samples.body_done Samples.world_alpha
                Samples.alpha_task)
      as (t' & w' & P & F & _ & _ & _ & Ht & _ & Hs & _ & _ & _ & Hu & _);
      [reflexivity | cbn; tauto | reflexivity |].
    exists t', w'. split; [exact P |]. split; [exact F |].
    split; [exact Hs |]. split; [exact Ht |]. now apply Hu.
  - destruct (updateTask_applies_fields "2" Samples.no_fields Samples.world_alpha
                Samples.alpha_task)
      as (t' & w' & P & F & _ & _ & _ & _ & _ & _ & _ & _ & _ & _ & He & _);
      [reflexivity | exact I | reflexivity |].
    rewrite (He eq_refl) in P, F.
    exists w'. split; [exact P | exact F].
Defined.

(** Deleting a task that is not stored. *)
Lemma deleteTask_witness :
  TaskRoute.DELETE "9" Samples.world_alpha =
    (Returned (errorResponse "Task not found" 404),
     mkWorld (db Samples.world_alpha) []).
Proof.
  apply (proj1 (deleteTask_outcomes "9" Samples.world_alpha)); reflexivity.
Defined.

(** Reading a task that is not stored. *)
Lemma reads_never_write_witness :
  fst (TaskRoute.GET "9" Samples.world_alpha)
    = Returned (errorResponse "Task not found" 404).
Proof.
  apply (proj2 (proj2 (proj2 (reads_never_write Samples.world_alpha))) "9");
    reflexivity.
Defined.

(** The list of the tasks of the sample state. *)
Lemma listTasks_answer_witness :
  exists rows,
    [Samples.alpha_task] = map (resolveSnooze (clock (db Samples.world_alpha))) rows /\
    ordered (fun a b => str_le (created_at b) (created_at a)) rows /\
    Permutation rows (task_rows (db Samples.world_alpha)).
Proof.
  destruct (listTasks_answer None None Samples.world_alpha [Samples.alpha_task]
              Samples.world_alpha eq_refl)
    as (rows & E & O & Pm & _).
  exists rows. split; [exact E |]. split; [exact O |]. exact Pm.
Defined.

(** The list of the projects of the sample state of two projects. *)
Lemma listProjects_answer_witness :
  ordered str_le (map pc_name Samples.two_counted) /\
  Permutation (map (fun pc => mkProject (pc_id pc) (pc_name pc)) Samples.two_counted)
              (project_rows (db Samples.world_two)) /\
  (forall pc, In pc Samples.two_counted ->
     task_count pc = tasks_of (pc_name pc) (db Samples.world_two)) /\
  (forall pc, In pc Samples.two_counted ->
     ~ In (pc_name pc) (map project (task_rows (db Samples.world_two))) ->
     task_count pc = 0).
Proof.
  apply (listProjects_answer Samples.world_two Samples.two_counted Samples.world_two).
  reflexivity.
Defined.

(** Creating the project Beta in the sample state; a name that is a
    no-break space alone is turned down. *)
Lemma createProject_witness :
  (exists w',
     ProjectsRoute.POST (Some {| ProjectsRoute.b_name := Some " Beta " |})
                        Samples.world_alpha =
       (Returned (mkResponse 201 (JProject (mkProject "3" "Beta"))), w') /\
     project_rows (db w') = [mkProject "1" "Alpha"; mkProject "3" "Beta"] /\
     task_rows (db w') = task_rows (db Samples.world_alpha)) /\
  ProjectsRoute.POST (Some {| ProjectsRoute.b_name := Some Samples.nbsp |})
                     Samples.world_alpha =
    (Returned (errorResponse "name is required" 400), Samples.world_alpha).
Proof.
  split.
  - apply (proj1 (proj2 (createProject_outcomes
                           (Some {| ProjectsRoute.b_name := Some " Beta " |})
                           Samples.world_alpha)) " Beta ");
      [reflexivity | vm_compute; discriminate | reflexivity
       | vm_compute; intuition discriminate].
  - apply (proj1 (createProject_outcomes
                    (Some {| ProjectsRoute.b_name := Some Samples.nbsp |})
                    Samples.world_alpha)
                 {| ProjectsRoute.b_name := Some Samples.nbsp |});
      reflexivity.
Defined.

(** After Beta is created the names are still pairwise distinct. *)
Lemma handlers_keep_names_unique_witness :
  names_unique (db Samples.world_beta).
Proof.
  apply (proj1 (proj2 (proj2 (proj2
           (handlers_keep_names_unique Samples.world_alpha
              (Returned (mkResponse 201 (JProject (mkProject "3" "Beta"))))
              Samples.world_beta
              ltac:(repeat constructor; cbn; intuition discriminate)
              ltac:(repeat constructor; cbn; intuition discriminate)))))
           (Some {| ProjectsRoute.b_name := Some "Beta" |})).
  reflexivity.
Defined.

(** After Beta is created every task is still in a stored project. *)
Lemma handlers_keep_tasks_in_projects_witness :
  projects_consistent (db Samples.world_beta).
Proof.
  apply (proj1 (proj2 (proj2 (proj2
           (handlers_keep_tasks_in_projects Samples.world_alpha
              (Returned (mkResponse 201 (JProject (mkProject "3" "Beta"))))
              Samples.world_beta
              ltac:(intros t [<- | []]; split; [discriminate | now left])
              ltac:(repeat constructor; cbn; intuition discriminate)
              ltac:(vm_compute; intuition discriminate)))))
           (Some {| ProjectsRoute.b_name := Some "Beta" |})).
  reflexivity.
Defined.

(** Completing the task of the sample state through the tool, under an
    id followed by a query: the URL leads to the task all the same. *)
Lemma complete_task_witness :
  exists t' w',
    complete_task Samples.net_up "2?x" Samples.world_alpha =
      (Answered (mkToolResult (dquote ++ "Ship" ++ dquote ++ " is marked as done.")
                              false), w') /\
    find (has_id "2") (task_rows (db w')) = Some t' /\
    status t' = "done" /\
    buckets_of Scenario.page_dates t' = [ctx_completed].
Proof.
  destruct (proj2 (proj2 (proj2 (proj2 (proj2
              (complete_task_outcomes Samples.net_up "2?x" Samples.world_alpha)))))
              "2" Samples.alpha_task
              ltac:(discriminate) eq_refl eq_refl eq_refl eq_refl)
    as (t' & w' & R & F & E & B & _).
  exists t', w'. split; [exact R |]. split; [exact F |].
  split; [now rewrite E | apply B].
Defined.

(** Adding a task through the tool: the title is trimmed and the source
    is claude. *)
Lemma add_task_witness :
  exists t w',
    fst (add_task Samples.net_up Samples.add_args Samples.world_alpha)
      = Answered
          (mkToolResult
             ("Saved " ++ dquote ++ "Write report" ++ dquote
              ++ " to your Action Center under *" ++ "Alpha"
              ++ "*. (ID: " ++ Page.id t ++ ")") false) /\
    task_rows (db w') = (task_rows (db Samples.world_alpha) ++ [t])%list /\
    source t = "claude".
Proof.
  destruct (proj2 (proj2 (proj2
              (proj2 (add_task_outcomes Samples.net_up Samples.add_args
                        Samples.world_alpha)
                 ltac:(discriminate) ltac:(discriminate) ltac:(discriminate))))
              eq_refl eq_refl
              ltac:(vm_compute; discriminate) ltac:(vm_compute; discriminate))
    as (t & w' & R & Rt & _ & _ & _ & _ & _ & _ & Sc & _).
  exists t, w'. split; [now rewrite R |]. split; [exact Rt | exact Sc].
Defined.

(** Updating the title and the due date through the tool; and a status
    that is none of the four is refused before any request. *)
Lemma update_task_witness :
  (exists t' w',
     update_task Samples.net_up "2" Samples.update_args Samples.world_alpha =
       (Answered
          (mkToolResult
             ("Updated " ++ dquote ++ "Ship it" ++ dquote
              ++ ". Changed: " ++ "title, due_date" ++ ".") false), w') /\
     find (has_id "2") (task_rows (db w')) = Some t' /\
     title t' = "Ship it" /\ due_date t' = Some "2026-11-10" /\
     status t' = "pending") /\
  update_task Samples.net_up "2" Samples.update_bad_status Samples.world_alpha
    = (Refused, Samples.world_alpha).
Proof.
  split.
  - destruct (proj2 (proj2 (proj2
                (proj2 (update_task_outcomes Samples.net_up "2" Samples.update_args
                          Samples.world_alpha)
                   ltac:(discriminate) I)))
                "2" Samples.alpha_task
                ltac:(discriminate) eq_refl eq_refl eq_refl eq_refl)
      as (t' & w' & R & F & E & _).
    exists t', w'. split; [exact R |]. split; [exact F |].
    rewrite E. repeat split.
  - apply (proj1 (update_task_outcomes Samples.net_up "2" Samples.update_bad_status
                    Samples.world_alpha)).
    right. cbn. intuition discriminate.
Defined.


(** A task created with the empty string as due date is shown twice. *)
Lemma empty_due_date_witness :
  exists t,
    JTask Samples.task_empty_due = JTask t /\
    In t (task_rows (db Samples.world_empty_due)) /\
    due_date t = Some EmptyString /\
    buckets_of Scenario.page_dates t = [ctx_overdue; ctx_unscheduled].
Proof.
  apply (empty_due_date_shown_twice Scenario.monday Scenario.page_dates
           Samples.body_empty_due Samples.world_alpha
           (mkResponse 201 (JTask Samples.task_empty_due)) Samples.world_empty_due).
  - valid_sample.
  - vm_compute. discriminate.
  - vm_compute. reflexivity.
  - reflexivity.
  - reflexivity.
  - reflexivity.
Defined.

(** A tick of a task in progress: answered with an error it leaves the
    task shown as pending; not answered at all, as done. *)
Lemma handleCheck_witness :
  LegacyPage.handleCheck "2" (LegacyPage.answered false)
      [with_status "in_progress" Samples.alpha_task]
    <> [with_status "in_progress" Samples.alpha_task] /\
  LegacyPage.handleCheck "2" LegacyPage.rejected
      [with_status "in_progress" Samples.alpha_task]
    <> [with_status "in_progress" Samples.alpha_task].
Proof.
  split.
  - apply (proj1 (proj2 (proj2 (proj2
             (handleCheck_outcomes "2" [with_status "in_progress" Samples.alpha_task]))))
             (with_status "in_progress" Samples.alpha_task));
      [now left | reflexivity | discriminate].
  - apply (proj1 (proj2 (proj2 (proj2 (proj2 (proj2
             (handleCheck_outcomes "2" [with_status "in_progress" Samples.alpha_task]))))))
             (with_status "in_progress" Samples.alpha_task));
      [now left | reflexivity | discriminate].
Defined.

End MoreRuns.
